(** * altair_widgets: the settings synchronizer and the chart compiler

    A shallow embedding of [altair_widgets/widget.py].  The module builds a
    form of notebook widgets (one row per encoding plus a mark row), keeps a
    nested settings dictionary in step with the controls, and compiles the
    settings into calls of the charting library.

    Python values are the kinds that occur in the settings (None, booleans,
    strings, and the scale descriptor the compiler puts among the keyword
    options); dictionaries with string keys are finite maps; a Python
    exception is an explicit outcome, and a method that mutates the
    instance is a state transformer that keeps the mutations made before an
    exception was raised. *)

From Stdlib Require Import ZArith Ascii String List.
From stdpp Require Import gmap strings list fin_maps.

Local Open Scope string_scope.
Local Open Scope list_scope.
Local Open Scope Z_scope.

(** ** Python values and exceptions *)

Inductive pyval : Type :=
  | VNone
  | VBool (b : bool)
  | VStr (s : string)
  | VScale (type zero : pyval).

#[global] Instance pyval_eq_dec : EqDecision pyval.
Proof.
  unfold EqDecision, Decision. decide equality.
  - apply (decide (_ = _)).
  - apply (decide (_ = _)).
Defined.

Inductive exn : Type :=
  | ValueError
  | KeyError
  | IndexError
  | TypeError
  | AttributeError
  | TraitError.

Inductive outcome (A : Type) : Type :=
  | Returned (a : A)
  | Raised (e : exn).
Arguments Returned {A} a.
Arguments Raised {A} e.

Definition obind {A B} (c : outcome A) (k : A -> outcome B) : outcome B :=
  match c with
  | Returned a => k a
  | Raised e => Raised e
  end.

Declare Scope out_scope.
Delimit Scope out_scope with out.
Notation "'let!' x := c 'in' k" := (obind c (fun x => k))
  (at level 10, x name, c at level 100, k at level 200) : out_scope.

(** A method body: a state transformer that may raise.  The state after a
    raise is the state at the raise, as in Python. *)
Definition ST (S A : Type) : Type := S -> outcome A * S.

Definition sret {S A} (a : A) : ST S A := fun s => (Returned a, s).
Definition sraise {S A} (e : exn) : ST S A := fun s => (Raised e, s).
Definition sbind {S A B} (c : ST S A) (k : A -> ST S B) : ST S B :=
  fun s => match c s with
           | (Returned a, s') => k a s'
           | (Raised e, s') => (Raised e, s')
           end.
Definition sget {S} : ST S S := fun s => (Returned s, s).
Definition slift {S A} (c : outcome A) : ST S A := fun s => (c, s).

Declare Scope st_scope.
Delimit Scope st_scope with st.
Notation "'let!' x := c 'in' k" := (sbind c (fun x => k))
  (at level 10, x name, c at level 100, k at level 200) : st_scope.
Notation "'run!' c 'in' k" := (sbind c (fun _ => k))
  (at level 10, c at level 100, k at level 200) : st_scope.

(** ** Strings *)

(** [needle in hay] on Python strings. *)
Fixpoint str_contains (needle hay : string) : bool :=
  if String.prefix needle hay then true
  else match hay with
       | EmptyString => false
       | String _ hay' => str_contains needle hay'
       end.

Definition upper_ascii (c : ascii) : ascii :=
  let n := nat_of_ascii c in
  if (97 <=? n)%nat && (n <=? 122)%nat then ascii_of_nat (n - 32) else c.

Definition lower_ascii (c : ascii) : ascii :=
  let n := nat_of_ascii c in
  if (65 <=? n)%nat && (n <=? 90)%nat then ascii_of_nat (n + 32) else c.

Fixpoint str_map (f : ascii -> ascii) (s : string) : string :=
  match s with
  | EmptyString => EmptyString
  | String c s' => String (f c) (str_map f s')
  end.

(** [str.capitalize()] on the ASCII strings of the model: first character
    upper case, the rest lower case.  Python capitalises by Unicode; the
    names the form passes here are the encodings of the catalog, which are
    ASCII. *)
Definition capitalize (s : string) : string :=
  match s with
  | EmptyString => EmptyString
  | String c s' => String (upper_ascii c) (str_map lower_ascii s')
  end.

(** [needle in v] for a Python value: only a string can be searched. *)
Definition py_in (needle : string) (v : pyval) : outcome bool :=
  match v with
  | VStr s => Returned (str_contains needle s)
  | _ => Raised TypeError
  end.

(** ** Sequences and dictionaries *)

(** Position of [l[i]] for a Python index [i]: negative indices count from
    the end, anything outside raises [IndexError]. *)
Definition py_pos (n : nat) (i : Z) : outcome nat :=
  if (0 <=? i) && (i <? Z.of_nat n) then Returned (Z.to_nat i)
  else if (- Z.of_nat n <=? i) && (i <? 0) then Returned (Z.to_nat (Z.of_nat n + i))
  else Raised IndexError.

Definition py_getitem {A} (l : list A) (i : Z) : outcome A :=
  (let! p := py_pos (length l) i in
   match l !! p with
   | Some a => Returned a
   | None => Raised IndexError
   end)%out.

(** [l[:n]] *)
Definition py_slice_to {A} (l : list A) (n : Z) : list A :=
  if 0 <=? n then take (Z.to_nat n) l
  else take (Z.to_nat (Z.of_nat (length l) + n)) l.

(** [range(n)] *)
Definition py_range (n : Z) : list Z :=
  Z.of_nat <$> seq 0 (Z.to_nat n).

Abbreviation dict := (gmap string pyval).

(** [d[k]] *)
Definition dict_getitem {V} (d : gmap string V) (k : string) : outcome V :=
  match d !! k with
  | Some v => Returned v
  | None => Raised KeyError
  end.

(** [d.pop(k)]: the value and the dictionary without [k]. *)
Definition dict_pop {V} (d : gmap string V) (k : string) : outcome (V * gmap string V) :=
  match d !! k with
  | Some v => Returned (v, delete k d)
  | None => Raised KeyError
  end.

(** [d.pop(k, None)] *)
Definition dict_pop_default (d : dict) (k : string) : pyval * dict :=
  match d !! k with
  | Some v => (v, delete k d)
  | None => (VNone, d)
  end.

(** A dictionary built by a comprehension or from a literal: a later pair
    overwrites an earlier one with the same key. *)
Definition dict_of_pairs {K} `{Countable K} {V} (l : list (K * V)) : gmap K V :=
  foldl (fun m kv => <[kv.1 := kv.2]> m) ∅ l.

(** [monadic map] over a list, left to right. *)
Fixpoint omap_list {A B} (f : A -> outcome B) (l : list A) : outcome (list B) :=
  match l with
  | [] => Returned []
  | a :: l' => (let! b := f a in let! bs := omap_list f l' in Returned (b :: bs))%out
  end.

(** ** The catalogs *)

Definition _get_columns (df_columns : list string) : list string :=
  df_columns ++ ["*"].

Definition _get_types : list string :=
  ["quantitative"; "ordinal"; "nominal"; "temporal"].

Definition _get_encodings : list string :=
  ["x"; "y"; "color"; "text"; "row"; "column"; "opacity"; "shape"; "size"].

Definition _get_functions : list string :=
  ["mean"; "min"; "max"; "median"; "average"; "sum";
   "count"; "distinct"; "variance"; "stdev"; "q1"; "q3";
   "argmin"; "argmax"].

Definition _get_marks : list string :=
  (fun f => "mark_" +:+ f) <$>
    ["point"; "circle"; "line"; "bar"; "tick"; "text"; "square"; "rule"; "area"].

Definition _get_mark_params : list string :=
  ["color"; "applyColorToBackground"; "shortTimeLabels"].

(** [adv_settings[k] += extra] *)
Definition dict_extend (k : string) (extra : list string)
    (m : gmap string (list string)) : outcome (gmap string (list string)) :=
  (let! l := dict_getitem m k in Returned (<[k := l ++ extra]> m))%out.

Definition _get_advanced_settings (e : pyval) : outcome (list string) :=
  (let adv_settings : gmap string (list string) :=
     dict_of_pairs ((fun e => (e, ["type"; "bin"; "aggregate"])) <$> _get_encodings) in
   let! adv_settings := dict_extend "x" ["zero"; "scale"] adv_settings in
   let! adv_settings := dict_extend "y" ["zero"; "scale"] adv_settings in
   let! adv_settings := dict_extend "text" ["text"] adv_settings in
   let mark_settings : gmap string (list string) :=
     dict_of_pairs ((fun mark => (mark, _get_mark_params)) <$> _get_marks) in
   let adv_settings := mark_settings ∪ adv_settings in
   match e with
   | VStr k => dict_getitem adv_settings k
   | _ => Raised KeyError
   end)%out.

(** ** The widget toolkit

    A widget of the toolkit with the attributes the module reads or writes:
    the toolkit's own ([options], [value], [disabled], [visible],
    [children], the registered callbacks) and the two tags the module
    attaches ([row] and [title]).  Layout attributes only change the
    presentation and are left out. *)

Inductive wkind : Type := Dropdown | Checkbox | Text | Button | HBox | VBox.

(** The two bound methods that are registered as callbacks. *)
Inductive callback : Type := CbUpdate | CbShowAdvanced.

#[local] Set Warnings "-register-all".
Inductive widget : Type := Widget {
  w_kind : wkind;
  w_description : string;
  w_options : list pyval;
  w_value : pyval;
  w_row : option Z;
  w_title : option string;
  w_disabled : bool;
  w_visible : bool;
  w_children : list widget;
  w_observers : list callback }.

Definition set_row (r : Z) (w : widget) : widget :=
  Widget (w_kind w) (w_description w) (w_options w) (w_value w) (Some r)
    (w_title w) (w_disabled w) (w_visible w) (w_children w) (w_observers w).

Definition set_title (t : string) (w : widget) : widget :=
  Widget (w_kind w) (w_description w) (w_options w) (w_value w) (w_row w)
    (Some t) (w_disabled w) (w_visible w) (w_children w) (w_observers w).

Definition set_value (v : pyval) (w : widget) : widget :=
  Widget (w_kind w) (w_description w) (w_options w) v (w_row w)
    (w_title w) (w_disabled w) (w_visible w) (w_children w) (w_observers w).

Definition set_disabled (b : bool) (w : widget) : widget :=
  Widget (w_kind w) (w_description w) (w_options w) (w_value w) (w_row w)
    (w_title w) b (w_visible w) (w_children w) (w_observers w).

Definition set_visible (b : bool) (w : widget) : widget :=
  Widget (w_kind w) (w_description w) (w_options w) (w_value w) (w_row w)
    (w_title w) (w_disabled w) b (w_children w) (w_observers w).

Definition set_children (cs : list widget) (w : widget) : widget :=
  Widget (w_kind w) (w_description w) (w_options w) (w_value w) (w_row w)
    (w_title w) (w_disabled w) (w_visible w) cs (w_observers w).

(** [w.observe(cb, names='value')] and [w.on_click(cb)] *)
Definition observe (cb : callback) (w : widget) : widget :=
  Widget (w_kind w) (w_description w) (w_options w) (w_value w) (w_row w)
    (w_title w) (w_disabled w) (w_visible w) (w_children w) (w_observers w ++ [cb]).

(** The constructors of the toolkit.  A dropdown without a [value] shows its
    first option; a checkbox starts unchecked, a text box empty. *)
Definition new_Dropdown (options : list pyval) (description : string)
    (value : option pyval) : widget :=
  Widget Dropdown description options
    (match value with Some v => v | None => default VNone (head options) end)
    None None false true [] [].

Definition new_Checkbox (description : string) : widget :=
  Widget Checkbox description [] (VBool false) None None false true [] [].

Definition new_Text (description : string) : widget :=
  Widget Text description [] (VStr "") None None false true [] [].

Definition new_Button (description : string) : widget :=
  Widget Button description [] VNone None None false true [] [].

Definition new_HBox (children : list widget) (visible : bool) : widget :=
  Widget HBox "" [] VNone None None false visible children [].

Definition new_VBox (children : list widget) (visible : bool) : widget :=
  Widget VBox "" [] VNone None None false visible children [].

(** Reading a tag that was never attached raises [AttributeError]. *)
Definition attr {A} (a : option A) : outcome A :=
  match a with
  | Some x => Returned x
  | None => Raised AttributeError
  end.

Definition _controllers_for (opt : string) : outcome widget :=
  let colors := [VNone; VStr "blue"; VStr "red"; VStr "green"; VStr "black"] in
  let controllers : gmap string widget := dict_of_pairs
    [("type", new_Dropdown (VStr "auto detect" :: (VStr <$> _get_types)) "type" None);
     ("bin", new_Checkbox "bin");
     ("aggregate", new_Dropdown (VNone :: (VStr <$> _get_functions)) "aggregate" None);
     ("zero", new_Checkbox "zero");
     ("text", new_Text "text value");
     ("scale", new_Dropdown [VStr "linear"; VStr "log"] "scale" None);
     ("color", new_Dropdown colors "main color" None);
     ("applyColorToBackground", new_Checkbox "applyColorToBackground");
     ("shortTimeLabels", new_Checkbox "shortTimeLabels")] in
  let controllers := map_imap (fun title controller => Some (set_title title controller))
                       controllers in
  dict_getitem controllers opt.

(** ** The charting library

    The charting library [altair] is not part of the repository.  The model
    records what the module hands to it: a field descriptor is the call of
    the channel class of [altair] on the column and the keyword options,
    where an option is a plain value or the scale descriptor
    [altair.Scale(type=.., zero=..)], the value [VScale]; a chart is the
    mark method of [altair.Chart(df)] called on the mark options, then
    [encode] called on the field descriptors.

    A recorded call stands for the object that the library returns when it
    accepts the call.  The library can also refuse a call: it has no class
    or no mark method of that name, or it rejects an option (the type
    'auto detect', for one), and then the module raises what the library
    raises.  [_get_plot_command] and [plot_chart] below are the module's own
    part of the compilation, with every call accepted; a result [Returned]
    of theirs reads "returns, unless the library refuses a call". *)

Record field : Type := Field {
  f_channel : string;
  f_shorthand : pyval;
  f_options : dict }.

Record Chart : Type := MkChart {
  c_data : list string;
  c_mark : string;
  c_mark_opts : gmap string pyval;
  c_encoding : gmap string (option field) }.

#[global] Instance field_eq_dec : EqDecision field.
Proof. solve_decision. Defined.

Definition _get_plot_command (e : dict) : outcome (option field) :=
  (let d := e in
   if decide (e !! "column" = None) then Returned None else
   let! p := dict_pop d "encoding" in
   let encoding := p.1 in let d := p.2 in
   let! p := dict_pop d "column" in
   let column := p.1 in let d := p.2 in
   let scale_d :=
     if bool_decide (is_Some (d !! "scale")) || bool_decide (is_Some (d !! "zero")) then
       let p := dict_pop_default d "scale" in
       let type := p.1 in let d := p.2 in
       let p := dict_pop_default d "zero" in
       let zero := p.1 in let d := p.2 in
       (({["scale" := VScale type zero]} : dict), d)
     else (∅, d) in
   let scale := scale_d.1 in let d := scale_d.2 in
   let d : dict := scale ∪ d in
   match encoding with
   | VStr encoding => Returned (Some (Field (capitalize encoding) column d))
   | _ => Raised AttributeError
   end)%out.

(** ** The instance *)

Record Settings : Type := MkSettings {
  mark : dict;
  encodings : list dict }.

(** What [display] put on the output area of the notebook cell. *)
Inductive shown : Type :=
  | ShownController
  | ShownChart (c : Chart).

(** An [Interact] object, together with the output area it draws on.  Of
    the DataFrame only the column labels are used. *)
Record Interact : Type := MkInteract {
  df : list string;
  settings : Settings;
  controller : widget;
  show : bool;
  chart : option Chart;
  cell : list shown }.

Definition set_mark (m : dict) (self : Interact) : Interact :=
  MkInteract (df self) (MkSettings m (encodings (settings self)))
    (controller self) (show self) (chart self) (cell self).

Definition set_encodings (es : list dict) (self : Interact) : Interact :=
  MkInteract (df self) (MkSettings (mark (settings self)) es)
    (controller self) (show self) (chart self) (cell self).

Definition set_controller (w : widget) (self : Interact) : Interact :=
  MkInteract (df self) (settings self) w (show self) (chart self) (cell self).

Definition set_chart (c : Chart) (self : Interact) : Interact :=
  MkInteract (df self) (settings self) (controller self) (show self) (Some c) (cell self).

Definition set_cell (out : list shown) (self : Interact) : Interact :=
  MkInteract (df self) (settings self) (controller self) (show self) (chart self) out.

(** The event the toolkit passes to an observer of [value]. *)
Record event : Type := MkEvent {
  owner : widget;
  new : pyval;
  old : pyval }.

(** *** The chart compiler *)

(** Passing a dictionary as [**kwargs]: every key has to be a string. *)
Fixpoint keywords {V} (pairs : list (pyval * V)) (acc : gmap string V)
    : outcome (gmap string V) :=
  match pairs with
  | [] => Returned acc
  | (VStr s, v) :: rest => keywords rest (<[s := v]> acc)
  | _ :: _ => Raised TypeError
  end.

(** One item of the comprehension that builds [kwargs]. *)
Definition plot_item (e : dict) : outcome (pyval * option field) :=
  (let! k := dict_getitem e "encoding" in
   let! v := _get_plot_command e in
   Returned (k, v))%out.

(** The chart that [plot] assigns to [self.chart]. *)
Definition plot_chart (self : Interact) : outcome Chart :=
  (let! kwargs := omap_list plot_item (encodings (settings self)) in
   let mark_opts := mark (settings self) in
   let! p := dict_pop mark_opts "mark" in
   let mark := p.1 in let mark_opts := p.2 in
   match mark with
   | VStr mark =>
       let! kwargs := keywords kwargs ∅ in
       Returned (MkChart (df self) mark mark_opts kwargs)
   | _ => Raised TypeError
   end)%out.

(** [plot(self, settings, show=True)]: the chart is stored in [self.chart]
    and, when both [show] flags are set, replaces what the cell shows. *)
Definition plot (settings : Settings) (show_arg : bool) : ST Interact unit :=
  fun self =>
    match plot_chart self with
    | Raised e => (Raised e, self)
    | Returned c =>
        let self := set_chart c self in
        if show_arg && show self then (Returned tt, set_cell [ShownChart c] self)
        else (Returned tt, self)
    end.

(** *** The settings synchronizer *)

(** [self.settings['mark'][title] = v] *)
Definition mark_setitem (title : string) (v : pyval) : ST Interact unit :=
  fun self => (Returned tt, set_mark (<[title := v]> (mark (settings self))) self).

(** An operation on the dictionary [self.settings['encodings'][index]]. *)
Definition on_entry (index : Z) (f : dict -> outcome dict) : ST Interact unit :=
  fun self =>
    let es := encodings (settings self) in
    match py_pos (length es) index with
    | Raised e => (Raised e, self)
    | Returned p =>
        match es !! p with
        | None => (Raised IndexError, self)
        | Some d =>
            match f d with
            | Raised e => (Raised e, self)
            | Returned d' => (Returned tt, set_encodings (<[p := d']> es) self)
            end
        end
    end.

Definition entry_pop (k : string) (d : dict) : outcome dict :=
  (let! p := dict_pop d k in Returned p.2)%out.

Definition entry_pop_default (k : string) (d : dict) : outcome dict :=
  Returned (dict_pop_default d k).2.

Definition entry_setitem (k : string) (v : pyval) (d : dict) : outcome dict :=
  Returned (<[k := v]> d).

(** The handler.  On an encoding row the test on the type selector is an
    [if] of its own, followed by the [if]/[else] on the text control.  The
    source compares the value of a text control with the empty string by
    identity ([value is '']); CPython keeps a single empty string, so this is
    equality with the empty string here. *)
Definition update (ev : event) : ST Interact unit :=
  (let! index := slift (attr (w_row (owner ev))) in
   let! title := slift (attr (w_title (owner ev))) in
   let value := w_value (owner ev) in
   run! (if index =? -1 then mark_setitem title (new ev)
         else
           run! (if String.eqb title "type" then
                   let! auto := slift (py_in "auto" value) in
                   if auto then on_entry index (entry_pop_default "type") else sret tt
                 else sret tt) in
           if String.eqb title "text" then
             if decide (value = VStr "") then on_entry index (entry_pop_default "text")
             else on_entry index (entry_setitem "column" value)
           else
             if decide (new ev = VNone) then on_entry index (entry_pop title)
             else on_entry index (entry_setitem title (new ev))) in
   let! self := sget in
   plot (settings self) true)%st.

(** *** The controller tree *)

(** [l[i] = f(l[i])] on a tuple of children. *)
Definition modify_at {A} (l : list A) (i : Z) (f : A -> A) : outcome (list A) :=
  (let! p := py_pos (length l) i in
   match l !! p with
   | Some a => Returned (<[p := f a]> l)
   | None => Raised IndexError
   end)%out.

(** An assignment to an attribute of
    [self.controller.children[row].children[k]]. *)
Definition on_cell (row k : Z) (f : widget -> widget) : ST Interact unit :=
  fun self =>
    let rows := w_children (controller self) in
    match (let! p := py_pos (length rows) row in
           match rows !! p with
           | None => Raised IndexError
           | Some r =>
               let! cs := modify_at (w_children r) k f in
               Returned (<[p := set_children cs r]> rows)
           end)%out with
    | Raised e => (Raised e, self)
    | Returned rows' =>
        (Returned tt, set_controller (set_children rows' (controller self)) self)
    end.

Definition _show_advanced (button : widget) (disable : Z) : ST Interact unit :=
  (let! title := slift (attr (w_title button)) in
   let disable := if str_contains "mark" title then 0 else disable in
   let! row := slift (attr (w_row button)) in
   let! self := sget in
   let! rowbox := slift (py_getitem (w_children (controller self)) row) in
   let! selector := slift (py_getitem (w_children rowbox) disable) in
   let encoding := w_value selector in
   let! adv := slift (_get_advanced_settings encoding) in
   let! controllers := slift (omap_list _controllers_for adv) in
   let controllers := (fun c => observe CbUpdate (set_row row c)) <$> controllers in
   let! panel := slift (py_getitem (w_children rowbox) (-1)) in
   let visible := w_visible panel in
   run! on_cell row disable (set_disabled (negb visible)) in
   run! on_cell row (-1) (set_visible (negb visible)) in
   on_cell row (-1) (set_children controllers))%st.

Definition _create_shelf (columns : list pyval) (i : Z) : outcome widget :=
  (let encodings := _get_encodings in
   let cols := new_Dropdown columns "encode" None in
   let! dflt := py_getitem encodings i in
   let encoding := new_Dropdown (VStr <$> encodings) "as" (Some (VStr dflt)) in
   let adv := new_HBox [] false in
   let button := new_Button "options" in
   let button := observe CbShowAdvanced button in
   let encoding := observe CbUpdate encoding in
   let cols := observe CbUpdate cols in
   let encoding := set_row i encoding in
   let cols := set_row i cols in
   let button := set_row i button in
   let adv := set_row i adv in
   let encoding := set_title "encoding" encoding in
   let cols := set_title "column" cols in
   let button := set_title "button" button in
   let adv := set_title "advanced" adv in
   Returned (new_HBox [cols; encoding; button; adv] true))%out.

Definition _generate_controller (columns : list pyval) (ndims : Z) : outcome widget :=
  (let marks := _get_marks in
   let mark_choose := new_Dropdown (VStr <$> marks) "Marks" None in
   let mark_choose := observe CbUpdate mark_choose in
   let mark_choose := set_row (-1) mark_choose in
   let mark_choose := set_title "mark" mark_choose in
   let mark_but := new_Button "options" in
   let mark_but := set_row (-1) mark_but in
   let mark_but := set_title "mark_button" mark_but in
   let mark_opt := new_VBox [] false in
   let mark_but := observe CbShowAdvanced mark_but in
   let mark_opt := set_title "mark_options" mark_opt in
   let! dims := omap_list (_create_shelf columns) (py_range ndims) in
   let choices := dims ++ [new_HBox [mark_choose; mark_but; mark_opt] true] in
   Returned (new_VBox choices true))%out.

(** The argument of the constructor: a DataFrame or anything else. *)
Inductive pyobj : Type :=
  | DataFrame (columns : list string)
  | NotDataFrame.

Definition __init__ (data : pyobj) (ndims : Z) (show : bool) : outcome Interact :=
  match data with
  | NotDataFrame => Raised ValueError
  | DataFrame df_columns =>
      let columns := VNone :: (VStr <$> _get_columns df_columns) in
      let encodings := _get_encodings in
      let encodings :=
        (fun encoding => ({["encoding" := VStr encoding]} : dict)) <$>
          py_slice_to encodings ndims in
      let settings := MkSettings {["mark" := VStr "mark_point"]} encodings in
      match _generate_controller columns ndims with
      | Raised e => Raised e
      | Returned controller =>
          let self := MkInteract df_columns settings controller show None
                        (if show then [ShownController] else []) in
          match plot settings show self with
          | (Returned _, self) => Returned self
          | (Raised e, _) => Raised e
          end
      end
  end.

Definition interact_with (data : pyobj) (ndims : Z) (show : bool) : outcome Interact :=
  __init__ data ndims show.

(** ** Dictionaries as shared objects

    The settings are dictionaries that the instance, the handler and the
    compiler all reach through references.  Here a store holds the
    dictionaries, the settings are references into it, and the compiler is
    written with the reads, copies and in-place pops of the source. *)

Module Store.

Abbreviation ref := nat.
Abbreviation store := (list dict).

(** A dictionary display or comprehension: a new object. *)
Definition new_dict (d : dict) : ST store ref :=
  fun σ => (Returned (length σ), σ ++ [d]).

(** The dictionary a reference points to. *)
Definition deref (r : ref) : ST store dict :=
  fun σ => (Returned (default ∅ (σ !! r)), σ).

Definition assign (r : ref) (d : dict) : ST store unit :=
  fun σ => (Returned tt, <[r := d]> σ).

(** [{k: v for k, v in r.items()}] *)
Definition ref_copy (r : ref) : ST store ref :=
  (let! d := deref r in new_dict d)%st.

(** [k in r] *)
Definition ref_contains (r : ref) (k : string) : ST store bool :=
  (let! d := deref r in sret (bool_decide (is_Some (d !! k))))%st.

(** [r[k]] *)
Definition ref_getitem (r : ref) (k : string) : ST store pyval :=
  (let! d := deref r in slift (dict_getitem d k))%st.

(** [r.pop(k)], in place *)
Definition ref_pop (r : ref) (k : string) : ST store pyval :=
  (let! d := deref r in
   let! p := slift (dict_pop d k) in
   let! _ := assign r p.2 in
   sret p.1)%st.

(** [r.pop(k, None)], in place *)
Definition ref_pop_default (r : ref) (k : string) : ST store pyval :=
  (let! d := deref r in
   let p := dict_pop_default d k in
   let! _ := assign r p.2 in
   sret p.1)%st.

(** [r.update(other)], in place *)
Definition ref_update (r other : ref) : ST store unit :=
  (let! d := deref r in
   let! o := deref other in
   assign r (o ∪ d))%st.

Definition _get_plot_command (e : ref) : ST store (option field) :=
  (let! d := ref_copy e in
   let! bound := ref_contains e "column" in
   if negb bound then sret None else
   let! encoding := ref_pop d "encoding" in
   let! column := ref_pop d "column" in
   let! scale := new_dict ∅ in
   let! has_scale := ref_contains d "scale" in
   let! has_zero := ref_contains d "zero" in
   let! scale :=
     (if has_scale || has_zero then
        let! type := ref_pop_default d "scale" in
        let! zero := ref_pop_default d "zero" in
        new_dict {["scale" := VScale type zero]}
      else sret scale) in
   let! _ := ref_update d scale in
   let! options := deref d in
   match encoding with
   | VStr encoding => sret (Some (Field (capitalize encoding) column options))
   | _ => sraise AttributeError
   end)%st.

(** [self.settings] as the objects it is made of. *)
Record SettingsRef : Type := MkSettingsRef {
  mark_ref : ref;
  encodings_refs : list ref }.

Fixpoint smap_list {S A B} (f : A -> ST S B) (l : list A) : ST S (list B) :=
  match l with
  | [] => sret []
  | a :: l' => (let! b := f a in let! bs := smap_list f l' in sret (b :: bs))%st
  end.

Definition plot_item (e : ref) : ST store (pyval * option field) :=
  (let! k := ref_getitem e "encoding" in
   let! v := _get_plot_command e in
   sret (k, v))%st.

(** The chart [plot] builds from [self.df] and [self.settings]. *)
Definition plot_chart (df : list string) (s : SettingsRef) : ST store Chart :=
  (let! kwargs := smap_list plot_item (encodings_refs s) in
   let! mark_opts := ref_copy (mark_ref s) in
   let! mark := ref_pop mark_opts "mark" in
   match mark with
   | VStr mark =>
       let! mark_opts := deref mark_opts in
       let! kwargs := slift (keywords kwargs ∅) in
       sret (MkChart df mark mark_opts kwargs)
   | _ => sraise TypeError
   end)%st.

(** The settings a store holds behind the references. *)
Definition read_settings (s : SettingsRef) (σ : store) : Settings :=
  MkSettings (default ∅ (σ !! mark_ref s))
             ((fun r => default ∅ (σ !! r)) <$> encodings_refs s).

End Store.

(** ** The user at the form

    What the toolkit does when the user acts on the widget at position [k]
    of row [row]: a click on a button calls the click handlers; a new value
    in a control is stored in the control and then passed to its observers.
    The toolkit refuses a value the control cannot hold, and a disabled
    control or a hidden panel cannot be operated. *)

Definition widget_at (self : Interact) (row k : Z) : outcome widget :=
  (let! r := py_getitem (w_children (controller self)) row in
   py_getitem (w_children r) k)%out.

Definition call (cb : callback) (w : widget) (new old : pyval) : ST Interact unit :=
  match cb with
  | CbUpdate => update (MkEvent w new old)
  | CbShowAdvanced => _show_advanced w 1
  end.

Fixpoint notify (cbs : list callback) (w : widget) (new old : pyval) : ST Interact unit :=
  match cbs with
  | [] => sret tt
  | cb :: cbs' => (let! _ := call cb w new old in notify cbs' w new old)%st
  end.

Definition accepts (w : widget) (v : pyval) : bool :=
  match w_kind w with
  | Dropdown => bool_decide (v ∈ w_options w)
  | Checkbox => match v with VBool _ => true | _ => false end
  | Text => match v with VStr _ => true | _ => false end
  | _ => false
  end.

Inductive action : Type :=
  | Click (row k : Z)
  | Choose (row k : Z) (v : pyval)
  | Edit (row j : Z) (v : pyval).

(** The children of an advanced panel with the value of child [j] set. *)
Definition edit_child (j : Z) (v : pyval) (panel : widget) : widget :=
  match modify_at (w_children panel) j (set_value v) with
  | Returned cs => set_children cs panel
  | Raised _ => panel
  end.

Definition perform (a : action) : ST Interact unit :=
  match a with
  | Click row k =>
      (let! self := sget in
       let! w := slift (widget_at self row k) in
       match w_kind w with
       | Button => notify (w_observers w) w VNone VNone
       | _ => sraise TypeError
       end)%st
  | Choose row k v =>
      (let! self := sget in
       let! w := slift (widget_at self row k) in
       if w_disabled w || negb (accepts w v) then sraise TraitError
       else if decide (v = w_value w) then sret tt
       else
         let! _ := on_cell row k (set_value v) in
         notify (w_observers w) (set_value v w) v (w_value w))%st
  | Edit row j v =>
      (let! self := sget in
       let! panel := slift (widget_at self row (-1)) in
       let! c := slift (py_getitem (w_children panel) j) in
       if negb (w_visible panel) || w_disabled c || negb (accepts c v) then sraise TraitError
       else if decide (v = w_value c) then sret tt
       else
         let! _ := on_cell row (-1) (edit_child j v) in
         notify (w_observers c) (set_value v c) v (w_value c))%st
  end.

Fixpoint perform_all (acts : list action) : ST Interact unit :=
  match acts with
  | [] => sret tt
  | a :: acts' => (let! _ := perform a in perform_all acts')%st
  end.

(** The states of a form: constructed, then operated by the user. *)
Inductive reachable : Interact -> Prop :=
  | reach_init data ndims show self :
      __init__ data ndims show = Returned self -> reachable self
  | reach_step a self :
      reachable self -> reachable (perform a self).2.

(** ** Observing a session

    The toolkit calls the observers of a control with an event whose owner
    already shows the new value. *)

Definition value_changed (w : widget) (v : pyval) : event :=
  MkEvent (set_value v w) v (w_value w).

(** A control of an advanced panel, as [_show_advanced] prepares it. *)
Definition advanced_control (row : Z) (opt : string) : outcome widget :=
  (let! c := _controllers_for opt in
   Returned (observe CbUpdate (set_row row c)))%out.

(** The value of key [k] in the [i]-th encoding entry, if any. *)
Definition entry_key (self : Interact) (i : nat) (k : string) : option pyval :=
  encodings (settings self) !! i ≫= (fun d : dict => d !! k).


(** Construct an instance, run a method on it, and observe the result. *)
Definition session {A B} (data : pyobj) (ndims : Z) (show : bool)
    (c : ST Interact A) (obs : Interact -> B) : outcome (outcome A * B) :=
  (let! self := __init__ data ndims show in
   let r := c self in
   Returned (r.1, obs r.2))%out.

(** * Notions used in the statements *)

(** ** Settings *)

(** A settings dictionary without [None] values. *)
Definition no_None (d : dict) : Prop :=
  forall k, d !! k <> Some VNone.

(** The entries a fresh form starts from. *)
Definition initial_entry (encoding : string) : dict := {["encoding" := VStr encoding]}.

(** The options of a bound entry that are passed on as they are. *)
Definition plain_options (e : dict) : dict :=
  delete "zero" (delete "scale" (delete "column" (delete "encoding" e))).

(** ** The rows of a fresh form *)

(** An encoding row: column selector, encoding selector, options button and
    advanced panel, tagged with the row index and wired to the handlers. *)
Definition is_shelf (i : Z) (w : widget) : Prop :=
  match w_children w with
  | [cols; encoding; button; adv] =>
      (w_row cols = Some i /\ w_title cols = Some "column" /\ w_observers cols = [CbUpdate]) /\
      (w_row encoding = Some i /\ w_title encoding = Some "encoding" /\
       w_observers encoding = [CbUpdate] /\
       exists e, _get_encodings !! Z.to_nat i = Some e /\ w_value encoding = VStr e) /\
      (w_row button = Some i /\ w_title button = Some "button" /\
       w_observers button = [CbShowAdvanced]) /\
      (w_row adv = Some i /\ w_title adv = Some "advanced" /\
       w_visible adv = false /\ w_children adv = [])
  | _ => False
  end.

(** The mark row: mark selector, options button and advanced panel. *)
Definition is_mark_row (w : widget) : Prop :=
  match w_children w with
  | [mark_choose; mark_but; mark_opt] =>
      (w_row mark_choose = Some (-1) /\ w_title mark_choose = Some "mark" /\
       w_observers mark_choose = [CbUpdate] /\ w_value mark_choose = VStr "mark_point") /\
      (w_row mark_but = Some (-1) /\ w_title mark_but = Some "mark_button" /\
       w_observers mark_but = [CbShowAdvanced]) /\
      (w_title mark_opt = Some "mark_options" /\ w_visible mark_opt = false /\
       w_children mark_opt = [])
  | _ => False
  end.

(** ** The dictionary form of a field

    The dictionary form of a field descriptor is computed by the charting
    library ([to_dict] of [altair]), which is not part of the repository.
    The spec and the doctest of [_get_plot_command] give it at one entry;
    the definitions below follow them. *)







(** ** The invariant of the controller tree *)

(** Computations that leave the controller tree alone. *)
Definition keeps_controller {A} (c : ST Interact A) : Prop :=
  forall self, controller (c self).2 = controller self.

Definition control_ok (c : widget) : Prop :=
  w_kind c = Dropdown /\ w_observers c = [CbUpdate].

Definition selector_ok (catalog : list string) (s : widget) : Prop :=
  control_ok s /\ w_options s = VStr <$> catalog /\ w_value s ∈ w_options s.

Definition button_ok (i : Z) (title : string) (b : widget) : Prop :=
  w_kind b = Button /\ w_row b = Some i /\ w_title b = Some title /\
  w_observers b = [CbShowAdvanced].

Definition panel_ok (a : widget) : Prop :=
  (w_kind a = HBox \/ w_kind a = VBox) /\
  Forall (fun c => w_observers c = [CbUpdate]) (w_children a).

Definition shelf_inv (i : Z) (w : widget) : Prop :=
  match w_children w with
  | [cols; encoding; button; adv] =>
      control_ok cols /\ selector_ok _get_encodings encoding /\
      button_ok i "button" button /\ panel_ok adv /\
      w_disabled encoding = w_visible adv
  | _ => False
  end.

Definition mark_inv (w : widget) : Prop :=
  match w_children w with
  | [mark_choose; mark_but; mark_opt] =>
      selector_ok _get_marks mark_choose /\
      button_ok (-1) "mark_button" mark_but /\ panel_ok mark_opt /\
      w_disabled mark_choose = w_visible mark_opt
  | _ => False
  end.

Definition form_inv (ctl : widget) : Prop :=
  exists rows mark_row,
    w_children ctl = rows ++ [mark_row] /\
    (forall j w, rows !! j = Some w -> shelf_inv (Z.of_nat j) w) /\
    mark_inv mark_row.

(** The place a button toggles: its row, the selector and the panel. *)
Definition toggle_site (ctl b : widget) (title : string) (row : Z)
    (p q qa : nat) (r selector panel : widget) : Prop :=
  w_title b = Some title /\
  w_row b = Some row /\
  py_pos (length (w_children ctl)) row = Returned p /\
  w_children ctl !! p = Some r /\
  py_pos (length (w_children r)) (if str_contains "mark" title then 0 else 1) = Returned q /\
  w_children r !! q = Some selector /\
  py_pos (length (w_children r)) (-1) = Returned qa /\
  w_children r !! qa = Some panel /\
  q <> qa.

(** ** Concrete inputs *)

Definition demo_columns : list string :=
  ["Sepal.Length"; "Sepal.Width"; "Species"].

(** A form over four dimensions, as constructed. *)
Definition demo_form : Interact :=
  match __init__ (DataFrame demo_columns) 4 true with
  | Returned self => self
  | Raised _ => MkInteract [] (MkSettings ∅ []) (new_VBox [] true) true None []
  end.

Definition x_W_log_zero : dict :=
  dict_of_pairs [("encoding", VStr "x"); ("column", VStr "W"); ("scale", VStr "log");
                 ("zero", VBool false); ("bin", VBool true)].


(** A store with the settings of a form: the mark options and two entries. *)
Definition demo_store : list dict :=
  [ {["mark" := VStr "mark_point"]};
    dict_of_pairs [("encoding", VStr "x"); ("column", VStr "W"); ("scale", VStr "log")];
    {["encoding" := VStr "y"]} ].

Definition demo_settings : Store.SettingsRef := Store.MkSettingsRef 0 [1%nat; 2%nat].

(** The form over four dimensions with the options of row 0 open. *)
Definition demo_open : Interact := (perform (Click 0 2) demo_form).2.


(** ** Notions used in the further properties *)

(** The first half of [update]: everything before the re-render. *)
Definition mutate (ev : event) : ST Interact unit :=
  (let! index := slift (attr (w_row (owner ev))) in
   let! title := slift (attr (w_title (owner ev))) in
   let value := w_value (owner ev) in
   if index =? -1 then mark_setitem title (new ev)
   else
     run! (if String.eqb title "type" then
             let! auto := slift (py_in "auto" value) in
             if auto then on_entry index (entry_pop_default "type") else sret tt
           else sret tt) in
     if String.eqb title "text" then
       if decide (value = VStr "") then on_entry index (entry_pop_default "text")
       else on_entry index (entry_setitem "column" value)
     else
       if decide (new ev = VNone) then on_entry index (entry_pop title)
       else on_entry index (entry_setitem title (new ev)))%st.

(** The instance with other settings. *)
Definition with_settings (st : Settings) (self : Interact) : Interact :=
  MkInteract (df self) st (controller self) (show self) (chart self) (cell self).

(** [st'] differs from [st] at most in the entry that [index] addresses. *)
Definition same_but (index : Z) (st st' : Settings) : Prop :=
  mark st' = mark st /\
  length (encodings st') = length (encodings st) /\
  forall p, py_pos (length (encodings st)) index = Returned p ->
    forall j, j <> p -> encodings st' !! j = encodings st !! j.

(** The table [_get_advanced_settings] looks its argument up in. *)
Definition advanced_table : gmap string (list string) :=
  dict_of_pairs ((fun mark => (mark, _get_mark_params)) <$> _get_marks)
  ∪ <["text" := (["type"; "bin"; "aggregate"; "text"])]>
      (<["y" := (["type"; "bin"; "aggregate"; "zero"; "scale"])]>
         (<["x" := (["type"; "bin"; "aggregate"; "zero"; "scale"])]>
            (dict_of_pairs ((fun e => (e, ["type"; "bin"; "aggregate"])) <$> _get_encodings)))).



(** Computations that change the controller tree only. *)
Definition only_controller {A} (c : ST Interact A) : Prop :=
  forall self, exists ctl, (c self).2 = set_controller ctl self.

(** ** The handlers when the library refuses

    [refusal] is the answer of the charting library to the calls of one
    re-render: [None] when it accepts them all, [Some e] when it raises [e]
    at one of them.  [plot] assigns [self.chart] and displays only after the
    last call to the library, so a refused re-render leaves the instance as
    it was.  Whatever the library does, the re-render ends as [render None]
    or as [render (Some e)] for the exception [e] that the library
    raises. *)

Definition render (refusal : option exn) : ST Interact unit :=
  match refusal with
  | None => (let! self := sget in plot (settings self) true)%st
  | Some e => sraise e
  end.

(** [update] with the answer of the library to its re-render. *)
Definition update_with (refusal : option exn) (ev : event) : ST Interact unit :=
  (run! mutate ev in render refusal)%st.

Definition call_with (refusal : option exn) (cb : callback) (w : widget) (new old : pyval)
    : ST Interact unit :=
  match cb with
  | CbUpdate => update_with refusal (MkEvent w new old)
  | CbShowAdvanced => _show_advanced w 1
  end.

Fixpoint notify_with (refusal : option exn) (cbs : list callback) (w : widget)
    (new old : pyval) : ST Interact unit :=
  match cbs with
  | [] => sret tt
  | cb :: cbs' =>
      (let! _ := call_with refusal cb w new old in notify_with refusal cbs' w new old)%st
  end.

(** The user at the form, as in [perform], with the answer of the library
    to the re-render that the action causes. *)
Definition perform_with (refusal : option exn) (a : action) : ST Interact unit :=
  match a with
  | Click row k =>
      (let! self := sget in
       let! w := slift (widget_at self row k) in
       match w_kind w with
       | Button => notify_with refusal (w_observers w) w VNone VNone
       | _ => sraise TypeError
       end)%st
  | Choose row k v =>
      (let! self := sget in
       let! w := slift (widget_at self row k) in
       if w_disabled w || negb (accepts w v) then sraise TraitError
       else if decide (v = w_value w) then sret tt
       else
         let! _ := on_cell row k (set_value v) in
         notify_with refusal (w_observers w) (set_value v w) v (w_value w))%st
  | Edit row j v =>
      (let! self := sget in
       let! panel := slift (widget_at self row (-1)) in
       let! c := slift (py_getitem (w_children panel) j) in
       if negb (w_visible panel) || w_disabled c || negb (accepts c v) then sraise TraitError
       else if decide (v = w_value c) then sret tt
       else
         let! _ := on_cell row (-1) (edit_child j v) in
         notify_with refusal (w_observers c) (set_value v c) v (w_value c))%st
  end.

(** The states of a form in use: constructed, then operated by the user,
    with any answers of the library. *)
Inductive in_use : Interact -> Prop :=
  | in_use_init data ndims show self :
      __init__ data ndims show = Returned self -> in_use self
  | in_use_step refusal a self :
      in_use self -> in_use (perform_with refusal a self).2.

(** How a handler ends when its own part returns. *)
Definition verdict (refusal : option exn) : outcome unit :=
  match refusal with
  | None => Returned tt
  | Some e => Raised e
  end.

(** The handlers returned, or the library refused with the exception that
    is raised. *)
Definition answered (refusal : option exn) (o : outcome unit) : Prop :=
  o = Returned tt \/ exists e, refusal = Some e /\ o = Raised e.

(** ** Notions used for the form in use *)

(** Whether the user can carry the action out: the button is there; the
    control is there, enabled and able to hold the value; for a control of
    an advanced panel, the panel is showing. *)
Definition possible (a : action) (self : Interact) : bool :=
  match a with
  | Click row k =>
      match widget_at self row k with
      | Returned w => match w_kind w with Button => true | _ => false end
      | Raised _ => false
      end
  | Choose row k v =>
      match widget_at self row k with
      | Returned w => negb (w_disabled w) && accepts w v
      | Raised _ => false
      end
  | Edit row j v =>
      match widget_at self row (-1) with
      | Returned panel =>
          match py_getitem (w_children panel) j with
          | Returned c => w_visible panel && negb (w_disabled c) && accepts c v
          | Raised _ => false
          end
      | Raised _ => false
      end
  end.

(** Settings as the form keeps them: every entry names an encoding of the
    catalog, and the mark is one of the catalog. *)
Definition named (e : dict) : Prop :=
  exists s, e !! "encoding" = Some (VStr s) /\ s ∈ _get_encodings.

Definition settings_ok (st : Settings) : Prop :=
  Forall named (encodings st) /\
  exists m, mark st !! "mark" = Some (VStr m) /\ m ∈ _get_marks.

(** What the handler does to the entry of an encoding row, for an event
    whose owner shows the new value [v]. *)
Definition entry_after (title : string) (v : pyval) (e : dict) : outcome dict :=
  (let! e := (if String.eqb title "type" then
                let! auto := py_in "auto" v in
                if auto then entry_pop_default "type" e else Returned e
              else Returned e) in
   if String.eqb title "text" then
     if decide (v = VStr "") then entry_pop_default "text" e
     else entry_setitem "column" v e
   else
     if decide (v = VNone) then entry_pop title e
     else entry_setitem title v e)%out.

(** The titles of the controls of an advanced panel of an encoding row. *)
Definition shelf_options : list string :=
  ["type"; "bin"; "aggregate"; "zero"; "scale"; "text"].

(** The values a control with a given title may pass to the handler: [None]
    only under a title whose key the handler removes then, and a string
    where the handler or the compiler needs one. *)
Definition value_ok (title : string) (v : pyval) : bool :=
  match v with
  | VNone => bool_decide (title ∈ ["column"; "aggregate"])
  | VStr _ => true
  | _ => negb (bool_decide (title ∈ ["type"; "text"; "encoding"; "mark"]))
  end.

(** The same for every value a control can hold. *)
Definition values_ok (title : string) (c : widget) : bool :=
  match w_kind c with
  | Dropdown => forallb (value_ok title) (w_options c)
  | Checkbox => value_ok title (VBool false)
  | Text => true
  | _ => true
  end.

(** A key the control's value stands for is in the entry. *)
Definition bound (key : string) (c : widget) (e : dict) : Prop :=
  w_title c = Some key -> w_value c <> VNone -> is_Some (e !! key).

(** A control of the advanced panel of encoding row [i], next to the entry
    [e] of the row. *)
Definition shelf_control (i : Z) (e : dict) (c : widget) : Prop :=
  w_row c = Some i /\
  (exists t, w_title c = Some t /\ t ∈ shelf_options /\ values_ok t c = true) /\
  bound "aggregate" c e.

(** A control of the advanced panel of the mark row. *)
Definition mark_control (c : widget) : Prop :=
  w_row c = Some (-1) /\ exists t, w_title c = Some t /\ t ∈ _get_mark_params.

(** An encoding row whose controls are tagged for the entry [e] at
    position [i]. *)
Definition shelf_wired (i : Z) (e : dict) (r : widget) : Prop :=
  shelf_inv i r /\
  match w_children r with
  | [cols; encoding; button; adv] =>
      w_row cols = Some i /\ w_title cols = Some "column" /\ bound "column" cols e /\
      w_row encoding = Some i /\ w_title encoding = Some "encoding" /\
      Forall (shelf_control i e) (w_children adv) /\
      NoDup (w_title <$> w_children adv)
  | _ => False
  end.

Definition mark_wired (r : widget) : Prop :=
  mark_inv r /\
  match w_children r with
  | [mark_choose; mark_but; mark_opt] =>
      w_row mark_choose = Some (-1) /\ w_title mark_choose = Some "mark" /\
      Forall mark_control (w_children mark_opt)
  | _ => False
  end.

(** The form and its settings fit together. *)
Definition wired (self : Interact) : Prop :=
  exists rows mark_row,
    w_children (controller self) = rows ++ [mark_row] /\
    (forall j r, rows !! j = Some r ->
       exists e, encodings (settings self) !! j = Some e /\ shelf_wired (Z.of_nat j) e r) /\
    mark_wired mark_row /\
    settings_ok (settings self).

(** A control as [_controllers_for] returns it, for an encoding row. *)
Definition shelf_fresh (c : widget) : bool :=
  match w_title c with
  | Some t => bool_decide (t ∈ shelf_options) && values_ok t c &&
              (negb (String.eqb t "aggregate") || bool_decide (w_value c = VNone))
  | None => false
  end.

Definition mark_fresh (c : widget) : bool :=
  match w_title c with
  | Some t => bool_decide (t ∈ _get_mark_params)
  | None => false
  end.

(** The stored chart is the one the settings compile to. *)
Definition chart_current (self : Interact) : Prop :=
  exists c, plot_chart self = Returned c /\ chart self = Some c.



(** ** Further concrete inputs *)

(** Events of controls of row 0 of the form: the bin checkbox ticked, and
    the aggregate selector changed from [old] to [v]. *)
Definition bin_event : event :=
  MkEvent (Widget Checkbox "bin" [] (VBool true) (Some 0) (Some "bin") false true []
             [CbUpdate])
          (VBool true) (VBool false).

Definition aggregate_event (v old : pyval) : event :=
  MkEvent (Widget Dropdown "aggregate" (VNone :: (VStr <$> _get_functions)) v (Some 0)
             (Some "aggregate") false true [] [CbUpdate])
          v old.

(** The same checkbox, tagged with a row the form does not have. *)
Definition far_event : event :=
  MkEvent (Widget Checkbox "bin" [] (VBool true) (Some 7) (Some "bin") false true []
             [CbUpdate])
          (VBool true) (VBool false).

(** The colour selector of the mark row set to "blue". *)
Definition color_event : event :=
  MkEvent (Widget Dropdown "main color"
             [VNone; VStr "blue"; VStr "red"; VStr "green"; VStr "black"]
             (VStr "blue") (Some (-1)) (Some "color") false true [] [CbUpdate])
          (VStr "blue") VNone.

(** A form whose two rows both encode 'x', the second without a column. *)
Definition two_x : Interact :=
  with_settings (MkSettings {["mark" := VStr "mark_point"]} [x_W_log_zero; initial_entry "x"])
    demo_form.

Definition two_x_chart : Chart :=
  match plot_chart two_x with
  | Returned c => c
  | Raised _ => MkChart [] "" ∅ ∅
  end.




(** * Properties *)

(** ** The doctests of the module *)

Example _get_advanced_settings_x :
  _get_advanced_settings (VStr "x") = Returned ["type"; "bin"; "aggregate"; "zero"; "scale"].
Proof. vm_compute. reflexivity. Qed.

Example _get_marks_0 : _get_marks !! 0%nat = Some "mark_point".
Proof. reflexivity. Qed.

Example _get_plot_command_doctest :
  _get_plot_command
    (dict_of_pairs [("encoding", VStr "x"); ("column", VStr "petalWidth"); ("scale", VStr "log")])
  = Returned (Some (Field "X" (VStr "petalWidth") {["scale" := VScale (VStr "log") VNone]})).
Proof. vm_compute. reflexivity. Qed.

(** ** Auxiliary facts *)

Ltac py_pos_cases :=
  unfold py_pos;
  repeat match goal with
  | |- context [?a <=? ?b] => destruct (Z.leb_spec a b); simpl
  | |- context [?a <? ?b] => destruct (Z.ltb_spec a b); simpl
  end.

Lemma py_pos_lt n i p : py_pos n i = Returned p -> (p < n)%nat.
Proof. py_pos_cases; intros [= <-]; lia. Qed.

Lemma py_pos_nonneg n i :
  0 <= i < Z.of_nat n -> py_pos n i = Returned (Z.to_nat i).
Proof. intros H. py_pos_cases; first [reflexivity | lia]. Qed.

Lemma py_pos_last n : py_pos (S n) (-1) = Returned n.
Proof. py_pos_cases; first [lia | f_equal; lia]. Qed.

(** What [on_entry] does on a valid row: the entry is replaced by the
    result of the operation, or the state is left alone when it raises. *)
Lemma on_entry_spec index f self p d :
  py_pos (length (encodings (settings self))) index = Returned p ->
  encodings (settings self) !! p = Some d ->
  on_entry index f self =
    match f d with
    | Returned d' => (Returned tt, set_encodings (<[p := d']> (encodings (settings self))) self)
    | Raised e => (Raised e, self)
    end.
Proof.
  intros Hp Hd. unfold on_entry. rewrite Hp, Hd. reflexivity.
Qed.

(** [plot] never touches the settings. *)
Lemma plot_settings s b self : settings (plot s b self).2 = settings self.
Proof.
  unfold plot. destruct (plot_chart self); [|reflexivity].
  destruct (b && show (set_chart a self)); reflexivity.
Qed.

Lemma plot_controller s b self : controller (plot s b self).2 = controller self.
Proof.
  unfold plot. destruct (plot_chart self); [|reflexivity].
  destruct (b && show (set_chart a self)); reflexivity.
Qed.

(** The handler on an encoding row, for a control that is not the type
    selector: one operation on the entry, then the re-render. *)
Lemma update_encoding_row ev self index title :
  w_row (owner ev) = Some index ->
  w_title (owner ev) = Some title ->
  index <> -1 ->
  title <> "type" ->
  update ev self =
    (let! _ :=
       (if String.eqb title "text" then
          if decide (w_value (owner ev) = VStr "") then on_entry index (entry_pop_default "text")
          else on_entry index (entry_setitem "column" (w_value (owner ev)))
        else
          if decide (new ev = VNone) then on_entry index (entry_pop title)
          else on_entry index (entry_setitem title (new ev))) in
     let! self' := sget in
     plot (settings self') true)%st self.
Proof.
  intros Hrow Htitle Hidx Hty.
  unfold update, sbind, slift, sret. rewrite Hrow, Htitle. simpl.
  destruct (Z.eqb_spec index (-1)) as [?|_]; [contradiction|].
  destruct (String.eqb_spec title "type") as [?|_]; [contradiction|].
  reflexivity.
Qed.

(** The state after [c] followed by the re-render has the settings that
    [c] left. *)
Lemma then_plot_settings (c : ST Interact unit) self :
  settings ((let! _ := c in let! self' := sget in plot (settings self') true)%st self).2
  = settings (c self).2.
Proof.
  unfold sbind, sget. destruct (c self) as [[[]|e] s1]; simpl; [|reflexivity].
  apply plot_settings.
Qed.

Lemma entry_key_settings self self' i k :
  settings self = settings self' -> entry_key self i k = entry_key self' i k.
Proof. unfold entry_key. intros ->. reflexivity. Qed.

Lemma entry_key_on_entry index f self p d d' k :
  py_pos (length (encodings (settings self))) index = Returned p ->
  encodings (settings self) !! p = Some d ->
  f d = Returned d' ->
  entry_key (on_entry index f self).2 p k = d' !! k.
Proof.
  intros Hp Hd Hf. rewrite (on_entry_spec _ _ _ _ _ Hp Hd), Hf.
  unfold entry_key. simpl.
  rewrite list_lookup_insert_eq; [reflexivity|].
  apply py_pos_lt in Hp. exact Hp.
Qed.

(** ** The type selector (C1) *)

(** On a valid encoding row, an event of the type selector whose value
    contains "auto" first removes the 'type' key and then, falling through
    to the generic branch, stores the new value under 'type' again. *)
Lemma update_type_auto_sets_type ev self index p s :
  w_row (owner ev) = Some index ->
  w_title (owner ev) = Some "type" ->
  index <> -1 ->
  w_value (owner ev) = VStr s ->
  new ev = VStr s ->
  str_contains "auto" s = true ->
  py_pos (length (encodings (settings self))) index = Returned p ->
  entry_key (update ev self).2 p "type" = Some (VStr s).
Proof.
  intros Hrow Htitle Hidx Hval Hnew Hauto Hp.
  pose proof (py_pos_lt _ _ _ Hp) as Hlt.
  destruct (lookup_lt_is_Some_2 _ _ Hlt) as [d Hd].
  unfold update, sbind, slift, sret, sget. rewrite Hrow, Htitle, Hval, Hnew. simpl.
  destruct (Z.eqb_spec index (-1)) as [?|_]; [contradiction|].
  rewrite Hauto.
  rewrite (on_entry_spec _ _ _ _ _ Hp Hd). simpl.
  rewrite (on_entry_spec index _ _ p (dict_pop_default d "type").2);
    [|simpl; rewrite length_insert; exact Hp
     |simpl; apply list_lookup_insert_eq; exact Hlt].
  simpl.
  erewrite entry_key_settings; [|apply plot_settings].
  unfold entry_key. simpl.
  rewrite list_lookup_insert_eq; [|rewrite length_insert; exact Hlt].
  simpl. apply lookup_insert_eq.
Qed.

(** C1, at a concrete session: on a form over three dimensions the user
    opens the options of row 0, sets the type selector to "quantitative" and
    then back to "auto detect".  Every handler returns, and the entry of
    row 0 still has a 'type' key: its value is the string "auto detect". *)
Theorem type_auto_detect_leaves_type_key :
  session (DataFrame demo_columns) 3 true
    (perform_all [Click 0 2; Edit 0 0 (VStr "quantitative"); Edit 0 0 (VStr "auto detect")])
    (fun self => entry_key self 0 "type")
  = Returned (Returned tt, Some (VStr "auto detect")).
Proof. vm_compute. reflexivity. Qed.

(** ** The text control (C2) *)

(** What the branch of the text control does on every valid encoding row,
    for an event whose owner shows the new value: the empty string removes
    the 'text' key, and no other; a non-empty string is stored under
    'column'. *)
Lemma update_text ev self index p :
  w_row (owner ev) = Some index ->
  w_title (owner ev) = Some "text" ->
  index <> -1 ->
  w_value (owner ev) = new ev ->
  py_pos (length (encodings (settings self))) index = Returned p ->
  (new ev = VStr "" -> entry_key (update ev self).2 p "text" = None) /\
  (forall s, new ev = VStr s -> s <> "" ->
     entry_key (update ev self).2 p "column" = Some (VStr s)).
Proof.
  intros Hrow Htitle Hidx Hval Hp.
  pose proof (py_pos_lt _ _ _ Hp) as Hlt.
  destruct (lookup_lt_is_Some_2 _ _ Hlt) as [d Hd].
  rewrite (update_encoding_row ev self index "text" Hrow Htitle Hidx); [|discriminate].
  simpl String.eqb. cbv iota.
  split.
  - intros Hnew.
    erewrite entry_key_settings; [|apply then_plot_settings].
    rewrite Hval, Hnew. rewrite decide_True by reflexivity.
    erewrite entry_key_on_entry; [|exact Hp|exact Hd|reflexivity].
    unfold dict_pop_default.
    destruct (d !! "text") eqn:E; simpl; [apply lookup_delete_eq|exact E].
  - intros s Hnew Hs.
    erewrite entry_key_settings; [|apply then_plot_settings].
    rewrite Hval, Hnew. rewrite decide_False by congruence.
    erewrite entry_key_on_entry; [|exact Hp|exact Hd|reflexivity].
    apply lookup_insert_eq.
Qed.

(** C2, at a concrete session: on the row of the text encoding (row 3 of a
    form over four dimensions) the user opens the options, types
    "Sepal.Length" into the text control and erases it again.  Every handler
    returns; the entry of the row has no 'text' key, and it still has the
    'column' key, with the value "Sepal.Length" that the text control wrote
    there. *)
Theorem text_cleared_keeps_column :
  session (DataFrame demo_columns) 4 true
    (perform_all [Click 3 2; Edit 3 3 (VStr "Sepal.Length"); Edit 3 3 (VStr "")])
    (fun self => (entry_key self 3 "text", entry_key self 3 "column"))
  = Returned (Returned tt, (None, Some (VStr "Sepal.Length"))).
Proof. vm_compute. reflexivity. Qed.

(** ** The generic removal branch (C3) *)

(** Removing an absent key in the generic branch raises [KeyError] and the
    instance stays as it was. *)
Lemma update_remove_absent_raises ev self index title p d :
  w_row (owner ev) = Some index ->
  w_title (owner ev) = Some title ->
  index <> -1 ->
  title <> "type" -> title <> "text" ->
  new ev = VNone ->
  py_pos (length (encodings (settings self))) index = Returned p ->
  encodings (settings self) !! p = Some d ->
  d !! title = None ->
  update ev self = (Raised KeyError, self).
Proof.
  intros Hrow Htitle Hidx Hty Htx Hnew Hp Hd Habs.
  rewrite (update_encoding_row ev self index title Hrow Htitle Hidx Hty).
  destruct (String.eqb_spec title "text") as [?|_]; [contradiction|].
  rewrite Hnew. rewrite decide_True by reflexivity.
  unfold sbind. rewrite (on_entry_spec _ _ _ _ _ Hp Hd).
  unfold entry_pop, dict_pop. rewrite Habs. reflexivity.
Qed.

(** C3, at a concrete input: on a fresh form over three dimensions, an event
    of the aggregate selector of row 0 with new value [None] makes the
    handler raise [KeyError], since the entry has no 'aggregate' key. *)
Theorem remove_absent_key_raises :
  (let! c := advanced_control 0 "aggregate" in
   session (DataFrame demo_columns) 3 true
     (update (value_changed c VNone))
     (fun self => entry_key self 0 "aggregate"))%out
  = Returned (Raised KeyError, None).
Proof. vm_compute. reflexivity. Qed.

(** ** Unset means absent (C4) *)

(** C4, at a concrete session: the user opens the options of the mark row,
    chooses the colour "blue" and then the empty choice.  Every handler
    returns, and [settings.mark] holds the key 'color' with value [None]. *)
Theorem mark_color_None_is_stored :
  session (DataFrame demo_columns) 3 true
    (perform_all [Click (-1) 1; Edit (-1) 0 (VStr "blue"); Edit (-1) 0 VNone])
    (fun self => mark (settings self) !! "color")
  = Returned (Returned tt, Some VNone).
Proof. vm_compute. reflexivity. Qed.

(** ** The controller tree (C5) *)

Lemma _create_shelf_shape columns i :
  0 <= i < 9 -> exists w, _create_shelf columns i = Returned w /\ is_shelf i w.
Proof.
  intros Hi. unfold _create_shelf, py_getitem.
  rewrite py_pos_nonneg by (simpl; lia). simpl obind.
  destruct (_get_encodings !! Z.to_nat i) as [e|] eqn:He.
  - eexists. split; [reflexivity|].
    unfold is_shelf. simpl. repeat split. exists e. split; [exact He|reflexivity].
  - apply lookup_ge_None in He. simpl in He. lia.
Qed.

Lemma shelves_shape columns n : forall start,
  (start + n <= 9)%nat ->
  exists ws,
    omap_list (_create_shelf columns) (Z.of_nat <$> seq start n) = Returned ws /\
    length ws = n /\
    forall j w, ws !! j = Some w -> is_shelf (Z.of_nat (start + j)) w.
Proof.
  induction n as [|n IH]; intros start Hle.
  - exists []. repeat split. intros j w Hj. rewrite lookup_nil in Hj. discriminate.
  - destruct (_create_shelf_shape columns (Z.of_nat start)) as (w & Hw & Hshape); [lia|].
    destruct (IH (S start)) as (ws & Hws & Hlen & Hall); [lia|].
    exists (w :: ws).
    change (Z.of_nat <$> seq start (S n))
      with (Z.of_nat start :: (Z.of_nat <$> seq (S start) n)).
    cbn [omap_list]. rewrite Hw, Hws.
    split; [reflexivity|]. split; [simpl; congruence|].
    intros [|j] w' Hj; simpl in Hj.
    + injection Hj as <-. rewrite Nat.add_0_r. exact Hshape.
    + replace (start + S j)%nat with (S start + j)%nat by lia. apply Hall, Hj.
Qed.

Lemma keywords_unbound (l : list string) : forall acc : gmap string (option field),
  exists kw, keywords ((fun e => (VStr e, None)) <$> l) acc = Returned kw.
Proof.
  induction l as [|e l IH]; intros acc; simpl; [eauto|]. apply IH.
Qed.

Lemma plot_item_initial e : plot_item (initial_entry e) = Returned (VStr e, None).
Proof.
  unfold plot_item, initial_entry, dict_getitem, _get_plot_command.
  rewrite lookup_singleton_eq. simpl obind.
  rewrite decide_True by (apply lookup_singleton_ne; discriminate).
  reflexivity.
Qed.

Lemma plot_items_initial (l : list string) :
  omap_list plot_item (initial_entry <$> l) = Returned ((fun e => (VStr e, None)) <$> l).
Proof.
  induction l as [|e l IH]; [reflexivity|].
  rewrite !fmap_cons. cbn [omap_list].
  rewrite plot_item_initial, IH. reflexivity.
Qed.

(** C5 as stated fails: with ten dimensions the tenth row has no default
    encoding, and the constructor raises [IndexError]. *)
Lemma ten_dimensions_raise :
  __init__ (DataFrame demo_columns) 10 true = Raised IndexError.
Proof. vm_compute. reflexivity. Qed.

(** C5, amended: for every dimension count N from 0 to 9, constructing the
    form over a DataFrame succeeds; the controller tree has exactly N
    encoding rows followed by the mark row, and the settings start with the
    default mark and the first N encodings of the priority order. *)
Theorem init_rows (df_columns : list string) (N : Z) (show : bool) :
  0 <= N <= 9 ->
  exists self rows mark_row,
    __init__ (DataFrame df_columns) N show = Returned self /\
    w_children (controller self) = rows ++ [mark_row] /\
    Z.of_nat (length rows) = N /\
    (forall j w, rows !! j = Some w -> is_shelf (Z.of_nat j) w) /\
    is_mark_row mark_row /\
    mark (settings self) = {["mark" := VStr "mark_point"]} /\
    encodings (settings self) = initial_entry <$> take (Z.to_nat N) _get_encodings.
Proof.
  intros HN.
  destruct (shelves_shape (VNone :: (VStr <$> _get_columns df_columns)) (Z.to_nat N) 0%nat)
    as (ws & Hws & Hlen & Hall); [lia|].
  unfold __init__, _generate_controller, py_range. rewrite Hws. simpl obind.
  unfold py_slice_to. destruct (Z.leb_spec 0 N) as [_|?]; [|lia].
  fold initial_entry.
  match goal with |- context [plot ?s ?b ?x] => set (self0 := x); set (s0 := s) end.
  assert (Hplot : exists c, plot_chart self0 = Returned c).
  { unfold plot_chart. subst self0. simpl.
    rewrite plot_items_initial. simpl.
    destruct (keywords_unbound (take (Z.to_nat N) _get_encodings) ∅) as [kw Hkw].
    rewrite Hkw. simpl. eauto. }
  destruct Hplot as [c Hc].
  pose proof (plot_settings s0 show self0) as Hs.
  pose proof (plot_controller s0 show self0) as Hctl.
  assert (Hret : (plot s0 show self0).1 = Returned tt).
  { unfold plot. rewrite Hc. destruct (show && _); reflexivity. }
  destruct (plot s0 show self0) as [o self1]. simpl in *. subst o.
  exists self1, ws. eexists. split; [reflexivity|].
  rewrite Hctl, Hs. subst self0 s0. simpl.
  split; [reflexivity|]. split; [lia|]. split; [exact Hall|].
  split; [|split; reflexivity].
  unfold is_mark_row. simpl. repeat split.
Qed.

(** The amended C5 for three dimensions. *)
Lemma init_rows_witness :
  exists self rows mark_row,
    __init__ (DataFrame demo_columns) 3 true = Returned self /\
    w_children (controller self) = rows ++ [mark_row] /\
    Z.of_nat (length rows) = 3 /\
    (forall j w, rows !! j = Some w -> is_shelf (Z.of_nat j) w) /\
    is_mark_row mark_row /\
    mark (settings self) = {["mark" := VStr "mark_point"]} /\
    encodings (settings self) = initial_entry <$> take (Z.to_nat 3) _get_encodings.
Proof. apply (init_rows demo_columns 3 true). lia. Defined.

(** ** Entries without a column (C6) *)

Lemma _get_plot_command_unbound e :
  e !! "column" = None -> _get_plot_command e = Returned None.
Proof.
  intros H. unfold _get_plot_command. rewrite decide_True by exact H. reflexivity.
Qed.

Lemma _get_plot_command_field e f :
  _get_plot_command e = Returned (Some f) -> is_Some (e !! "column").
Proof.
  intros H. destruct (e !! "column") eqn:E; [eauto|].
  rewrite (_get_plot_command_unbound e E) in H. discriminate.
Qed.

(** Every keyword of the [encode] call comes from a pair of the
    comprehension (or was there before). *)
Lemma keywords_lookup {V} (pairs : list (pyval * V)) : forall acc kw k v,
  keywords pairs acc = Returned kw ->
  kw !! k = Some v ->
  (VStr k, v) ∈ pairs \/ acc !! k = Some v.
Proof.
  induction pairs as [|[k0 v0] pairs IH]; intros acc kw k v Hkw Hk; simpl in Hkw.
  - injection Hkw as <-. right. exact Hk.
  - destruct k0 as [| |s|]; try discriminate.
    destruct (IH _ _ _ _ Hkw Hk) as [Hin|Hacc].
    + left. apply list_elem_of_further, Hin.
    + destruct (decide (s = k)) as [->|Hne].
      * rewrite lookup_insert_eq in Hacc. injection Hacc as ->.
        left. apply list_elem_of_here.
      * rewrite lookup_insert_ne in Hacc by exact Hne. right. exact Hacc.
Qed.

Lemma omap_list_elem {A B} (f : A -> outcome B) (l : list A) : forall bs b,
  omap_list f l = Returned bs -> b ∈ bs -> exists a, a ∈ l /\ f a = Returned b.
Proof.
  induction l as [|a l IH]; intros bs b Hbs Hb; simpl in Hbs.
  - injection Hbs as <-. apply elem_of_nil in Hb. contradiction.
  - destruct (f a) as [b0|] eqn:Hfa; [|discriminate]. simpl in Hbs.
    destruct (omap_list f l) as [bs0|] eqn:Hl; [|discriminate]. simpl in Hbs.
    injection Hbs as <-.
    apply elem_of_cons in Hb as [->|Hb].
    + exists a. split; [apply list_elem_of_here|exact Hfa].
    + destruct (IH _ _ eq_refl Hb) as (a' & Hin & Ha').
      exists a'. split; [apply list_elem_of_further, Hin|exact Ha'].
Qed.

(** Every field of a compiled chart was compiled from an entry that has a
    column. *)
Lemma chart_field_origin self c k f :
  plot_chart self = Returned c ->
  c_encoding c !! k = Some (Some f) ->
  exists e, e ∈ encodings (settings self) /\
            e !! "encoding" = Some (VStr k) /\
            is_Some (e !! "column") /\
            _get_plot_command e = Returned (Some f).
Proof.
  unfold plot_chart. intros Hc Hk.
  destruct (omap_list plot_item _) as [pairs|] eqn:Hpairs; [|discriminate].
  simpl in Hc.
  destruct (dict_pop _ "mark") as [[m opts]|]; [|discriminate]. simpl in Hc.
  destruct m as [| |m|]; try discriminate.
  destruct (keywords pairs ∅) as [kw|] eqn:Hkw; [|discriminate]. simpl in Hc.
  injection Hc as <-. simpl in Hk.
  destruct (keywords_lookup _ _ _ _ _ Hkw Hk) as [Hin|Hempty];
    [|rewrite lookup_empty in Hempty; discriminate].
  destruct (omap_list_elem _ _ _ _ Hpairs Hin) as (e & He & Hitem).
  exists e. split; [exact He|].
  unfold plot_item, dict_getitem in Hitem.
  destruct (e !! "encoding") as [enc|] eqn:Henc; [|discriminate]. simpl in Hitem.
  destruct (_get_plot_command e) as [fo|] eqn:Hcmd; [|discriminate]. simpl in Hitem.
  injection Hitem as -> ->.
  split; [reflexivity|]. split; [|reflexivity].
  eapply _get_plot_command_field, Hcmd.
Qed.

(** C6: for an encoding entry without a 'column' key the compiler returns
    no field descriptor and raises nothing, the entry's item of the [encode]
    call carries no field, and whatever field a compiled chart has was
    compiled from another entry, one with a column. *)
Theorem unbound_entry_contributes_no_field (e : dict) :
  e !! "column" = None ->
  _get_plot_command e = Returned None /\
  (forall k, e !! "encoding" = Some k -> plot_item e = Returned (k, None)) /\
  (forall self c k f,
     plot_chart self = Returned c ->
     c_encoding c !! k = Some (Some f) ->
     exists e', e' ∈ encodings (settings self) /\ e' <> e /\
                e' !! "encoding" = Some (VStr k) /\
                is_Some (e' !! "column") /\
                _get_plot_command e' = Returned (Some f)).
Proof.
  intros Hcol. split; [apply _get_plot_command_unbound, Hcol|]. split.
  - intros k Hk. unfold plot_item, dict_getitem. rewrite Hk. simpl.
    rewrite (_get_plot_command_unbound e Hcol). reflexivity.
  - intros self c k f Hc Hk.
    destruct (chart_field_origin self c k f Hc Hk) as (e' & Hin & Henc & Hsome & Hcmd).
    exists e'. repeat split; try assumption.
    intros ->. rewrite Hcol in Hsome. destruct Hsome as [? ?]. discriminate.
Qed.

(** C6 at the entry a fresh form holds for 'x'. *)
Lemma unbound_entry_contributes_no_field_witness :
  _get_plot_command (initial_entry "x") = Returned None /\
  (forall k, initial_entry "x" !! "encoding" = Some k ->
     plot_item (initial_entry "x") = Returned (k, None)) /\
  (forall self c k f,
     plot_chart self = Returned c ->
     c_encoding c !! k = Some (Some f) ->
     exists e', e' ∈ encodings (settings self) /\ e' <> initial_entry "x" /\
                e' !! "encoding" = Some (VStr k) /\
                is_Some (e' !! "column") /\
                _get_plot_command e' = Returned (Some f)).
Proof. apply (unbound_entry_contributes_no_field (initial_entry "x")). reflexivity. Defined.

(** ** The scale descriptor (C8) *)

Lemma dict_pop_default_fst d k : (dict_pop_default d k).1 = default VNone (d !! k).
Proof. unfold dict_pop_default. destruct (d !! k); reflexivity. Qed.

Lemma dict_pop_default_snd d k : (dict_pop_default d k).2 = delete k d.
Proof.
  unfold dict_pop_default. destruct (d !! k) eqn:E; [reflexivity|].
  simpl. symmetry. apply delete_id, E.
Qed.

(** The compiler on an entry with a column and a scale or zero setting. *)
Lemma _get_plot_command_scaled e enc col :
  e !! "encoding" = Some (VStr enc) ->
  e !! "column" = Some col ->
  is_Some (e !! "scale") \/ is_Some (e !! "zero") ->
  _get_plot_command e =
    Returned (Some (Field (capitalize enc) col
      (<["scale" := VScale (default VNone (e !! "scale")) (default VNone (e !! "zero"))]>
         (plain_options e)))).
Proof.
  intros Henc Hcol Hsz. unfold _get_plot_command.
  rewrite decide_False by (rewrite Hcol; discriminate).
  unfold dict_pop at 1. rewrite Henc. simpl obind.
  unfold dict_pop. rewrite lookup_delete_ne by discriminate. rewrite Hcol. simpl obind.
  set (d2 := delete "column" (delete "encoding" e)).
  assert (Hs : d2 !! "scale" = e !! "scale").
  { subst d2. rewrite !lookup_delete_ne by discriminate. reflexivity. }
  assert (Hz : d2 !! "zero" = e !! "zero").
  { subst d2. rewrite !lookup_delete_ne by discriminate. reflexivity. }
  assert (Hb : bool_decide (is_Some (d2 !! "scale")) || bool_decide (is_Some (d2 !! "zero")) = true).
  { rewrite Hs, Hz. apply orb_true_iff.
    destruct Hsz as [H|H]; [left|right]; apply bool_decide_eq_true_2, H. }
  rewrite Hb. cbv zeta. cbn [fst snd].
  rewrite !dict_pop_default_fst, !dict_pop_default_snd.
  rewrite lookup_delete_ne by discriminate. rewrite Hs, Hz.
  rewrite <- insert_union_singleton_l. reflexivity.
Qed.

(** The model of the compiler in closed form.  A returned field stands for
    the call of the channel class that the module makes; the library may
    refuse the call, and then the compiler raises what the library
    raises. *)
Lemma _get_plot_command_closed e :
  _get_plot_command e =
  match e !! "column" with
  | None => Returned None
  | Some column =>
      match e !! "encoding" with
      | None => Raised KeyError
      | Some (VStr encoding) =>
          Returned (Some (Field (capitalize encoding) column
            (if bool_decide (is_Some (e !! "scale")) || bool_decide (is_Some (e !! "zero"))
             then <["scale" := VScale (default VNone (e !! "scale"))
                                      (default VNone (e !! "zero"))]> (plain_options e)
             else plain_options e)))
      | Some _ => Raised AttributeError
      end
  end.
Proof.
  destruct (e !! "column") as [col|] eqn:Hcol; [|apply _get_plot_command_unbound, Hcol].
  destruct (e !! "encoding") as [enc|] eqn:Henc.
  2:{ unfold _get_plot_command. rewrite decide_False by (rewrite Hcol; discriminate).
      unfold dict_pop at 1. rewrite Henc. reflexivity. }
  destruct (bool_decide (is_Some (e !! "scale")) || bool_decide (is_Some (e !! "zero"))) eqn:Hb.
  - assert (Hsz : is_Some (e !! "scale") \/ is_Some (e !! "zero")).
    { apply orb_true_iff in Hb. rewrite !bool_decide_eq_true in Hb. exact Hb. }
    destruct enc as [| |enc|]; try (apply (_get_plot_command_scaled e enc col Henc Hcol Hsz)).
    all: unfold _get_plot_command; rewrite decide_False by (rewrite Hcol; discriminate).
    all: unfold dict_pop at 1; rewrite Henc; cbn [obind fst snd].
    all: unfold dict_pop; rewrite lookup_delete_ne by discriminate; rewrite Hcol; reflexivity.
  - apply orb_false_iff in Hb. rewrite !bool_decide_eq_false in Hb. destruct Hb as [Hs Hz].
    assert (Hs' : e !! "scale" = None) by (destruct (e !! "scale"); [destruct Hs; eauto|reflexivity]).
    assert (Hz' : e !! "zero" = None) by (destruct (e !! "zero"); [destruct Hz; eauto|reflexivity]).
    unfold _get_plot_command. rewrite decide_False by (rewrite Hcol; discriminate).
    unfold dict_pop at 1. rewrite Henc. cbn [obind fst snd].
    unfold dict_pop. rewrite lookup_delete_ne by discriminate. rewrite Hcol. cbn [obind fst snd].
    rewrite !lookup_delete_ne by discriminate. rewrite Hs', Hz'.
    rewrite bool_decide_eq_false_2 by (intros [? ?]; discriminate). cbn [orb fst snd].
    rewrite (left_id_L ∅ (∪)).
    unfold plain_options.
    rewrite (delete_id (delete "column" (delete "encoding" e)) "scale")
      by (rewrite !lookup_delete_ne by discriminate; exact Hs').
    rewrite (delete_id (delete "column" (delete "encoding" e)) "zero")
      by (rewrite !lookup_delete_ne by discriminate; exact Hz').
    destruct enc; reflexivity.
Qed.

(** What a returned field tells about the entry and about the call. *)
Lemma _get_plot_command_inv e f :
  _get_plot_command e = Returned (Some f) ->
  exists enc,
    e !! "encoding" = Some (VStr enc) /\
    e !! "column" = Some (f_shorthand f) /\
    f_channel f = capitalize enc /\
    f_options f =
      if bool_decide (is_Some (e !! "scale")) || bool_decide (is_Some (e !! "zero"))
      then <["scale" := VScale (default VNone (e !! "scale"))
                               (default VNone (e !! "zero"))]> (plain_options e)
      else plain_options e.
Proof.
  rewrite _get_plot_command_closed.
  destruct (e !! "column") as [col|]; [|discriminate].
  destruct (e !! "encoding") as [[| |enc|]|]; try discriminate.
  intros [= <-]. exists enc. auto.
Qed.



(** ** The settings argument of [plot] (C10) *)

(** C10: [plot] does not read its [settings] argument; whatever is passed,
    the outcome and the whole instance afterwards are the same, and the
    chart it stores is the one compiled from the settings and the data of
    the instance. *)
Theorem plot_ignores_settings_argument (self : Interact) (s1 s2 : Settings) (show_arg : bool) :
  plot s1 show_arg self = plot s2 show_arg self /\
  match plot_chart self with
  | Returned c =>
      (plot s1 show_arg self).1 = Returned tt /\
      chart (plot s1 show_arg self).2 = Some c
  | Raised e => plot s1 show_arg self = (Raised e, self)
  end.
Proof.
  split; [reflexivity|]. unfold plot.
  destruct (plot_chart self) as [c|e]; [|reflexivity].
  destruct (show_arg && show (set_chart c self)); split; reflexivity.
Qed.

(** ** The compiler works on copies (C9)

    Running the reference-level compiler from a store [σ] ends in a store
    [σ ++ extra]: the objects that existed before are untouched, and the
    outcome is that of the compiler on the dictionaries the references point
    to. *)

Section Steps.
Import Store.
Context {A : Type}.
Implicit Types (σ l : store) (k : ST store A).
Local Open Scope nat_scope.

Lemma sbind_assoc {S X Y Z} (c : ST S X) (f : X -> ST S Y) (g : Y -> ST S Z) s :
  sbind (sbind c f) g s = sbind c (fun x => sbind (f x) g) s.
Proof. unfold sbind. destruct (c s) as [[x|e] s']; reflexivity. Qed.

Lemma step_new_dict d (k : ref -> ST store A) σ l :
  sbind (new_dict d) k (σ ++ l) = k (length σ + length l)%nat (σ ++ (l ++ [d])).
Proof. unfold sbind, new_dict. rewrite length_app, app_assoc. reflexivity. Qed.

Lemma step_deref_old r (k : dict -> ST store A) σ l :
  (r < length σ)%nat ->
  sbind (deref r) k (σ ++ l) = k (default ∅ (σ !! r)) (σ ++ l).
Proof. intros H. unfold sbind, deref. rewrite lookup_app_l by exact H. reflexivity. Qed.

Lemma step_deref_new i (k : dict -> ST store A) σ l :
  sbind (deref (length σ + i)) k (σ ++ l) = k (default ∅ (l !! i)) (σ ++ l).
Proof.
  unfold sbind, deref. rewrite lookup_app_r by lia.
  replace (length σ + i - length σ)%nat with i by lia. reflexivity.
Qed.

Lemma step_assign_new i d (k : unit -> ST store A) σ l :
  sbind (assign (length σ + i) d) k (σ ++ l) = k tt (σ ++ <[i := d]> l).
Proof. unfold sbind, assign. rewrite insert_app_r. reflexivity. Qed.

Lemma step_sret {X} (x : X) (k : X -> ST store A) σ : sbind (sret x) k σ = k x σ.
Proof. reflexivity. Qed.

Lemma step_slift {X} (o : outcome X) (k : X -> ST store A) σ :
  sbind (slift o) k σ = match o with Returned x => k x σ | Raised e => (Raised e, σ) end.
Proof. unfold sbind, slift. destruct o; reflexivity. Qed.

Lemma step_ref_copy_old r (k : ref -> ST store A) σ l :
  (r < length σ)%nat ->
  sbind (ref_copy r) k (σ ++ l)
  = k (length σ + length l)%nat (σ ++ (l ++ [default ∅ (σ !! r)])).
Proof.
  intros H. unfold ref_copy. rewrite sbind_assoc, step_deref_old by exact H.
  apply step_new_dict.
Qed.

Lemma step_ref_contains_old r key (k : bool -> ST store A) σ l :
  (r < length σ)%nat ->
  sbind (ref_contains r key) k (σ ++ l)
  = k (bool_decide (is_Some (default ∅ (σ !! r) !! key))) (σ ++ l).
Proof.
  intros H. unfold ref_contains. rewrite sbind_assoc, step_deref_old by exact H.
  reflexivity.
Qed.

Lemma step_ref_getitem_old r key (k : pyval -> ST store A) σ l :
  (r < length σ)%nat ->
  sbind (ref_getitem r key) k (σ ++ l)
  = match default ∅ (σ !! r) !! key with
    | Some v => k v (σ ++ l)
    | None => (Raised KeyError, σ ++ l)
    end.
Proof.
  intros H. unfold ref_getitem. rewrite sbind_assoc, step_deref_old by exact H.
  rewrite step_slift. unfold dict_getitem. destruct (_ !! key); reflexivity.
Qed.

Lemma step_ref_getitem_here r key (k : pyval -> ST store A) σ :
  sbind (ref_getitem r key) k σ
  = match default ∅ (σ !! r) !! key with
    | Some v => k v σ
    | None => (Raised KeyError, σ)
    end.
Proof.
  unfold ref_getitem, sbind, deref, slift, dict_getitem.
  destruct (_ !! key); reflexivity.
Qed.

Lemma step_ref_contains_new i key (k : bool -> ST store A) σ l :
  sbind (ref_contains (length σ + i) key) k (σ ++ l)
  = k (bool_decide (is_Some (default ∅ (l !! i) !! key))) (σ ++ l).
Proof. unfold ref_contains. rewrite sbind_assoc, step_deref_new. reflexivity. Qed.

Lemma step_ref_pop_new i key (k : pyval -> ST store A) σ l :
  sbind (ref_pop (length σ + i) key) k (σ ++ l)
  = match default ∅ (l !! i) !! key with
    | Some v => k v (σ ++ <[i := delete key (default ∅ (l !! i))]> l)
    | None => (Raised KeyError, σ ++ l)
    end.
Proof.
  unfold ref_pop. rewrite sbind_assoc, step_deref_new, sbind_assoc, step_slift.
  unfold dict_pop. destruct (_ !! key); [|reflexivity].
  rewrite sbind_assoc, step_assign_new. reflexivity.
Qed.

Lemma step_ref_pop_default_new i key (k : pyval -> ST store A) σ l :
  sbind (ref_pop_default (length σ + i) key) k (σ ++ l)
  = k (dict_pop_default (default ∅ (l !! i)) key).1
      (σ ++ <[i := (dict_pop_default (default ∅ (l !! i)) key).2]> l).
Proof.
  unfold ref_pop_default. rewrite sbind_assoc, step_deref_new.
  rewrite sbind_assoc, step_assign_new. reflexivity.
Qed.

Lemma step_ref_update_new i j (k : unit -> ST store A) σ l :
  sbind (ref_update (length σ + i) (length σ + j)) k (σ ++ l)
  = k tt (σ ++ <[i := default ∅ (l !! j) ∪ default ∅ (l !! i)]> l).
Proof.
  unfold ref_update. rewrite sbind_assoc, step_deref_new, sbind_assoc, step_deref_new.
  apply step_assign_new.
Qed.
End Steps.

Ltac store_simpl :=
  cbn [length app Nat.add list_lookup lookup default from_option id insert list_insert fst snd].

Ltac step :=
  first
    [ rewrite step_sret
    | rewrite step_ref_copy_old by assumption
    | rewrite step_ref_contains_old by assumption
    | rewrite step_ref_getitem_old by assumption
    | rewrite step_ref_contains_new
    | rewrite step_ref_pop_new
    | rewrite step_ref_pop_default_new
    | rewrite step_ref_update_new
    | rewrite step_new_dict
    | rewrite step_deref_new
    | rewrite sbind_assoc ];
  store_simpl.

Lemma _get_plot_command_refines e σ :
  (e < length σ)%nat ->
  exists extra,
    Store._get_plot_command e σ = (_get_plot_command (default ∅ (σ !! e)), σ ++ extra).
Proof.
  intros He.
  enough (H : forall l, l = [] -> exists extra,
             Store._get_plot_command e (σ ++ l)
             = (_get_plot_command (default ∅ (σ !! e)), σ ++ extra)).
  { destruct (H [] eq_refl) as [extra Hx]. rewrite app_nil_r in Hx. eauto. }
  intros l ->.
  set (e0 := default ∅ (σ !! e)).
  unfold Store._get_plot_command, _get_plot_command.
  do 2 step. fold e0.
  destruct (e0 !! "column") as [col|] eqn:Hcol.
  2:{ rewrite decide_True by reflexivity.
      rewrite bool_decide_eq_false_2 by (intros [? ?]; discriminate).
      cbn. eauto. }
  rewrite decide_False by discriminate.
  rewrite bool_decide_eq_true_2 by eauto. cbn [negb].
  step. unfold dict_pop at 1.
  destruct (e0 !! "encoding") as [enc|] eqn:Henc; cbn [obind]; [|eauto].
  step. unfold dict_pop. rewrite lookup_delete_ne by discriminate. rewrite Hcol.
  cbn [obind fst snd].
  do 3 step.
  destruct (_ || _).
  - repeat step. destruct enc; eexists; reflexivity.
  - repeat step. destruct enc; eexists; reflexivity.
Qed.

Lemma plot_item_refines e σ :
  (e < length σ)%nat ->
  exists extra,
    Store.plot_item e σ = (plot_item (default ∅ (σ !! e)), σ ++ extra).
Proof.
  intros He. unfold Store.plot_item, plot_item.
  rewrite step_ref_getitem_here. unfold dict_getitem.
  destruct (default ∅ (σ !! e) !! "encoding") as [k|]; cbn [obind].
  - destruct (_get_plot_command_refines e σ He) as [extra Hx].
    unfold sbind. rewrite Hx.
    destruct (_get_plot_command _); cbn; eauto.
  - exists []. rewrite app_nil_r. reflexivity.
Qed.

Lemma plot_items_refines (rs : list nat) : forall σ,
  Forall (fun r => r < length σ)%nat rs ->
  exists extra,
    Store.smap_list Store.plot_item rs σ
    = (omap_list plot_item ((fun r => default ∅ (σ !! r)) <$> rs), σ ++ extra).
Proof.
  induction rs as [|r rs IH]; intros σ Hall.
  - exists []. rewrite app_nil_r. reflexivity.
  - apply Forall_cons in Hall as [Hr Hrs].
    destruct (plot_item_refines r σ Hr) as [x1 H1].
    rewrite fmap_cons. cbn [Store.smap_list omap_list].
    unfold sbind at 1. rewrite H1.
    destruct (plot_item (default ∅ (σ !! r))) as [kv|]; cbn [obind]; [|eauto].
    destruct (IH (σ ++ x1)) as [x2 H2].
    { eapply Forall_impl; [exact Hrs|]. intros r' Hr'. cbn beta in *. rewrite length_app. lia. }
    assert (Heq : (fun r0 => default ∅ ((σ ++ x1) !! r0)) <$> rs
                  = (fun r0 => default ∅ (σ !! r0)) <$> rs).
    { apply Forall_fmap_ext_1. eapply Forall_impl; [exact Hrs|].
      intros r' Hr'. cbn beta in *. rewrite lookup_app_l by exact Hr'. reflexivity. }
    rewrite Heq in H2. unfold sbind at 1. rewrite H2. rewrite <- app_assoc.
    destruct (omap_list plot_item _); eexists; reflexivity.
Qed.

Lemma plot_chart_refines cols s σ shw ctl ch cl :
  (Store.mark_ref s < length σ)%nat ->
  Forall (fun r => r < length σ)%nat (Store.encodings_refs s) ->
  exists extra,
    Store.plot_chart cols s σ
    = (plot_chart (MkInteract cols (Store.read_settings s σ) ctl shw ch cl), σ ++ extra).
Proof.
  intros Hm Hrs. unfold Store.plot_chart, plot_chart.
  cbn [settings encodings mark Store.read_settings df].
  destruct (plot_items_refines _ σ Hrs) as [x1 H1].
  unfold sbind at 1. rewrite H1.
  destruct (omap_list plot_item _) as [kwargs|]; cbn [obind]; [|eauto].
  set (m0 := default ∅ (σ !! Store.mark_ref s)).
  set (σ1 := σ ++ x1).
  assert (Hm1 : (Store.mark_ref s < length σ1)%nat).
  { subst σ1. rewrite length_app. lia. }
  assert (Hlk : default ∅ (σ1 !! Store.mark_ref s) = m0).
  { subst σ1 m0. rewrite lookup_app_l by exact Hm. reflexivity. }
  enough (H : exists extra1,
            (let! mark_opts := Store.ref_copy (Store.mark_ref s) in
             let! mark := Store.ref_pop mark_opts "mark" in
             match mark with
             | VStr mark =>
                 let! mark_opts := Store.deref mark_opts in
                 let! kwargs := slift (keywords kwargs ∅) in
                 sret (MkChart cols mark mark_opts kwargs)
             | _ => sraise TypeError
             end)%st σ1
            = ((let! p := dict_pop m0 "mark" in
                match p.1 with
                | VStr mark =>
                    let! kwargs := keywords kwargs ∅ in
                    Returned (MkChart cols mark p.2 kwargs)
                | _ => Raised TypeError
                end)%out, σ1 ++ extra1)).
  { destruct H as [extra1 H]. exists (x1 ++ extra1). rewrite H.
    subst σ1. rewrite app_assoc. reflexivity. }
  clearbody σ1 m0. unfold dict_pop.
  destruct (m0 !! "mark") as [m|] eqn:Hmark; cbn [obind fst snd].
  2:{ eexists. rewrite <- (app_nil_r σ1) at 1.
      repeat step. rewrite Hlk, Hmark. reflexivity. }
  destruct (keywords kwargs ∅) as [kw|] eqn:Hkw;
    destruct m; eexists; rewrite <- (app_nil_r σ1) at 1;
    repeat step; rewrite Hlk, Hmark; repeat step;
    try reflexivity; unfold sbind, slift; rewrite Hkw; reflexivity.
Qed.

(** C9: compiling changes no dictionary of the settings.  Whatever
    [_get_plot_command] and the chart construction of [plot] do to the store,
    every dictionary that existed before is still there with the same
    content, so the settings read through the same references are the same;
    only new objects (the copies) are added. *)
Theorem compile_leaves_settings_unchanged cols s σ :
  (Store.mark_ref s < length σ)%nat ->
  Forall (fun r => r < length σ)%nat (Store.encodings_refs s) ->
  (forall e, e ∈ Store.encodings_refs s ->
     exists extra, (Store._get_plot_command e σ).2 = σ ++ extra) /\
  (exists extra, (Store.plot_chart cols s σ).2 = σ ++ extra) /\
  (forall r d, σ !! r = Some d -> (Store.plot_chart cols s σ).2 !! r = Some d) /\
  Store.read_settings s (Store.plot_chart cols s σ).2 = Store.read_settings s σ.
Proof.
  intros Hm Hrs.
  destruct (plot_chart_refines cols s σ true (new_VBox [] true) None [] Hm Hrs) as [extra Hx].
  split.
  { intros e He.
    destruct (_get_plot_command_refines e σ) as [x Hx'].
    - apply (proj1 (Forall_forall _ _) Hrs e He).
    - exists x. rewrite Hx'. reflexivity. }
  rewrite Hx. cbn [snd]. split; [eauto|]. split.
  - intros r d Hr. apply lookup_app_l_Some, Hr.
  - unfold Store.read_settings. f_equal.
    + rewrite lookup_app_l by exact Hm. reflexivity.
    + apply Forall_fmap_ext_1. eapply Forall_impl; [exact Hrs|].
      intros r Hr. cbn beta in *. rewrite lookup_app_l by exact Hr. reflexivity.
Qed.

(** C9 at a store that holds the mark options and two entries. *)
Lemma compile_leaves_settings_unchanged_witness :
  (forall e, e ∈ Store.encodings_refs demo_settings ->
     exists extra, (Store._get_plot_command e demo_store).2 = demo_store ++ extra) /\
  (exists extra, (Store.plot_chart demo_columns demo_settings demo_store).2 = demo_store ++ extra) /\
  (forall r d, demo_store !! r = Some d ->
     (Store.plot_chart demo_columns demo_settings demo_store).2 !! r = Some d) /\
  Store.read_settings demo_settings (Store.plot_chart demo_columns demo_settings demo_store).2
  = Store.read_settings demo_settings demo_store.
Proof.
  apply (compile_leaves_settings_unchanged demo_columns demo_settings demo_store).
  - simpl. lia.
  - repeat constructor; simpl; lia.
Defined.

(** ** Toggling the advanced panel (C7)

    The handlers other than [_show_advanced] leave the controller tree
    alone. *)

Lemma keeps_sret {A} (a : A) : keeps_controller (sret a).
Proof. intros self. reflexivity. Qed.

Lemma keeps_sraise {A} e : keeps_controller (@sraise Interact A e).
Proof. intros self. reflexivity. Qed.

Lemma keeps_slift {A} (o : outcome A) : keeps_controller (slift o).
Proof. intros self. reflexivity. Qed.

Lemma keeps_sget : keeps_controller sget.
Proof. intros self. reflexivity. Qed.

Lemma keeps_sbind {A B} (c : ST Interact A) (k : A -> ST Interact B) :
  keeps_controller c -> (forall a, keeps_controller (k a)) -> keeps_controller (sbind c k).
Proof.
  intros Hc Hk self. unfold sbind. specialize (Hc self).
  destruct (c self) as [[a|e] s1]; simpl in *.
  - rewrite Hk. exact Hc.
  - exact Hc.
Qed.

Lemma keeps_plot s b : keeps_controller (plot s b).
Proof. intros self. apply plot_controller. Qed.

Lemma keeps_mark_setitem t v : keeps_controller (mark_setitem t v).
Proof. intros self. reflexivity. Qed.

Lemma keeps_on_entry i f : keeps_controller (on_entry i f).
Proof.
  intros self. unfold on_entry.
  destruct (py_pos _ i); [|reflexivity].
  destruct (_ !! _); [|reflexivity].
  destruct (f _); reflexivity.
Qed.

Ltac keeps :=
  repeat first
    [ apply keeps_sret | apply keeps_sraise | apply keeps_slift | apply keeps_sget
    | apply keeps_plot | apply keeps_mark_setitem | apply keeps_on_entry
    | apply keeps_sbind; [|intros ?]
    | match goal with |- keeps_controller (if ?b then _ else _) => destruct b end ].


(** *** One click *)

Lemma on_cell_spec row k f self p r q w :
  py_pos (length (w_children (controller self))) row = Returned p ->
  w_children (controller self) !! p = Some r ->
  py_pos (length (w_children r)) k = Returned q ->
  w_children r !! q = Some w ->
  on_cell row k f self =
    (Returned tt,
     set_controller
       (set_children (<[p := set_children (<[q := f w]> (w_children r)) r]>
                        (w_children (controller self)))
          (controller self)) self).
Proof.
  intros Hp Hr Hq Hw. unfold on_cell, modify_at.
  rewrite Hp. simpl obind. rewrite Hr, Hq. simpl obind. rewrite Hw. reflexivity.
Qed.

Lemma py_getitem_spec {A} (l : list A) i p a :
  py_pos (length l) i = Returned p -> l !! p = Some a -> py_getitem l i = Returned a.
Proof. intros Hp Ha. unfold py_getitem. rewrite Hp. simpl. rewrite Ha. reflexivity. Qed.

(** One click on the options button of a row: the selector is disabled or
    enabled, the panel shown or hidden, and the panel is filled anew. *)
Lemma _show_advanced_spec button self title row p r q selector qa panel adv cs :
  w_title button = Some title ->
  w_row button = Some row ->
  py_pos (length (w_children (controller self))) row = Returned p ->
  w_children (controller self) !! p = Some r ->
  py_pos (length (w_children r)) (if str_contains "mark" title then 0 else 1) = Returned q ->
  w_children r !! q = Some selector ->
  py_pos (length (w_children r)) (-1) = Returned qa ->
  w_children r !! qa = Some panel ->
  q <> qa ->
  _get_advanced_settings (w_value selector) = Returned adv ->
  omap_list _controllers_for adv = Returned cs ->
  _show_advanced button 1 self =
    (Returned tt,
     set_controller
       (set_children
          (<[p := set_children
                    (<[qa := set_children ((fun c => observe CbUpdate (set_row row c)) <$> cs)
                               (set_visible (negb (w_visible panel)) panel)]>
                       (<[q := set_disabled (negb (w_visible panel)) selector]> (w_children r)))
                    r]>
             (w_children (controller self)))
          (controller self)) self).
Proof.
  intros Ht Hrow Hp Hr Hq Hsel Hqa Hpanel Hne Hadv Hcs.
  pose proof (py_pos_lt _ _ _ Hp) as Hplt.
  pose proof (py_pos_lt _ _ _ Hq) as Hqlt.
  pose proof (py_pos_lt _ _ _ Hqa) as Hqalt.
  unfold _show_advanced, sbind, slift, sget. rewrite Ht, Hrow. simpl attr. cbv iota beta.
  rewrite (py_getitem_spec _ _ _ _ Hp Hr).
  rewrite (py_getitem_spec _ _ _ _ Hq Hsel).
  rewrite Hadv, Hcs.
  rewrite (py_getitem_spec _ _ _ _ Hqa Hpanel).
  rewrite (on_cell_spec _ _ _ _ _ _ _ _ Hp Hr Hq Hsel).
  erewrite on_cell_spec.
  2:{ simpl. rewrite length_insert. exact Hp. }
  2:{ simpl. apply list_lookup_insert_eq. exact Hplt. }
  2:{ simpl. rewrite length_insert. exact Hqa. }
  2:{ simpl. rewrite list_lookup_insert_ne by exact Hne. exact Hpanel. }
  erewrite on_cell_spec.
  2:{ simpl. rewrite !length_insert. exact Hp. }
  2:{ simpl. apply list_lookup_insert_eq. rewrite length_insert. exact Hplt. }
  2:{ simpl. rewrite !length_insert. exact Hqa. }
  2:{ simpl. apply list_lookup_insert_eq. rewrite length_insert. exact Hqalt. }
  simpl. rewrite !list_insert_insert_eq. reflexivity.
Qed.


(** *** The invariant locates the place a button toggles *)

Ltac split_children r :=
  let H := fresh "Hcs" in
  destruct (w_children r) as [|? [|? [|? [|? [|? ?]]]]] eqn:H; try contradiction.

Lemma shelf_not_mark i r : shelf_inv i r -> mark_inv r -> False.
Proof. unfold shelf_inv, mark_inv. split_children r. Qed.



Lemma py_pos_4 k q : py_pos 4 k = Returned q -> q = 0%nat \/ q = 1%nat \/ q = 2%nat \/ q = 3%nat.
Proof. intros H. apply py_pos_lt in H. lia. Qed.

Lemma py_pos_3 k q : py_pos 3 k = Returned q -> q = 0%nat \/ q = 1%nat \/ q = 2%nat.
Proof. intros H. apply py_pos_lt in H. lia. Qed.



(** A click at a toggle site, and the site afterwards. *)
Lemma toggle_at_site self b title row p q qa r selector panel adv cs :
  toggle_site (controller self) b title row p q qa r selector panel ->
  _get_advanced_settings (w_value selector) = Returned adv ->
  omap_list _controllers_for adv = Returned cs ->
  let selector' := set_disabled (negb (w_visible panel)) selector in
  let panel' := set_children ((fun c => observe CbUpdate (set_row row c)) <$> cs)
                  (set_visible (negb (w_visible panel)) panel) in
  let r' := set_children (<[qa := panel']> (<[q := selector']> (w_children r))) r in
  let self' := set_controller
                 (set_children (<[p := r']> (w_children (controller self))) (controller self))
                 self in
  _show_advanced b 1 self = (Returned tt, self') /\
  toggle_site (controller self') b title row p q qa r' selector' panel'.
Proof.
  intros (Ht & Hrow & Hp & Hr & Hq & Hsel & Hqa & Hpanel & Hne) Hadv Hcs. cbv zeta.
  split.
  - eapply _show_advanced_spec; eassumption.
  - pose proof (py_pos_lt _ _ _ Hp) as Hplt.
    pose proof (py_pos_lt _ _ _ Hq) as Hqlt.
    pose proof (py_pos_lt _ _ _ Hqa) as Hqalt.
    unfold toggle_site. simpl. rewrite !length_insert.
    repeat split; try assumption.
    + apply list_lookup_insert_eq. exact Hplt.
    + rewrite list_lookup_insert_ne by congruence.
      apply list_lookup_insert_eq. exact Hqlt.
    + apply list_lookup_insert_eq. rewrite length_insert. exact Hqalt.
Qed.


(** *** The invariant holds on a fresh form *)

Lemma py_getitem_elem {A} (l : list A) i a : py_getitem l i = Returned a -> a ∈ l.
Proof.
  unfold py_getitem. destruct (py_pos (length l) i) as [p|]; [|discriminate]. simpl.
  destruct (l !! p) eqn:E; [|discriminate]. intros [= <-].
  eapply list_elem_of_lookup_2, E.
Qed.

Lemma _create_shelf_inv columns i w :
  _create_shelf columns i = Returned w -> shelf_inv i w.
Proof.
  unfold _create_shelf.
  destruct (py_getitem _get_encodings i) as [dflt|] eqn:Hd; [|discriminate].
  simpl. intros [= <-]. unfold shelf_inv. simpl.
  apply py_getitem_elem in Hd.
  repeat split; auto using Forall_nil.
  change (VStr dflt ∈ (VStr <$> _get_encodings)).
  apply (list_elem_of_fmap_2 VStr), Hd.
Qed.




(** *** The invariant is kept by every action *)

Lemma panel_filled row cs panel v :
  panel_ok panel ->
  Forall (fun c => w_observers c = []) cs ->
  panel_ok (set_children ((fun c => observe CbUpdate (set_row row c)) <$> cs)
              (set_visible v panel)).
Proof.
  intros [Hk _] Hcs. split; [exact Hk|]. simpl.
  apply Forall_fmap. eapply Forall_impl; [exact Hcs|].
  intros c Hc. simpl. rewrite Hc. reflexivity.
Qed.

Lemma shelf_toggle i r selector panel cs row :
  shelf_inv i r ->
  w_children r !! 1%nat = Some selector ->
  w_children r !! 3%nat = Some panel ->
  Forall (fun c => w_observers c = []) cs ->
  shelf_inv i
    (set_children
       (<[3%nat := set_children ((fun c => observe CbUpdate (set_row row c)) <$> cs)
                     (set_visible (negb (w_visible panel)) panel)]>
          (<[1%nat := set_disabled (negb (w_visible panel)) selector]> (w_children r))) r).
Proof.
  unfold shelf_inv. split_children r. simpl.
  intros (Hc & Hs & Hb & Hp & Hfl) [= <-] [= <-] Hnew.
  split; [exact Hc|]. split; [exact Hs|]. split; [exact Hb|].
  split; [apply panel_filled; assumption|reflexivity].
Qed.

Lemma mark_toggle r selector panel cs row :
  mark_inv r ->
  w_children r !! 0%nat = Some selector ->
  w_children r !! 2%nat = Some panel ->
  Forall (fun c => w_observers c = []) cs ->
  mark_inv
    (set_children
       (<[2%nat := set_children ((fun c => observe CbUpdate (set_row row c)) <$> cs)
                     (set_visible (negb (w_visible panel)) panel)]>
          (<[0%nat := set_disabled (negb (w_visible panel)) selector]> (w_children r))) r).
Proof.
  unfold mark_inv. split_children r. simpl.
  intros (Hs & Hb & Hp & Hfl) [= <-] [= <-] Hnew.
  split; [exact Hs|]. split; [exact Hb|].
  split; [apply panel_filled; assumption|reflexivity].
Qed.

Lemma accepts_Dropdown w v :
  w_kind w = Dropdown -> accepts w v = true -> v ∈ w_options w.
Proof.
  unfold accepts. intros ->. apply bool_decide_eq_true_1.
Qed.

Lemma accepts_control w v :
  accepts w v = true -> w_kind w = Dropdown \/ w_kind w = Checkbox \/ w_kind w = Text.
Proof. unfold accepts. destruct (w_kind w); try discriminate; auto. Qed.

Lemma selector_chosen catalog s v :
  selector_ok catalog s -> accepts s v = true -> selector_ok catalog (set_value v s).
Proof.
  intros ([Hk Ho] & Hopt & Hval) Hacc. repeat split; try assumption.
  simpl. apply accepts_Dropdown; assumption.
Qed.

Lemma row_choose r q w v :
  w_children r !! q = Some w ->
  accepts w v = true ->
  let r' := set_children (<[q := set_value v w]> (w_children r)) r in
  (forall i, shelf_inv i r -> shelf_inv i r' /\ w_observers w = [CbUpdate]) /\
  (mark_inv r -> mark_inv r' /\ w_observers w = [CbUpdate]).
Proof.
  intros Hw Hacc. cbv zeta. pose proof (accepts_control _ _ Hacc) as Hk. split.
  - intros i. unfold shelf_inv. split_children r. simpl.
    intros (Hc & Hs & Hb & Hp & Hfl).
    destruct q as [|[|[|[|q]]]]; simpl in Hw; try discriminate; injection Hw as <-; simpl.
    + split; [|apply Hc]. split; [exact Hc|]. split; [exact Hs|].
      split; [exact Hb|]. split; [exact Hp|exact Hfl].
    + split; [|apply Hs]. split; [exact Hc|]. split; [apply selector_chosen; assumption|].
      split; [exact Hb|]. split; [exact Hp|exact Hfl].
    + destruct Hb as [Hbk _]. rewrite Hbk in Hk. destruct Hk as [?|[?|?]]; discriminate.
    + destruct Hp as [[Hpk|Hpk] _]; rewrite Hpk in Hk; destruct Hk as [?|[?|?]]; discriminate.
  - unfold mark_inv. split_children r. simpl.
    intros (Hs & Hb & Hp & Hfl).
    destruct q as [|[|[|q]]]; simpl in Hw; try discriminate; injection Hw as <-; simpl.
    + split; [|apply Hs]. split; [apply selector_chosen; assumption|].
      split; [exact Hb|]. split; [exact Hp|exact Hfl].
    + destruct Hb as [Hbk _]. rewrite Hbk in Hk. destruct Hk as [?|[?|?]]; discriminate.
    + destruct Hp as [[Hpk|Hpk] _]; rewrite Hpk in Hk; destruct Hk as [?|[?|?]]; discriminate.
Qed.

Lemma panel_edited j v panel : panel_ok panel -> panel_ok (edit_child j v panel).
Proof.
  intros [Hk Hcs]. unfold edit_child, modify_at.
  destruct (py_pos _ j) as [p|]; simpl; [|split; assumption].
  destruct (w_children panel !! p) as [c|] eqn:Hc; [|split; assumption].
  split; [exact Hk|]. simpl. apply Forall_insert; [exact Hcs|].
  simpl. apply (Forall_lookup_1 _ _ _ _ Hcs Hc).
Qed.

Lemma edit_child_flags j v panel :
  w_visible (edit_child j v panel) = w_visible panel.
Proof.
  unfold edit_child. destruct (modify_at _ _ _); reflexivity.
Qed.

Lemma row_edit r qa panel j v :
  py_pos (length (w_children r)) (-1) = Returned qa ->
  w_children r !! qa = Some panel ->
  let r' := set_children (<[qa := edit_child j v panel]> (w_children r)) r in
  (forall i, shelf_inv i r -> shelf_inv i r' /\ panel_ok panel) /\
  (mark_inv r -> mark_inv r' /\ panel_ok panel).
Proof.
  intros Hqa Hp. cbv zeta. split.
  - intros i. unfold shelf_inv. split_children r. simpl in Hqa.
    injection Hqa as <-. simpl in Hp. injection Hp as <-. simpl.
    intros (Hc & Hs & Hb & Hp & Hfl). split; [|exact Hp].
    rewrite edit_child_flags. split; [exact Hc|]. split; [exact Hs|].
    split; [exact Hb|]. split; [apply panel_edited, Hp|exact Hfl].
  - unfold mark_inv. split_children r. simpl in Hqa.
    injection Hqa as <-. simpl in Hp. injection Hp as <-. simpl.
    intros (Hs & Hb & Hp & Hfl). split; [|exact Hp].
    rewrite edit_child_flags. split; [exact Hs|].
    split; [exact Hb|]. split; [apply panel_edited, Hp|exact Hfl].
Qed.

Lemma widget_at_parts self row k w :
  widget_at self row k = Returned w ->
  exists p r q,
    py_pos (length (w_children (controller self))) row = Returned p /\
    w_children (controller self) !! p = Some r /\
    py_pos (length (w_children r)) k = Returned q /\
    w_children r !! q = Some w.
Proof.
  unfold widget_at, py_getitem. intros H.
  destruct (py_pos (length (w_children (controller self))) row) as [p|] eqn:Hp; [|discriminate].
  simpl in H. destruct (w_children (controller self) !! p) as [r|] eqn:Hr; [|discriminate].
  simpl in H. destruct (py_pos (length (w_children r)) k) as [q|] eqn:Hq; [|discriminate].
  simpl in H. destruct (w_children r !! q) eqn:E; [|discriminate].
  injection H as ->. exists p, r, q. auto.
Qed.






(** * Further properties *)

(** ** The handler: what an event changes *)

Lemma update_split ev self :
  update ev self =
  (let! _ := mutate ev in let! self' := sget in plot (settings self') true)%st self.
Proof.
  unfold update, mutate, sbind, slift.
  destruct (attr (w_row (owner ev))) as [index|]; [|reflexivity].
  destruct (attr (w_title (owner ev))) as [title|]; reflexivity.
Qed.

Lemma with_settings_id self : with_settings (settings self) self = self.
Proof. destruct self. reflexivity. Qed.

Lemma on_entry_with_settings index f self :
  exists st, (on_entry index f self).2 = with_settings st self /\
             (st = settings self \/
              exists p d d', py_pos (length (encodings (settings self))) index = Returned p /\
                             encodings (settings self) !! p = Some d /\
                             f d = Returned d' /\
                             (on_entry index f self).1 = Returned tt /\
                             st = MkSettings (mark (settings self))
                                    (<[p := d']> (encodings (settings self)))).
Proof.
  unfold on_entry.
  destruct (py_pos _ index) as [p|] eqn:Hp;
    [|exists (settings self); split; [symmetry; apply with_settings_id|left; reflexivity]].
  destruct (encodings (settings self) !! p) as [d|] eqn:Hd;
    [|exists (settings self); split; [symmetry; apply with_settings_id|left; reflexivity]].
  destruct (f d) as [d'|] eqn:Hf;
    [|exists (settings self); split; [symmetry; apply with_settings_id|left; reflexivity]].
  eexists. split; [reflexivity|]. right. exists p, d, d'. auto.
Qed.

Lemma same_but_refl index st : same_but index st st.
Proof. split; [reflexivity|]. split; [reflexivity|]. intros; reflexivity. Qed.

Lemma same_but_trans index st1 st2 st3 :
  same_but index st1 st2 -> same_but index st2 st3 -> same_but index st1 st3.
Proof.
  intros (Hm1 & Hl1 & Ho1) (Hm2 & Hl2 & Ho2). split; [congruence|]. split; [congruence|].
  intros p Hp j Hj. rewrite (Ho2 p); [apply (Ho1 p Hp j Hj)|rewrite Hl1; exact Hp|exact Hj].
Qed.

Lemma on_entry_same_but index f self :
  same_but index (settings self) (settings (on_entry index f self).2).
Proof.
  destruct (on_entry_with_settings index f self) as (st & -> & [->|Hst]).
  - apply same_but_refl.
  - destruct Hst as (p & d & d' & Hp & Hd & Hf & _ & ->). simpl.
    split; [reflexivity|]. split; [apply length_insert|].
    intros p' Hp' j Hj. rewrite Hp in Hp'. injection Hp' as <-.
    simpl. apply list_lookup_insert_ne. congruence.
Qed.

Lemma on_entry_rest index f self :
  (on_entry index f self).2 = with_settings (settings (on_entry index f self).2) self.
Proof.
  destruct (on_entry_with_settings index f self) as (st & -> & _). reflexivity.
Qed.

(** The mutation changes nothing but the settings. *)
Lemma mutate_rest ev self :
  (mutate ev self).2 = with_settings (settings (mutate ev self).2) self.
Proof.
  unfold mutate, sbind, slift, sret.
  destruct (attr (w_row (owner ev))) as [index|]; [|symmetry; apply with_settings_id].
  destruct (attr (w_title (owner ev))) as [title|]; [|symmetry; apply with_settings_id].
  destruct (index =? -1); [reflexivity|].
  set (pre := if String.eqb title "type" then _ else _).
  assert (Hpre : (pre self).2 = with_settings (settings (pre self).2) self).
  { subst pre. destruct (String.eqb title "type"); [|symmetry; apply with_settings_id].
    destruct (py_in "auto" (w_value (owner ev))) as [[]|];
      [apply on_entry_rest|symmetry; apply with_settings_id..]. }
  destruct (pre self) as [[[]|e] s1]; cbn [fst snd] in *; [|exact Hpre].
  set (body := if String.eqb title "text" then _ else _).
  assert (Hbody : (body s1).2 = with_settings (settings (body s1).2) s1).
  { subst body. destruct (String.eqb title "text");
      [destruct (decide _)|destruct (decide _)]; apply on_entry_rest. }
  rewrite Hbody. rewrite Hpre at 2. reflexivity.
Qed.

Lemma mutate_same_but ev self index :
  w_row (owner ev) = Some index -> index <> -1 ->
  same_but index (settings self) (settings (mutate ev self).2).
Proof.
  intros Hrow Hidx. unfold mutate, sbind, slift, sret. rewrite Hrow. cbn [attr].
  destruct (attr (w_title (owner ev))) as [title|]; [|apply same_but_refl].
  destruct (Z.eqb_spec index (-1)) as [?|_]; [contradiction|].
  set (pre := if String.eqb title "type" then _ else _).
  assert (Hpre : same_but index (settings self) (settings (pre self).2)).
  { subst pre. destruct (String.eqb title "type"); [|apply same_but_refl].
    destruct (py_in "auto" (w_value (owner ev))) as [[]|];
      [apply on_entry_same_but|apply same_but_refl..]. }
  destruct (pre self) as [[[]|e] s1]; cbn [fst snd] in *; [|exact Hpre].
  eapply same_but_trans; [exact Hpre|].
  destruct (String.eqb title "text");
    [destruct (decide _)|destruct (decide _)]; apply on_entry_same_but.
Qed.

(** X3: an event of an encoding row changes at most the entry it addresses:
    the mark options, the number of entries and every other entry stay as
    they were, whether the handler returns or raises. *)
Theorem update_touches_one_entry ev self index :
  w_row (owner ev) = Some index -> index <> -1 ->
  mark (settings (update ev self).2) = mark (settings self) /\
  length (encodings (settings (update ev self).2)) = length (encodings (settings self)) /\
  forall p, py_pos (length (encodings (settings self))) index = Returned p ->
    forall j, j <> p ->
      encodings (settings (update ev self).2) !! j = encodings (settings self) !! j.
Proof.
  intros Hrow Hidx. rewrite update_split, then_plot_settings.
  apply (mutate_same_but ev self index Hrow Hidx).
Qed.

Lemma update_touches_one_entry_witness :
  mark (settings (update bin_event demo_form).2) = mark (settings demo_form) /\
  length (encodings (settings (update bin_event demo_form).2))
  = length (encodings (settings demo_form)) /\
  forall p, py_pos (length (encodings (settings demo_form))) 0 = Returned p ->
    forall j, j <> p ->
      encodings (settings (update bin_event demo_form).2) !! j
      = encodings (settings demo_form) !! j.
Proof. apply (update_touches_one_entry bin_event demo_form 0); [reflexivity|lia]. Defined.

(** X4: an event of the mark row stores the new value in the mark options under
    the title of the control, whatever the value, and leaves every encoding
    entry as it was. *)
Theorem update_mark_row ev self title :
  w_row (owner ev) = Some (-1) -> w_title (owner ev) = Some title ->
  settings (update ev self).2
  = MkSettings (<[title := new ev]> (mark (settings self))) (encodings (settings self)).
Proof.
  intros Hrow Ht. rewrite update_split, then_plot_settings.
  unfold mutate, sbind, slift. rewrite Hrow, Ht. reflexivity.
Qed.

Lemma update_mark_row_witness :
  settings (update color_event demo_form).2
  = MkSettings (<["color" := new color_event]> (mark (settings demo_form)))
      (encodings (settings demo_form)).
Proof. apply (update_mark_row color_event demo_form "color"); reflexivity. Defined.

Lemma plot_rest s b self :
  controller (plot s b self).2 = controller self /\
  df (plot s b self).2 = df self /\
  show (plot s b self).2 = show self.
Proof.
  unfold plot. destruct (plot_chart self) as [c|]; [|auto].
  destruct (b && show (set_chart c self)); auto.
Qed.

(** X5: the handler changes neither the controller tree nor the data nor the
    display switch. *)
Theorem update_keeps_form ev self :
  controller (update ev self).2 = controller self /\
  df (update ev self).2 = df self /\
  show (update ev self).2 = show self.
Proof.
  rewrite update_split. unfold sbind, sget.
  pose proof (mutate_rest ev self) as Hm.
  destruct (mutate ev self) as [[[]|e] s1]; cbn [fst snd] in *.
  - destruct (plot_rest (settings s1) true s1) as (Hc & Hd & Hs).
    rewrite Hc, Hd, Hs, Hm. auto.
  - rewrite Hm. auto.
Qed.

(** X6: when the handler returns, the stored chart is the one compiled from
    the settings it leaves, and it is on display exactly when the instance
    was created with [show]. *)
Theorem update_chart_in_sync ev self :
  (update ev self).1 = Returned tt ->
  exists c,
    plot_chart (update ev self).2 = Returned c /\
    chart (update ev self).2 = Some c /\
    cell (update ev self).2 = if show self then [ShownChart c] else cell self.
Proof.
  rewrite update_split. unfold sbind, sget.
  pose proof (mutate_rest ev self) as Hm.
  destruct (mutate ev self) as [[[]|e] s1]; cbn [fst snd] in *; [|discriminate].
  unfold plot. destruct (plot_chart s1) as [c|] eqn:Hc; [|discriminate].
  intros _. exists c.
  assert (Hshow : show (set_chart c s1) = show self) by (rewrite Hm; reflexivity).
  assert (Hcell : cell (set_chart c s1) = cell self) by (rewrite Hm; reflexivity).
  rewrite Hshow. cbn [andb]. destruct (show self); cbn [fst snd].
  - split; [exact Hc|]. split; reflexivity.
  - split; [exact Hc|]. split; [reflexivity|exact Hcell].
Qed.

Lemma update_chart_in_sync_witness :
  exists c,
    plot_chart (update bin_event demo_form).2 = Returned c /\
    chart (update bin_event demo_form).2 = Some c /\
    cell (update bin_event demo_form).2
    = if show demo_form then [ShownChart c] else cell demo_form.
Proof. apply (update_chart_in_sync bin_event demo_form). vm_compute. reflexivity. Defined.

Lemma py_pos_out n i :
  Z.of_nat n <= i \/ i < - Z.of_nat n -> py_pos n i = Raised IndexError.
Proof. intros H. py_pos_cases; first [reflexivity | lia]. Qed.

Lemma on_entry_out index f self :
  py_pos (length (encodings (settings self))) index = Raised IndexError ->
  on_entry index f self = (Raised IndexError, self).
Proof. intros H. unfold on_entry. rewrite H. reflexivity. Qed.

(** X7: an event whose row is outside the entries (and is not the mark row)
    makes the handler raise [IndexError] and leaves the instance as it
    was. *)
Theorem update_row_out_of_range ev self index title :
  w_row (owner ev) = Some index ->
  w_title (owner ev) = Some title ->
  index <> -1 ->
  (title = "type" -> exists s, w_value (owner ev) = VStr s) ->
  Z.of_nat (length (encodings (settings self))) <= index \/
  index < - Z.of_nat (length (encodings (settings self))) ->
  update ev self = (Raised IndexError, self).
Proof.
  intros Hrow Ht Hidx Hty Hout. apply py_pos_out in Hout.
  rewrite update_split. unfold mutate, sbind, slift, sret. rewrite Hrow, Ht. cbn [attr].
  destruct (Z.eqb_spec index (-1)) as [?|_]; [contradiction|].
  destruct (String.eqb_spec title "type") as [->|Hne].
  - destruct (Hty eq_refl) as (s & ->). cbn [py_in].
    destruct (str_contains "auto" s).
    + rewrite (on_entry_out _ _ _ Hout). reflexivity.
    + cbn [String.eqb Ascii.eqb Bool.eqb]. destruct (decide _);
        rewrite (on_entry_out _ _ _ Hout); reflexivity.
  - destruct (String.eqb title "text");
      [destruct (decide _)|destruct (decide _)]; rewrite (on_entry_out _ _ _ Hout); reflexivity.
Qed.

Lemma update_row_out_of_range_witness :
  update far_event demo_form = (Raised IndexError, demo_form).
Proof.
  apply (update_row_out_of_range far_event demo_form 7 "bin").
  - reflexivity.
  - reflexivity.
  - lia.
  - discriminate.
  - left. vm_compute. discriminate.
Defined.

(** The handler on an encoding row for a title other than 'type' and
    'text': the settings when the operation on the entry succeeds, and the
    exception when it does not. *)
Lemma update_generic ev self index title p d :
  w_row (owner ev) = Some index ->
  w_title (owner ev) = Some title ->
  index <> -1 -> title <> "type" -> title <> "text" ->
  py_pos (length (encodings (settings self))) index = Returned p ->
  encodings (settings self) !! p = Some d ->
  match (if decide (new ev = VNone) then entry_pop title d
         else entry_setitem title (new ev) d) with
  | Returned d' =>
      settings (update ev self).2
      = MkSettings (mark (settings self)) (<[p := d']> (encodings (settings self)))
  | Raised e => update ev self = (Raised e, self)
  end.
Proof.
  intros Hrow Ht Hidx Hty Htx Hp Hd.
  rewrite (update_encoding_row ev self index title Hrow Ht Hidx Hty).
  destruct (String.eqb_spec title "text") as [?|_]; [contradiction|].
  destruct (decide (new ev = VNone)) as [Hn|Hn].
  - destruct (entry_pop title d) as [d'|ex] eqn:Hf.
    + rewrite then_plot_settings, (on_entry_spec _ _ _ _ _ Hp Hd), Hf. reflexivity.
    + unfold sbind. rewrite (on_entry_spec _ _ _ _ _ Hp Hd), Hf. reflexivity.
  - cbn [entry_setitem].
    rewrite then_plot_settings, (on_entry_spec _ _ _ _ _ Hp Hd). reflexivity.
Qed.

(** X8: setting a key of an entry and then unsetting it gives back the
    settings from before, when the key was absent. *)
Theorem update_set_then_unset ev_set ev_unset self index title p d :
  w_row (owner ev_set) = Some index -> w_title (owner ev_set) = Some title ->
  w_row (owner ev_unset) = Some index -> w_title (owner ev_unset) = Some title ->
  index <> -1 -> title <> "type" -> title <> "text" ->
  new ev_set <> VNone -> new ev_unset = VNone ->
  py_pos (length (encodings (settings self))) index = Returned p ->
  encodings (settings self) !! p = Some d ->
  d !! title = None ->
  settings (update ev_unset (update ev_set self).2).2 = settings self.
Proof.
  intros Hr1 Ht1 Hr2 Ht2 Hidx Hty Htx Hv1 Hv2 Hp Hd Habs.
  pose proof (py_pos_lt _ _ _ Hp) as Hlt.
  pose proof (update_generic ev_set self index title p d Hr1 Ht1 Hidx Hty Htx Hp Hd) as H1.
  rewrite decide_False in H1 by exact Hv1. cbn [entry_setitem] in H1.
  set (s1 := (update ev_set self).2) in *.
  assert (Hp1 : py_pos (length (encodings (settings s1))) index = Returned p).
  { rewrite H1. cbn [encodings]. rewrite length_insert. exact Hp. }
  assert (Hd1 : encodings (settings s1) !! p = Some (<[title := new ev_set]> d)).
  { rewrite H1. cbn [encodings]. apply list_lookup_insert_eq, Hlt. }
  pose proof (update_generic ev_unset s1 index title p _ Hr2 Ht2 Hidx Hty Htx Hp1 Hd1) as H2.
  rewrite decide_True in H2 by exact Hv2.
  unfold entry_pop, dict_pop in H2. rewrite lookup_insert_eq in H2. cbn [obind snd] in H2.
  rewrite H2, H1. cbn [mark encodings].
  rewrite delete_insert_eq, (delete_id _ _ Habs), list_insert_insert_eq.
  rewrite (list_insert_id _ _ _ Hd). destruct (settings self). reflexivity.
Qed.

Lemma update_set_then_unset_witness :
  settings (update (aggregate_event VNone (VStr "mean"))
              (update (aggregate_event (VStr "mean") VNone) demo_form).2).2
  = settings demo_form.
Proof.
  apply (update_set_then_unset (aggregate_event (VStr "mean") VNone)
           (aggregate_event VNone (VStr "mean")) demo_form 0 "aggregate" 0%nat
           (initial_entry "x")).
  - reflexivity.
  - reflexivity.
  - reflexivity.
  - reflexivity.
  - lia.
  - discriminate.
  - discriminate.
  - discriminate.
  - reflexivity.
  - reflexivity.
  - reflexivity.
  - reflexivity.
Defined.

(** X9: after an event with a new value other than [None], for a title other
    than 'text', the addressed entry holds the new value under the title,
    also for the type selector. *)
Theorem update_sets_key ev self index title p :
  w_row (owner ev) = Some index ->
  w_title (owner ev) = Some title ->
  index <> -1 -> title <> "text" ->
  (title = "type" -> exists s, w_value (owner ev) = VStr s) ->
  new ev <> VNone ->
  py_pos (length (encodings (settings self))) index = Returned p ->
  entry_key (update ev self).2 p title = Some (new ev).
Proof.
  intros Hrow Ht Hidx Htx Hty Hnew Hp.
  pose proof (py_pos_lt _ _ _ Hp) as Hlt.
  destruct (lookup_lt_is_Some_2 _ _ Hlt) as [d Hd].
  destruct (String.eqb_spec title "type") as [->|Hne].
  - destruct (Hty eq_refl) as [s Hs].
    unfold update, sbind, slift, sret, sget. rewrite Hrow, Ht, Hs. cbn [attr py_in].
    destruct (Z.eqb_spec index (-1)) as [?|_]; [contradiction|].
    cbn [String.eqb Ascii.eqb Bool.eqb].
    rewrite decide_False by exact Hnew.
    destruct (str_contains "auto" s).
    + rewrite (on_entry_spec _ _ _ _ _ Hp Hd). cbn [entry_pop_default].
      rewrite (on_entry_spec index _ _ p (dict_pop_default d "type").2);
        [|cbn; rewrite length_insert; exact Hp
         |cbn; apply list_lookup_insert_eq; exact Hlt].
      cbn [entry_setitem].
      erewrite entry_key_settings; [|apply plot_settings].
      unfold entry_key. cbn. rewrite list_lookup_insert_eq by (rewrite length_insert; exact Hlt).
      cbn. apply lookup_insert_eq.
    + rewrite (on_entry_spec _ _ _ _ _ Hp Hd). cbn [entry_setitem].
      erewrite entry_key_settings; [|apply plot_settings].
      unfold entry_key. cbn. rewrite list_lookup_insert_eq by exact Hlt.
      cbn. apply lookup_insert_eq.
  - pose proof (update_generic ev self index title p d Hrow Ht Hidx Hne Htx Hp Hd) as H.
    rewrite decide_False in H by exact Hnew. cbn [entry_setitem] in H.
    unfold entry_key. rewrite H. cbn [encodings].
    rewrite list_lookup_insert_eq by exact Hlt. cbn. apply lookup_insert_eq.
Qed.

Lemma update_sets_key_witness :
  entry_key (update bin_event demo_form).2 0 "bin" = Some (new bin_event).
Proof.
  apply (update_sets_key bin_event demo_form 0 "bin" 0%nat).
  - reflexivity.
  - reflexivity.
  - lia.
  - discriminate.
  - discriminate.
  - discriminate.
  - reflexivity.
Defined.

(** ** Entries without [None] *)

Lemma on_entry_Forall (P : dict -> Prop) index f self :
  (forall d d', P d -> f d = Returned d' -> P d') ->
  Forall P (encodings (settings self)) ->
  Forall P (encodings (settings (on_entry index f self).2)).
Proof.
  intros Hf Hall. unfold on_entry.
  destruct (py_pos _ index) as [p|]; [|exact Hall].
  destruct (encodings (settings self) !! p) as [d|] eqn:Hd; [|exact Hall].
  destruct (f d) as [d'|] eqn:Hfd; [|exact Hall].
  simpl. apply Forall_insert; [exact Hall|].
  eapply Hf; [|exact Hfd].
  eapply Forall_lookup_1; [exact Hall|exact Hd].
Qed.

Lemma no_None_delete k (d : dict) : no_None d -> no_None (delete k d).
Proof.
  intros H k'. destruct (decide (k = k')) as [->|Hne].
  - rewrite lookup_delete_eq. discriminate.
  - rewrite lookup_delete_ne by exact Hne. apply H.
Qed.

Lemma no_None_insert k v (d : dict) : v <> VNone -> no_None d -> no_None (<[k := v]> d).
Proof.
  intros Hv H k'. destruct (decide (k = k')) as [->|Hne].
  - rewrite lookup_insert_eq. congruence.
  - rewrite lookup_insert_ne by exact Hne. apply H.
Qed.

Lemma no_None_pop_default k d d' :
  no_None d -> entry_pop_default k d = Returned d' -> no_None d'.
Proof.
  unfold entry_pop_default, dict_pop_default. intros H.
  destruct (d !! k); intros [= <-]; [apply no_None_delete|]; exact H.
Qed.

Lemma no_None_pop k d d' : no_None d -> entry_pop k d = Returned d' -> no_None d'.
Proof.
  unfold entry_pop, dict_pop. intros H.
  destruct (d !! k); [|discriminate]. intros [= <-]. apply no_None_delete, H.
Qed.

Lemma no_None_setitem k v d d' :
  v <> VNone -> no_None d -> entry_setitem k v d = Returned d' -> no_None d'.
Proof. intros Hv H [= <-]. apply no_None_insert; assumption. Qed.

(** X10: the handler keeps the entries free of [None]: when no entry holds
    [None] before an event, none does afterwards, as the encoding branch
    removes the key when the new value is [None].  (The value of a text
    control is a string.) *)
Theorem update_encodings_no_None ev self :
  (w_title (owner ev) = Some "text" -> w_value (owner ev) <> VNone) ->
  Forall no_None (encodings (settings self)) ->
  Forall no_None (encodings (settings (update ev self).2)).
Proof.
  intros Htext Hall. unfold update, sbind, slift, sret, sget.
  destruct (w_row (owner ev)) as [index|]; simpl; [|exact Hall].
  destruct (w_title (owner ev)) as [title|]; simpl; [|exact Hall].
  destruct (index =? -1).
  { unfold mark_setitem. simpl. rewrite plot_settings. exact Hall. }
  set (pre := if String.eqb title "type" then _ else _).
  assert (Hpre : Forall no_None (encodings (settings (pre self).2))).
  { subst pre. destruct (String.eqb title "type"); [|exact Hall].
    destruct (py_in "auto" (w_value (owner ev))) as [[]|]; simpl; try exact Hall.
    apply on_entry_Forall; [|exact Hall]. intros d d'. apply no_None_pop_default. }
  destruct (pre self) as [[[]|e] s1]; simpl in *; [|exact Hpre].
  set (body := if String.eqb title "text" then _ else _).
  assert (Hbody : Forall no_None (encodings (settings (body s1).2))).
  { subst body. destruct (String.eqb_spec title "text") as [->|_].
    - destruct (decide (w_value (owner ev) = VStr "")).
      + apply on_entry_Forall; [|exact Hpre]. intros d d'. apply no_None_pop_default.
      + apply on_entry_Forall; [|exact Hpre]. intros d d'.
        apply no_None_setitem. apply Htext. reflexivity.
    - destruct (decide (new ev = VNone)).
      + apply on_entry_Forall; [|exact Hpre]. intros d d'. apply no_None_pop.
      + apply on_entry_Forall; [|exact Hpre]. intros d d'.
        apply no_None_setitem. assumption. }
  destruct (body s1) as [[[]|e] s2]; simpl in *; [|exact Hbody].
  rewrite plot_settings. exact Hbody.
Qed.

Lemma no_None_initial e : no_None (initial_entry e).
Proof.
  intros k. unfold initial_entry. destruct (decide (k = "encoding")) as [->|Hne].
  - rewrite lookup_singleton_eq. discriminate.
  - rewrite lookup_singleton_ne by congruence. discriminate.
Qed.

Lemma demo_form_no_None : Forall no_None (encodings (settings demo_form)).
Proof.
  assert (H : encodings (settings demo_form) = initial_entry <$> take 4 _get_encodings)
    by (vm_compute; reflexivity).
  rewrite H. apply Forall_fmap, Forall_forall. intros e _. apply no_None_initial.
Qed.

(** The handler at an event of the bin checkbox keeps the entries of the
    fresh form free of [None]. *)
Lemma update_encodings_no_None_witness :
  Forall no_None (encodings (settings (update bin_event demo_form).2)).
Proof.
  apply (update_encodings_no_None bin_event demo_form).
  - discriminate.
  - exact demo_form_no_None.
Defined.

(** ** The constructor *)

Lemma shelves_raise columns n : forall start,
  (start <= 9 < start + n)%nat ->
  omap_list (_create_shelf columns) (Z.of_nat <$> seq start n) = Raised IndexError.
Proof.
  induction n as [|n IH]; intros start Hs; [lia|].
  change (Z.of_nat <$> seq start (S n))
    with (Z.of_nat start :: (Z.of_nat <$> seq (S start) n)).
  cbn [omap_list].
  destruct (decide (start = 9%nat)) as [->|Hne].
  - reflexivity.
  - destruct (_create_shelf_shape columns (Z.of_nat start)) as (w & Hw & _); [lia|].
    rewrite Hw. cbn [obind]. rewrite IH by lia. reflexivity.
Qed.

Lemma initial_plot_returns cols ctl shw out (l : list string) :
  exists c,
    plot_chart (MkInteract cols (MkSettings {["mark" := VStr "mark_point"]} (initial_entry <$> l))
                  ctl shw None out) = Returned c.
Proof.
  unfold plot_chart. cbn [settings encodings mark df].
  rewrite plot_items_initial. cbn [obind].
  destruct (keywords_unbound l ∅) as [kw Hkw].
  unfold dict_pop. rewrite lookup_singleton_eq. cbn [obind fst snd]. rewrite Hkw.
  cbn [obind]. eauto.
Qed.

Lemma plot_returns s b self c :
  plot_chart self = Returned c -> (plot s b self).1 = Returned tt.
Proof. intros H. unfold plot. rewrite H. destruct (b && _); reflexivity. Qed.

(** The constructor once the controller tree is built. *)
Lemma init_after_controller cols ndims shw ctl :
  _generate_controller (VNone :: (VStr <$> _get_columns cols)) ndims = Returned ctl ->
  exists self,
    __init__ (DataFrame cols) ndims shw = Returned self /\
    controller self = ctl /\
    settings self = MkSettings {["mark" := VStr "mark_point"]}
                      (initial_entry <$> py_slice_to _get_encodings ndims) /\
    df self = cols /\ show self = shw.
Proof.
  intros Hctl. unfold __init__. rewrite Hctl. fold initial_entry.
  match goal with |- context [plot ?s ?b ?x] => set (self0 := x); set (s0 := s) end.
  destruct (initial_plot_returns cols ctl shw (if shw then [ShownController] else [])
              (py_slice_to _get_encodings ndims)) as [c Hc].
  fold s0 in Hc. fold self0 in Hc.
  pose proof (plot_returns s0 shw self0 c Hc) as Hret.
  pose proof (plot_settings s0 shw self0) as Hs.
  destruct (plot_rest s0 shw self0) as (Hctl' & Hdf & Hshow).
  destruct (plot s0 shw self0) as [o self1]. cbn [fst snd] in *. subst o.
  exists self1. split; [reflexivity|]. rewrite Hctl', Hs, Hdf, Hshow. auto.
Qed.

Lemma _generate_controller_returns columns ndims :
  ndims <= 9 -> exists ctl, _generate_controller columns ndims = Returned ctl.
Proof.
  intros Hle.
  destruct (shelves_shape columns (Z.to_nat ndims) 0%nat) as (ws & Hws & _); [lia|].
  unfold _generate_controller, py_range. rewrite Hws. eexists. reflexivity.
Qed.

(** X1: the constructor raises [ValueError] on anything but a DataFrame,
    raises [IndexError] for more than nine dimensions, and returns an
    instance in every other case, also for a negative dimension count. *)
Theorem init_outcome (data : pyobj) (ndims : Z) (shw : bool) :
  match data with
  | NotDataFrame => __init__ data ndims shw = Raised ValueError
  | DataFrame _ =>
      if ndims <=? 9 then exists self, __init__ data ndims shw = Returned self
      else __init__ data ndims shw = Raised IndexError
  end.
Proof.
  destruct data as [cols|]; [|reflexivity].
  destruct (Z.leb_spec ndims 9) as [Hle|Hgt].
  - destruct (_generate_controller_returns (VNone :: (VStr <$> _get_columns cols)) ndims Hle)
      as [ctl Hctl].
    destruct (init_after_controller cols ndims shw ctl Hctl) as (self & Hself & _). eauto.
  - unfold __init__, _generate_controller, py_range.
    rewrite shelves_raise by lia. reflexivity.
Qed.

(** X2: with a negative dimension count the constructor builds a form with
    the mark row only, yet the settings start with all but the last
    [-ndims] encodings. *)
Theorem init_negative_dimensions cols ndims shw :
  ndims < 0 ->
  exists self mark_row,
    __init__ (DataFrame cols) ndims shw = Returned self /\
    w_children (controller self) = [mark_row] /\
    is_mark_row mark_row /\
    encodings (settings self)
    = initial_entry <$> take (Z.to_nat (9 + ndims)) _get_encodings.
Proof.
  intros Hneg.
  edestruct (init_after_controller cols ndims shw) as (self & Hself & Hctl & Hs & _).
  { unfold _generate_controller, py_range.
    replace (Z.to_nat ndims) with 0%nat by lia. reflexivity. }
  exists self. eexists. split; [exact Hself|]. rewrite Hctl, Hs. cbn [w_children new_VBox app].
  split; [reflexivity|]. split.
  - unfold is_mark_row. cbn. repeat split.
  - cbn [encodings]. unfold py_slice_to.
    destruct (Z.leb_spec 0 ndims) as [?|_]; [lia|]. reflexivity.
Qed.

Lemma init_negative_dimensions_witness :
  exists self mark_row,
    __init__ (DataFrame demo_columns) (-2) true = Returned self /\
    w_children (controller self) = [mark_row] /\
    is_mark_row mark_row /\
    encodings (settings self)
    = initial_entry <$> take (Z.to_nat (9 + -2)) _get_encodings.
Proof. apply (init_negative_dimensions demo_columns (-2) true). lia. Defined.

(** ** The compiled chart *)

Lemma keywords_keys {V} (pairs : list (pyval * V)) : forall acc kw,
  keywords pairs acc = Returned kw ->
  Forall (fun kv => exists s, kv.1 = VStr s) pairs.
Proof.
  induction pairs as [|[k v] pairs IH]; intros acc kw H; [constructor|].
  cbn [keywords] in H. destruct k as [| |s|]; try discriminate.
  constructor; [exists s; reflexivity|]. eapply IH, H.
Qed.

Lemma keywords_returns {V} (pairs : list (pyval * V)) : forall acc,
  Forall (fun kv => exists s, kv.1 = VStr s) pairs ->
  exists kw, keywords pairs acc = Returned kw.
Proof.
  induction pairs as [|[k v] pairs IH]; intros acc H; [eexists; reflexivity|].
  apply Forall_cons in H as [[s Hs] H]. cbn [fst] in Hs. subst k.
  cbn [keywords]. apply IH, H.
Qed.

(** A keyword that no later pair names keeps its value. *)
Lemma keywords_other {V} (pairs : list (pyval * V)) k : forall acc kw,
  keywords pairs acc = Returned kw ->
  Forall (fun kv => kv.1 <> VStr k) pairs ->
  kw !! k = acc !! k.
Proof.
  induction pairs as [|[k0 v0] pairs IH]; intros acc kw H Hall; cbn [keywords] in H.
  - injection H as <-. reflexivity.
  - destruct k0 as [| |s|]; try discriminate.
    apply Forall_cons in Hall as [Hk Hall]. cbn [fst] in Hk.
    rewrite (IH _ _ H Hall). apply lookup_insert_ne. congruence.
Qed.

Lemma keywords_last {V} (l1 : list (pyval * V)) k v l2 : forall acc kw,
  keywords (l1 ++ (VStr k, v) :: l2) acc = Returned kw ->
  Forall (fun kv => kv.1 <> VStr k) l2 ->
  kw !! k = Some v.
Proof.
  induction l1 as [|[k0 v0] l1 IH]; intros acc kw H Hall; cbn [app keywords] in H.
  - rewrite (keywords_other _ _ _ _ H Hall). apply lookup_insert_eq.
  - destruct k0 as [| |s|]; try discriminate. eapply IH; eassumption.
Qed.

(** A keyword is there exactly when a pair names it (or it was there). *)
Lemma keywords_dom {V} (pairs : list (pyval * V)) k : forall acc kw,
  keywords pairs acc = Returned kw ->
  (is_Some (kw !! k) <-> (exists v, (VStr k, v) ∈ pairs) \/ is_Some (acc !! k)).
Proof.
  induction pairs as [|[k0 v0] pairs IH]; intros acc kw H; cbn [keywords] in H.
  - injection H as <-. split; [auto|]. intros [[v Hv]|H]; [|exact H].
    apply elem_of_nil in Hv. contradiction.
  - destruct k0 as [| |s|]; try discriminate.
    rewrite (IH _ _ H). split.
    + intros [[v Hv]|Hs].
      * left. exists v. apply list_elem_of_further, Hv.
      * destruct (decide (s = k)) as [->|Hne].
        -- left. exists v0. apply list_elem_of_here.
        -- right. rewrite lookup_insert_ne in Hs by exact Hne. exact Hs.
    + intros [[v Hv]|Hs].
      * apply elem_of_cons in Hv as [Hv|Hv].
        -- injection Hv as -> ->. right. rewrite lookup_insert_eq. eauto.
        -- left. eauto.
      * right. destruct (decide (s = k)) as [->|Hne].
        -- rewrite lookup_insert_eq. eauto.
        -- rewrite lookup_insert_ne by exact Hne. exact Hs.
Qed.

Lemma omap_list_Forall2 {A B} (f : A -> outcome B) (l : list A) : forall bs,
  omap_list f l = Returned bs <-> Forall2 (fun a b => f a = Returned b) l bs.
Proof.
  induction l as [|a l IH]; intros bs; cbn [omap_list].
  - split; [intros [= <-]; constructor|intros H; inversion H; reflexivity].
  - split.
    + destruct (f a) as [b|] eqn:Hb; [|discriminate]. cbn [obind].
      destruct (omap_list f l) as [bs0|] eqn:Hl; [|discriminate]. cbn [obind].
      intros [= <-]. constructor; [exact Hb|]. apply IH. reflexivity.
    + intros H. inversion H as [|a' b l' bs' Hb Hrest]; subst.
      rewrite Hb. cbn [obind]. apply IH in Hrest. rewrite Hrest. reflexivity.
Qed.

(** X14: the outcomes of the compiler that are the module's own.  An entry
    without a column compiles to nothing; a bound entry without an
    'encoding' key raises [KeyError]; a bound entry whose encoding is not a
    string, and which has neither 'scale' nor 'zero', raises
    [AttributeError]; and whenever a field is returned, the entry names its
    encoding by a string, the field is on the column of the entry, and its
    options are the remaining keys of the entry, with 'scale' and 'zero'
    replaced by one scale descriptor when either is present. *)
Theorem _get_plot_command_outcome e :
  (e !! "column" = None -> _get_plot_command e = Returned None) /\
  (is_Some (e !! "column") -> e !! "encoding" = None ->
   _get_plot_command e = Raised KeyError) /\
  (is_Some (e !! "column") ->
   (exists v, e !! "encoding" = Some v /\ forall s, v <> VStr s) ->
   e !! "scale" = None -> e !! "zero" = None ->
   _get_plot_command e = Raised AttributeError) /\
  (forall f, _get_plot_command e = Returned (Some f) ->
     (exists enc, e !! "encoding" = Some (VStr enc)) /\
     e !! "column" = Some (f_shorthand f) /\
     f_options f =
       if bool_decide (is_Some (e !! "scale")) || bool_decide (is_Some (e !! "zero"))
       then <["scale" := VScale (default VNone (e !! "scale"))
                                (default VNone (e !! "zero"))]> (plain_options e)
       else plain_options e).
Proof.
  split; [apply _get_plot_command_unbound|]. split; [|split].
  - intros [col Hcol] Henc. rewrite _get_plot_command_closed, Hcol, Henc. reflexivity.
  - intros [col Hcol] (v & Henc & Hv) _ _.
    rewrite _get_plot_command_closed, Hcol, Henc.
    destruct v as [| |s|]; try reflexivity. destruct (Hv s eq_refl).
  - intros f Hf. destruct (_get_plot_command_inv e f Hf) as (enc & Henc & Hcol & _ & Hopts).
    split; [eauto|]. split; assumption.
Qed.

(** X14 at a bound entry whose encoding is [None]. *)
Lemma _get_plot_command_outcome_witness :
  _get_plot_command (dict_of_pairs [("encoding", VNone); ("column", VStr "W")])
  = Raised AttributeError.
Proof.
  apply (proj1 (proj2 (proj2
           (_get_plot_command_outcome (dict_of_pairs [("encoding", VNone); ("column", VStr "W")]))))).
  - exists (VStr "W"). reflexivity.
  - exists VNone. split; [reflexivity|discriminate].
  - reflexivity.
  - reflexivity.
Defined.

Lemma plot_item_inv e kv :
  plot_item e = Returned kv ->
  e !! "encoding" = Some kv.1 /\ _get_plot_command e = Returned kv.2.
Proof.
  unfold plot_item, dict_getitem.
  destruct (e !! "encoding") as [k|]; [|discriminate]. cbn [obind].
  destruct (_get_plot_command e) as [fo|]; [|discriminate]. cbn [obind].
  intros [= <-]. auto.
Qed.

Lemma plot_item_returns e s :
  e !! "encoding" = Some (VStr s) -> exists fo, plot_item e = Returned (VStr s, fo).
Proof.
  intros He. unfold plot_item, dict_getitem. rewrite He. cbn [obind].
  destruct (e !! "column") as [col|] eqn:Hcol.
  - unfold _get_plot_command. rewrite decide_False by (rewrite Hcol; discriminate).
    unfold dict_pop at 1. rewrite He. cbn [obind fst snd].
    unfold dict_pop. rewrite lookup_delete_ne by discriminate. rewrite Hcol.
    cbn [obind fst snd]. eexists. reflexivity.
  - rewrite (_get_plot_command_unbound e Hcol). eexists. reflexivity.
Qed.

Lemma plot_items_return (es : list dict) :
  Forall (fun e => exists s, e !! "encoding" = Some (VStr s)) es ->
  exists pairs, omap_list plot_item es = Returned pairs /\
                Forall (fun kv => exists s, kv.1 = VStr s) pairs.
Proof.
  induction 1 as [|e es [s He] _ (pairs & Hp & Hk)].
  - exists []. split; [reflexivity|constructor].
  - destruct (plot_item_returns e s He) as [fo Hfo].
    exists ((VStr s, fo) :: pairs). cbn [omap_list]. rewrite Hfo, Hp.
    split; [reflexivity|]. constructor; [exists s; reflexivity|exact Hk].
Qed.

(** The parts of a successful compilation. *)
Lemma plot_chart_inv self c :
  plot_chart self = Returned c ->
  exists pairs,
    omap_list plot_item (encodings (settings self)) = Returned pairs /\
    keywords pairs ∅ = Returned (c_encoding c) /\
    mark (settings self) !! "mark" = Some (VStr (c_mark c)) /\
    c_mark_opts c = delete "mark" (mark (settings self)) /\
    c_data c = df self.
Proof.
  unfold plot_chart. intros H.
  destruct (omap_list plot_item _) as [pairs|] eqn:Hp; [|discriminate]. cbn [obind] in H.
  unfold dict_pop in H.
  destruct (mark (settings self) !! "mark") as [m|] eqn:Hm; [|discriminate].
  cbn [obind fst snd] in H.
  destruct m as [| |m|]; try discriminate.
  destruct (keywords pairs ∅) as [kw|] eqn:Hkw; [|discriminate]. cbn [obind] in H.
  injection H as <-. exists pairs. cbn [c_encoding c_mark c_mark_opts c_data]. auto.
Qed.

(** X11: the chart is compiled only when the mark options hold a string
    under 'mark' and every entry names its encoding by a string: without
    either, [plot] raises. *)
Theorem plot_chart_returns_only_if self c :
  plot_chart self = Returned c ->
  (exists m, mark (settings self) !! "mark" = Some (VStr m)) /\
  Forall (fun e : dict => exists s, e !! "encoding" = Some (VStr s))
         (encodings (settings self)).
Proof.
  intros Hc. destruct (plot_chart_inv self c Hc) as (pairs & Hp & Hk & Hm & _).
  split; [eauto|]. apply Forall_forall. intros e He.
  apply list_elem_of_lookup in He as [i Hi].
  apply omap_list_Forall2 in Hp.
  destruct (Forall2_lookup_l _ _ _ _ _ Hp Hi) as (kv & Hkv & Hitem).
  apply plot_item_inv in Hitem as [Henc _].
  pose proof (keywords_keys _ _ _ Hk) as Hkeys.
  destruct (Forall_lookup_1 _ _ _ _ Hkeys Hkv) as [s Hs].
  exists s. rewrite Henc, Hs. reflexivity.
Qed.

(** X11 at the form whose two rows both encode 'x'. *)
Lemma plot_chart_returns_only_if_witness :
  (exists m, mark (settings two_x) !! "mark" = Some (VStr m)) /\
  Forall (fun e : dict => exists s, e !! "encoding" = Some (VStr s))
         (encodings (settings two_x)).
Proof.
  apply (plot_chart_returns_only_if two_x two_x_chart). vm_compute. reflexivity.
Defined.

(** X12: what a compiled chart is made of: the data, the mark, the mark
    options without the 'mark' key, and one keyword per encoding that some
    entry names. *)
Theorem plot_chart_shape self c :
  plot_chart self = Returned c ->
  c_data c = df self /\
  mark (settings self) !! "mark" = Some (VStr (c_mark c)) /\
  c_mark_opts c = delete "mark" (mark (settings self)) /\
  forall k, is_Some (c_encoding c !! k) <->
            exists e, e ∈ encodings (settings self) /\ e !! "encoding" = Some (VStr k).
Proof.
  intros Hc. destruct (plot_chart_inv self c Hc) as (pairs & Hp & Hk & Hm & Ho & Hd).
  split; [exact Hd|]. split; [exact Hm|]. split; [exact Ho|].
  intros k. rewrite (keywords_dom _ k _ _ Hk). apply omap_list_Forall2 in Hp. split.
  - intros [[v Hv]|Hs]; [|rewrite lookup_empty in Hs; destruct Hs; discriminate].
    apply list_elem_of_lookup in Hv as [i Hi].
    destruct (Forall2_lookup_r _ _ _ _ _ Hp Hi) as (e & He & Hitem).
    apply plot_item_inv in Hitem as [Henc _].
    exists e. split; [eapply list_elem_of_lookup_2, He|exact Henc].
  - intros (e & He & Henc). left.
    apply list_elem_of_lookup in He as [i Hi].
    destruct (Forall2_lookup_l _ _ _ _ _ Hp Hi) as ([k' v] & Hkv & Hitem).
    apply plot_item_inv in Hitem as [Henc' _]. cbn [fst] in Henc'.
    rewrite Henc in Henc'. injection Henc' as <-.
    exists v. eapply list_elem_of_lookup_2, Hkv.
Qed.

Lemma plot_chart_shape_witness :
  c_data two_x_chart = df two_x /\
  mark (settings two_x) !! "mark" = Some (VStr (c_mark two_x_chart)) /\
  c_mark_opts two_x_chart = delete "mark" (mark (settings two_x)) /\
  forall k, is_Some (c_encoding two_x_chart !! k) <->
            exists e, e ∈ encodings (settings two_x) /\ e !! "encoding" = Some (VStr k).
Proof. apply (plot_chart_shape two_x two_x_chart). reflexivity. Defined.

(** X13: among entries that name the same encoding the last one decides: the
    chart carries what the compiler returns for it, be it a field or
    nothing. *)
Theorem later_row_overrides self c es1 e es2 k :
  plot_chart self = Returned c ->
  encodings (settings self) = es1 ++ e :: es2 ->
  e !! "encoding" = Some (VStr k) ->
  Forall (fun e' : dict => e' !! "encoding" <> Some (VStr k)) es2 ->
  exists fo, _get_plot_command e = Returned fo /\ c_encoding c !! k = Some fo.
Proof.
  intros Hc Hes Henc Hlater.
  destruct (plot_chart_inv self c Hc) as (pairs & Hp & Hk & _).
  rewrite Hes in Hp. apply omap_list_Forall2 in Hp.
  apply Forall2_app_inv_l in Hp as (p1 & p2' & _ & Hp2 & ->).
  apply Forall2_cons_inv_l in Hp2 as ([k' fo] & p2 & Hitem & Hp2 & ->).
  apply plot_item_inv in Hitem as [Henc' Hcmd]. cbn [fst snd] in *.
  rewrite Henc in Henc'. injection Henc' as <-.
  exists fo. split; [exact Hcmd|].
  apply (keywords_last _ _ _ _ _ _ Hk).
  apply Forall_forall. intros kv Hkv.
  apply list_elem_of_lookup in Hkv as [i Hi].
  destruct (Forall2_lookup_r _ _ _ _ _ Hp2 Hi) as (e' & He' & Hitem').
  apply plot_item_inv in Hitem' as [Henc' _].
  pose proof (Forall_lookup_1 _ _ _ _ Hlater He') as Hne. cbn beta in Hne.
  rewrite Henc' in Hne. congruence.
Qed.

(** Two rows on 'x', the second without a column: the chart has no field
    for 'x'. *)
Lemma later_row_overrides_witness :
  exists fo, _get_plot_command (initial_entry "x") = Returned fo /\
             c_encoding two_x_chart !! "x" = Some fo.
Proof.
  apply (later_row_overrides two_x two_x_chart [x_W_log_zero] (initial_entry "x") [] "x").
  - reflexivity.
  - reflexivity.
  - reflexivity.
  - constructor.
Defined.


(** ** The catalogs and the controls *)

Lemma dict_of_pairs_lookup {V} (l : list (string * V)) k v :
  dict_of_pairs l !! k = Some v -> (k, v) ∈ l.
Proof.
  unfold dict_of_pairs.
  enough (H : forall acc : gmap string V,
             foldl (fun m kv => <[kv.1 := kv.2]> m) acc l !! k = Some v ->
             (k, v) ∈ l \/ acc !! k = Some v).
  { intros Hl. destruct (H ∅ Hl) as [?|He]; [assumption|].
    rewrite lookup_empty in He. discriminate. }
  induction l as [|[k0 v0] l IH]; intros acc Hl; cbn [foldl] in Hl; [right; exact Hl|].
  destruct (IH _ Hl) as [Hin|Hacc]; [left; apply list_elem_of_further, Hin|].
  cbn [fst snd] in Hacc. destruct (decide (k0 = k)) as [->|Hne].
  - rewrite lookup_insert_eq in Hacc. injection Hacc as ->. left. apply list_elem_of_here.
  - rewrite lookup_insert_ne in Hacc by exact Hne. right. exact Hacc.
Qed.

Lemma _get_advanced_settings_table v :
  _get_advanced_settings v =
  match v with
  | VStr k => dict_getitem advanced_table k
  | _ => Raised KeyError
  end.
Proof. destruct v; reflexivity. Qed.

Lemma advanced_table_keys k adv :
  advanced_table !! k = Some adv -> k ∈ _get_encodings ++ _get_marks.
Proof.
  unfold advanced_table. intros H. apply elem_of_app.
  apply lookup_union_Some_raw in H as [H|[_ H]].
  - right. apply dict_of_pairs_lookup in H.
    apply list_elem_of_fmap in H as (m & [= -> _] & Hm). exact Hm.
  - left.
    destruct (decide (k = "text")) as [->|H1]; [unfold _get_encodings; rewrite !elem_of_cons; tauto|].
    rewrite lookup_insert_ne in H by congruence.
    destruct (decide (k = "y")) as [->|H2]; [unfold _get_encodings; rewrite !elem_of_cons; tauto|].
    rewrite lookup_insert_ne in H by congruence.
    destruct (decide (k = "x")) as [->|H3]; [unfold _get_encodings; rewrite !elem_of_cons; tauto|].
    rewrite lookup_insert_ne in H by congruence.
    apply dict_of_pairs_lookup in H.
    apply list_elem_of_fmap in H as (e & [= -> _] & He). exact He.
Qed.

(** The controls of the advanced options of an encoding or a mark. *)
Lemma catalog_controls_titles k :
  k ∈ _get_encodings ++ _get_marks ->
  exists adv cs,
    _get_advanced_settings (VStr k) = Returned adv /\
    omap_list _controllers_for adv = Returned cs /\
    Forall2 (fun opt c => w_title c = Some opt /\ w_row c = None /\ w_observers c = [])
            adv cs.
Proof.
  intros H. cbn in H. rewrite !elem_of_cons in H. rewrite elem_of_nil in H.
  repeat (destruct H as [->|H]); try contradiction;
    (do 2 eexists; split; [vm_compute; reflexivity|];
     split; [vm_compute; reflexivity|]; repeat constructor).
Qed.

(** X15: [_get_advanced_settings] knows exactly the nine encodings and the
    nine marks; on anything else, the unset value [None] included, it raises
    [KeyError]. *)
Theorem _get_advanced_settings_domain v :
  if bool_decide (v ∈ (VStr <$> _get_encodings ++ _get_marks))
  then exists adv, _get_advanced_settings v = Returned adv
  else _get_advanced_settings v = Raised KeyError.
Proof.
  case_bool_decide as Hv.
  - apply list_elem_of_fmap in Hv as (k & -> & Hk).
    destruct (catalog_controls_titles k Hk) as (adv & _ & Hadv & _). eauto.
  - rewrite _get_advanced_settings_table. destruct v as [| |k|]; try reflexivity.
    unfold dict_getitem. destruct (advanced_table !! k) as [adv|] eqn:Hk; [|reflexivity].
    exfalso. apply Hv. apply list_elem_of_fmap_2. eapply advanced_table_keys, Hk.
Qed.

(** X16: every advanced option that [_get_advanced_settings] lists has a
    control, and [_controllers_for] tags the control with the option as its
    title. *)
Theorem advanced_options_have_controls v adv :
  _get_advanced_settings v = Returned adv ->
  exists cs,
    omap_list _controllers_for adv = Returned cs /\
    Forall2 (fun opt c => w_title c = Some opt /\ w_row c = None /\ w_observers c = [])
            adv cs.
Proof.
  intros Hadv. rewrite _get_advanced_settings_table in Hadv.
  destruct v as [| |k|]; try discriminate.
  unfold dict_getitem in Hadv.
  destruct (advanced_table !! k) as [adv'|] eqn:Hk; [|discriminate].
  injection Hadv as ->.
  destruct (catalog_controls_titles k (advanced_table_keys _ _ Hk)) as (adv2 & cs & H2 & Hcs & Hall).
  rewrite _get_advanced_settings_table in H2. unfold dict_getitem in H2. rewrite Hk in H2.
  injection H2 as <-. eauto.
Qed.

Lemma advanced_options_have_controls_witness :
  exists cs,
    omap_list _controllers_for ["type"; "bin"; "aggregate"; "text"] = Returned cs /\
    Forall2 (fun opt c => w_title c = Some opt /\ w_row c = None /\ w_observers c = [])
            ["type"; "bin"; "aggregate"; "text"] cs.
Proof. apply (advanced_options_have_controls (VStr "text")). reflexivity. Defined.

(** X17: [_controllers_for] returns a control for the nine option names only,
    and the control carries the option as its title, no row tag and no
    observer yet. *)
Theorem _controllers_for_outcome opt :
  match _controllers_for opt with
  | Returned c =>
      opt ∈ ["type"; "bin"; "aggregate"; "zero"; "text"; "scale";
             "color"; "applyColorToBackground"; "shortTimeLabels"] /\
      w_title c = Some opt /\ w_row c = None /\ w_observers c = [] /\ w_children c = []
  | Raised e =>
      e = KeyError /\
      opt ∉ ["type"; "bin"; "aggregate"; "zero"; "text"; "scale";
             "color"; "applyColorToBackground"; "shortTimeLabels"]
  end.
Proof.
  unfold _controllers_for, dict_getitem. rewrite map_lookup_imap.
  match goal with |- context [dict_of_pairs ?l !! opt] => set (pairs := l) end.
  destruct (dict_of_pairs pairs !! opt) as [c0|] eqn:Hc; cbn [mbind option_bind].
  - apply dict_of_pairs_lookup in Hc. subst pairs.
    rewrite !elem_of_cons in Hc. rewrite elem_of_nil in Hc.
    repeat (destruct Hc as [[= -> ->]|Hc]); try contradiction;
      (split; [rewrite !elem_of_cons; tauto|repeat split]).
  - split; [reflexivity|]. intros Hin.
    rewrite !elem_of_cons in Hin. rewrite elem_of_nil in Hin.
    repeat (destruct Hin as [->|Hin]); try contradiction; vm_compute in Hc; discriminate.
Qed.

(** ** A click *)

Lemma set_controller_id self : set_controller (controller self) self = self.
Proof. destruct self. reflexivity. Qed.

Lemma only_sret {A} (a : A) : only_controller (sret a).
Proof. intros self. exists (controller self). symmetry. apply set_controller_id. Qed.

Lemma only_sraise {A} e : only_controller (@sraise Interact A e).
Proof. intros self. exists (controller self). symmetry. apply set_controller_id. Qed.

Lemma only_slift {A} (o : outcome A) : only_controller (slift o).
Proof. intros self. exists (controller self). symmetry. apply set_controller_id. Qed.

Lemma only_sget : only_controller sget.
Proof. intros self. exists (controller self). symmetry. apply set_controller_id. Qed.

Lemma only_sbind {A B} (c : ST Interact A) (k : A -> ST Interact B) :
  only_controller c -> (forall a, only_controller (k a)) -> only_controller (sbind c k).
Proof.
  intros Hc Hk self. unfold sbind. destruct (Hc self) as [c1 H1].
  destruct (c self) as [[a|e] s1]; cbn [fst snd] in *; subst s1.
  - destruct (Hk a (set_controller c1 self)) as [c2 H2]. exists c2. rewrite H2. reflexivity.
  - eauto.
Qed.

Lemma only_on_cell row k f : only_controller (on_cell row k f).
Proof.
  intros self. unfold on_cell.
  match goal with |- context [match ?o with Returned _ => _ | Raised _ => _ end] =>
    destruct o end.
  - eexists. reflexivity.
  - exists (controller self). symmetry. apply set_controller_id.
Qed.

Lemma only__show_advanced button disable : only_controller (_show_advanced button disable).
Proof.
  unfold _show_advanced.
  repeat first
    [ apply only_sret | apply only_sraise | apply only_slift | apply only_sget
    | apply only_on_cell | apply only_sbind; [|intros ?] ].
Qed.

(** X18: a click changes the controller tree only: the settings, the data,
    the chart and the display stay as they were, whatever the button. *)
Theorem _show_advanced_keeps_settings button disable self :
  let self' := (_show_advanced button disable self).2 in
  settings self' = settings self /\ df self' = df self /\ show self' = show self /\
  chart self' = chart self /\ cell self' = cell self.
Proof.
  cbv zeta. destruct (only__show_advanced button disable self) as [ctl ->]. auto 10.
Qed.




(** ** The form in use

    The controller tree and the settings fit together on every form that
    was constructed and then operated by the user, whatever the charting
    library answered to the re-renders: each control carries the position
    of its row and the title of a key, each encoding row has its entry, the
    value of the column and aggregate selectors is [None] or the key is in
    the entry, and the settings are within the catalogs. *)

(** *** Settings that compile *)

Lemma settings_ok_plot self :
  settings_ok (settings self) -> exists c, plot_chart self = Returned c.
Proof.
  intros [Hall (m & Hm & _)].
  assert (Hall' : Forall (fun e : dict => exists s, e !! "encoding" = Some (VStr s))
                    (encodings (settings self))).
  { eapply Forall_impl; [exact Hall|]. intros e (s & Hs & _). eauto. }
  destruct (plot_items_return _ Hall') as (pairs & Hp & Hkeys).
  destruct (keywords_returns pairs ∅ Hkeys) as [kw Hkw].
  unfold plot_chart. rewrite Hp. cbn [obind]. unfold dict_pop. rewrite Hm.
  cbn [obind fst snd]. rewrite Hkw. cbn [obind]. eauto.
Qed.

Lemma update_with_None ev self : update_with None ev self = update ev self.
Proof. symmetry. apply update_split. Qed.

Lemma keeps_mutate ev : keeps_controller (mutate ev).
Proof. unfold mutate. keeps. Qed.

(** When the mutation returns and leaves settings that compile, the
    handler ends as the library answers. *)
Lemma update_with_after_mutate refusal ev self s1 :
  mutate ev self = (Returned tt, s1) ->
  settings_ok (settings s1) ->
  (update_with refusal ev self).1 = verdict refusal /\
  settings (update_with refusal ev self).2 = settings s1 /\
  controller (update_with refusal ev self).2 = controller self.
Proof.
  intros Hm Hok.
  assert (Hctl : controller s1 = controller self).
  { pose proof (keeps_mutate ev self) as H. rewrite Hm in H. exact H. }
  unfold update_with, sbind. rewrite Hm. destruct refusal as [x|]; cbn [render verdict].
  - auto.
  - unfold sbind, sget. destruct (settings_ok_plot s1 Hok) as [c Hc].
    split; [apply (plot_returns _ _ _ c Hc)|]. split; [apply plot_settings|].
    rewrite plot_controller. exact Hctl.
Qed.

Lemma mutate_entry ev self i t p e e' :
  w_row (owner ev) = Some i -> i <> -1 ->
  w_title (owner ev) = Some t ->
  w_value (owner ev) = new ev ->
  py_pos (length (encodings (settings self))) i = Returned p ->
  encodings (settings self) !! p = Some e ->
  entry_after t (new ev) e = Returned e' ->
  mutate ev self = (Returned tt, set_encodings (<[p := e']> (encodings (settings self))) self).
Proof.
  intros Hrow Hi Ht Hv Hp He Hafter.
  pose proof (py_pos_lt _ _ _ Hp) as Hlt.
  unfold mutate, sbind, slift, sret. rewrite Hrow, Ht, Hv. cbn [attr].
  destruct (Z.eqb_spec i (-1)) as [?|_]; [contradiction|].
  unfold entry_after in Hafter.
  assert (Hone : forall f e1, f e = Returned e1 ->
            on_entry i f self = (Returned tt, set_encodings (<[p := e1]> (encodings (settings self))) self)).
  { intros f e1 Hf. rewrite (on_entry_spec _ _ _ _ _ Hp He), Hf. reflexivity. }
  assert (Htwo : forall f e1 e2, f e1 = Returned e2 ->
            on_entry i f (set_encodings (<[p := e1]> (encodings (settings self))) self)
            = (Returned tt, set_encodings (<[p := e2]> (encodings (settings self))) self)).
  { intros f e1 e2 Hf. erewrite on_entry_spec.
    2:{ cbn [settings set_encodings encodings]. rewrite length_insert. exact Hp. }
    2:{ cbn [settings set_encodings encodings]. apply list_lookup_insert_eq, Hlt. }
    rewrite Hf. cbn [settings set_encodings encodings mark df controller show chart cell].
    rewrite list_insert_insert_eq. reflexivity. }
  destruct (String.eqb t "type").
  - destruct (py_in "auto" (new ev)) as [[|]|x]; cbn [obind] in Hafter; [| |discriminate].
    + rewrite (Hone (entry_pop_default "type") _ eq_refl). cbn [fst snd].
      unfold entry_pop_default in Hafter. cbn [obind] in Hafter.
      destruct (String.eqb t "text").
      * destruct (decide (new ev = VStr "")); apply Htwo; exact Hafter.
      * destruct (decide (new ev = VNone)); apply Htwo; exact Hafter.
    + cbn [fst snd]. destruct (String.eqb t "text").
      * destruct (decide (new ev = VStr "")); apply Hone; exact Hafter.
      * destruct (decide (new ev = VNone)); apply Hone; exact Hafter.
  - cbn [obind] in Hafter. cbn [fst snd]. destruct (String.eqb t "text").
    + destruct (decide (new ev = VStr "")); apply Hone; exact Hafter.
    + destruct (decide (new ev = VNone)); apply Hone; exact Hafter.
Qed.

(** *** The entry after an event *)

Lemma value_ok_str t v :
  value_ok t v = true -> t ∈ ["type"; "text"; "encoding"; "mark"] -> exists s, v = VStr s.
Proof.
  intros Hv Ht. destruct v as [|b|s|ty z]; cbn [value_ok] in Hv.
  - apply bool_decide_eq_true in Hv.
    rewrite !elem_of_cons in Ht. rewrite !elem_of_cons in Hv.
    destruct Ht as [->|[->|[->|[->|Ht]]]]; try (destruct Hv as [?|[?|Hv]]; try discriminate).
    all: apply elem_of_nil in Ht || apply elem_of_nil in Hv; contradiction.
  - apply negb_true_iff, bool_decide_eq_false in Hv. contradiction.
  - eauto.
  - apply negb_true_iff, bool_decide_eq_false in Hv. contradiction.
Qed.

Lemma value_ok_None t : value_ok t VNone = true -> t = "column" \/ t = "aggregate".
Proof.
  cbn [value_ok]. intros Hv. apply bool_decide_eq_true in Hv.
  rewrite !elem_of_cons in Hv. destruct Hv as [?|[?|Hv]]; auto. apply elem_of_nil in Hv. contradiction.
Qed.

Ltac entry_keys :=
  repeat first
    [ rewrite lookup_insert_eq
    | rewrite lookup_insert_ne by discriminate
    | rewrite lookup_delete_ne by discriminate
    | rewrite dict_pop_default_snd ].

(** For a value its title allows, the operation on the entry succeeds; the
    entry still names its encoding, and the keys 'column' and 'aggregate'
    stay unless this very event removes them. *)
Lemma entry_after_ok t v e :
  t ∈ "column" :: "encoding" :: shelf_options ->
  value_ok t v = true ->
  (v = VNone -> is_Some (e !! t)) ->
  (t = "encoding" -> v ∈ (VStr <$> _get_encodings)) ->
  named e ->
  exists e', entry_after t v e = Returned e' /\ named e' /\
    forall key, key = "column" \/ key = "aggregate" ->
      (t = key -> v <> VNone) -> is_Some (e !! key) \/ t = key -> is_Some (e' !! key).
Proof.
  intros Ht Hv Hnone Hcat (enc & Henc & Hself).
  assert (Hgeneric : t <> "type" -> t <> "text" -> t <> "encoding" ->
    exists e', (if decide (v = VNone) then entry_pop t e else entry_setitem t v e) = Returned e' /\
      named e' /\
      forall key, key = "column" \/ key = "aggregate" ->
        (t = key -> v <> VNone) -> is_Some (e !! key) \/ t = key -> is_Some (e' !! key)).
  { intros H1 H2 H3. destruct (decide (v = VNone)) as [->|Hne].
    - destruct (Hnone eq_refl) as [x Hx]. unfold entry_pop, dict_pop. rewrite Hx.
      cbn [obind snd]. eexists. split; [reflexivity|]. split.
      + exists enc. rewrite lookup_delete_ne by congruence. auto.
      + intros key Hkey Hkeep [Hin|Heq].
        * destruct (decide (t = key)) as [Htk|Htk]; [destruct (Hkeep Htk eq_refl)|].
          rewrite lookup_delete_ne by exact Htk. exact Hin.
        * destruct (Hkeep Heq eq_refl).
    - unfold entry_setitem. eexists. split; [reflexivity|]. split.
      + exists enc. rewrite lookup_insert_ne by congruence. auto.
      + intros key Hkey Hkeep [Hin|Heq].
        * destruct (decide (t = key)) as [Htk|Htk].
          -- rewrite Htk, lookup_insert_eq. eauto.
          -- rewrite lookup_insert_ne by exact Htk. exact Hin.
        * rewrite Heq, lookup_insert_eq. eauto. }
  unfold shelf_options in Ht. rewrite !elem_of_cons in Ht.
  destruct Ht as [->|[->|[->|[->|[->|[->|[->|[->|Ht]]]]]]]];
    [..|apply elem_of_nil in Ht; contradiction]; unfold entry_after;
    cbn [String.eqb Ascii.eqb Bool.eqb obind];
    try (apply Hgeneric; discriminate).
  - (* encoding *)
    destruct (value_ok_str _ _ Hv) as [s ->]; [rewrite !elem_of_cons; tauto|].
    rewrite decide_False by discriminate. unfold entry_setitem.
    eexists. split; [reflexivity|]. split.
    + exists s. split; [apply lookup_insert_eq|].
      specialize (Hcat eq_refl). apply list_elem_of_fmap in Hcat as (s' & [= ->] & Hs'). exact Hs'.
    + intros key [->| ->] _ [Hin|Heq]; try discriminate; entry_keys; exact Hin.
  - (* type *)
    destruct (value_ok_str _ _ Hv) as [s ->]; [rewrite !elem_of_cons; tauto|].
    cbn [py_in obind].
    destruct (str_contains "auto" s); unfold entry_pop_default, entry_setitem; cbn [obind];
      rewrite decide_False by discriminate.
    all: eexists; (split; [reflexivity|]); split;
      [exists enc; entry_keys; auto
      |intros key [->| ->] _ [Hin|Heq]; try discriminate; entry_keys; exact Hin].
  - (* text *)
    destruct (value_ok_str _ _ Hv) as [s ->]; [rewrite !elem_of_cons; tauto|].
    destruct (decide (VStr s = VStr "")); unfold entry_pop_default, entry_setitem.
    + eexists. split; [reflexivity|]. split.
      * exists enc. entry_keys. auto.
      * intros key [->| ->] _ [Hin|Heq]; try discriminate; entry_keys; exact Hin.
    + eexists. split; [reflexivity|]. split.
      * exists enc. entry_keys. auto.
      * intros key [->| ->] _ [Hin|Heq]; try discriminate; entry_keys; eauto.
Qed.

(** *** The handler on a form that fits its settings *)

Lemma update_on_row refusal ev self p e t :
  settings_ok (settings self) ->
  w_row (owner ev) = Some (Z.of_nat p) ->
  w_title (owner ev) = Some t ->
  w_value (owner ev) = new ev ->
  encodings (settings self) !! p = Some e ->
  t ∈ "column" :: "encoding" :: shelf_options ->
  value_ok t (new ev) = true ->
  (new ev = VNone -> is_Some (e !! t)) ->
  (t = "encoding" -> new ev ∈ (VStr <$> _get_encodings)) ->
  exists e',
    (update_with refusal ev self).1 = verdict refusal /\
    controller (update_with refusal ev self).2 = controller self /\
    settings (update_with refusal ev self).2
      = MkSettings (mark (settings self)) (<[p := e']> (encodings (settings self))) /\
    named e' /\
    forall key, key = "column" \/ key = "aggregate" ->
      (t = key -> new ev <> VNone) -> is_Some (e !! key) \/ t = key -> is_Some (e' !! key).
Proof.
  intros [Hall Hmark] Hrow Ht Hv He Hin Hok Hnone Hcat.
  pose proof (Forall_lookup_1 _ _ _ _ Hall He) as Hnamed.
  destruct (entry_after_ok t (new ev) e Hin Hok Hnone Hcat Hnamed)
    as (e' & Hafter & Hnamed' & Hkeys).
  assert (Hp : py_pos (length (encodings (settings self))) (Z.of_nat p) = Returned p).
  { apply lookup_lt_Some in He. rewrite py_pos_nonneg by lia. f_equal. lia. }
  pose proof (mutate_entry ev self _ t p e e' Hrow ltac:(lia) Ht Hv Hp He Hafter) as Hm.
  destruct (update_with_after_mutate refusal ev self _ Hm) as (Hret & Hset & Hctl).
  { split; [|exact Hmark]. cbn [settings set_encodings encodings].
    apply Forall_insert; assumption. }
  exists e'. split; [exact Hret|]. split; [exact Hctl|]. split; [exact Hset|].
  split; assumption.
Qed.

Lemma update_on_mark refusal ev self t :
  settings_ok (settings self) ->
  w_row (owner ev) = Some (-1) ->
  w_title (owner ev) = Some t ->
  (t = "mark" -> exists s, new ev = VStr s /\ s ∈ _get_marks) ->
  (update_with refusal ev self).1 = verdict refusal /\
  controller (update_with refusal ev self).2 = controller self /\
  encodings (settings (update_with refusal ev self).2) = encodings (settings self) /\
  settings_ok (settings (update_with refusal ev self).2).
Proof.
  intros [Hall (m & Hm & Hcat)] Hrow Ht Hstr.
  assert (Hmark' : exists m', <[t := new ev]> (mark (settings self)) !! "mark" = Some (VStr m') /\
                              m' ∈ _get_marks).
  { destruct (decide (t = "mark")) as [->|Hne].
    - destruct (Hstr eq_refl) as (s & -> & Hs). exists s. split; [apply lookup_insert_eq|exact Hs].
    - exists m. rewrite lookup_insert_ne by exact Hne. auto. }
  assert (Hmut : mutate ev self
                 = (Returned tt, set_mark (<[t := new ev]> (mark (settings self))) self)).
  { unfold mutate, sbind, slift. rewrite Hrow, Ht. reflexivity. }
  destruct (update_with_after_mutate refusal ev self _ Hmut) as (Hret & Hset & Hctl).
  { split; [exact Hall|exact Hmark']. }
  split; [exact Hret|]. split; [exact Hctl|]. rewrite Hset. split; [reflexivity|].
  split; [exact Hall|exact Hmark'].
Qed.

(** *** Rows of a form that fits its settings *)

Lemma wired_form self : wired self -> form_inv (controller self).
Proof.
  intros (rows & m & Hc & Hs & Hm & _). exists rows, m. split; [exact Hc|].
  split; [|apply Hm]. intros j r Hj. destruct (Hs j r Hj) as (e & _ & Hw). apply Hw.
Qed.

Lemma wired_locate self p r :
  wired self ->
  w_children (controller self) !! p = Some r ->
  (exists e, encodings (settings self) !! p = Some e /\ shelf_wired (Z.of_nat p) e r /\
             py_pos (length (w_children (controller self))) (Z.of_nat p) = Returned p) \/
  (mark_wired r /\ py_pos (length (w_children (controller self))) (-1) = Returned p).
Proof.
  intros (rows & m & Hc & Hs & Hm & _) Hr. rewrite Hc in *.
  pose proof (lookup_lt_Some _ _ _ Hr) as Hlt. rewrite length_app in *. simpl in Hlt.
  destruct (decide (p < length rows)%nat) as [Hlt'|Hge].
  - left. rewrite lookup_app_l in Hr by exact Hlt'.
    destruct (Hs p r Hr) as (e & He & Hw). exists e. split; [exact He|]. split; [exact Hw|].
    rewrite py_pos_nonneg by (simpl; lia). f_equal. lia.
  - right. assert (p = length rows) as -> by lia.
    rewrite list_lookup_middle in Hr by reflexivity. injection Hr as <-.
    split; [exact Hm|]. simpl. replace (length rows + 1)%nat with (S (length rows)) by lia.
    apply py_pos_last.
Qed.

Lemma shelf_wired_not_mark i e r : shelf_wired i e r -> mark_wired r -> False.
Proof. intros [H1 _] [H2 _]. exact (shelf_not_mark _ _ H1 H2). Qed.

(** One row and, for an encoding row, its entry are replaced. *)
Lemma wired_step self self' p r r' :
  wired self ->
  w_children (controller self) !! p = Some r ->
  w_children (controller self') = <[p := r']> (w_children (controller self)) ->
  (forall e, encodings (settings self) !! p = Some e -> shelf_wired (Z.of_nat p) e r ->
     exists e',
       settings self' = MkSettings (mark (settings self)) (<[p := e']> (encodings (settings self))) /\
       named e' /\ shelf_wired (Z.of_nat p) e' r') ->
  (mark_wired r ->
     mark_wired r' /\ encodings (settings self') = encodings (settings self) /\
     settings_ok (settings self')) ->
  wired self'.
Proof.
  intros (rows & m & Hc & Hs & Hm & Hall & Hmk) Hr Hc' Hshelf Hmark.
  rewrite Hc in Hr, Hc'.
  destruct (decide (p < length rows)%nat) as [Hlt|Hge].
  - rewrite lookup_app_l in Hr by exact Hlt.
    destruct (Hs p r Hr) as (e & He & Hw).
    destruct (Hshelf e He Hw) as (e' & Hset & Hnamed & Hw').
    exists (<[p := r']> rows), m. split; [rewrite Hc'; apply insert_app_l, Hlt|].
    rewrite Hset. cbn [encodings mark]. split; [|split; [exact Hm|split; [|exact Hmk]]].
    + intros j w Hj. destruct (decide (p = j)) as [->|Hne].
      * rewrite list_lookup_insert_eq in Hj by exact Hlt. injection Hj as <-.
        exists e'. split; [|exact Hw'].
        apply list_lookup_insert_eq. eapply lookup_lt_Some, He.
      * rewrite list_lookup_insert_ne in Hj by exact Hne.
        rewrite list_lookup_insert_ne by exact Hne. apply Hs, Hj.
    + apply Forall_insert; assumption.
  - assert (p = length rows) as ->.
    { apply lookup_lt_Some in Hr. rewrite length_app in Hr. simpl in Hr. lia. }
    rewrite list_lookup_middle in Hr by reflexivity. injection Hr as <-.
    destruct (Hmark Hm) as (Hm' & Henc & Hok).
    exists rows, r'. split.
    { rewrite Hc'. rewrite insert_app_r_alt by lia. rewrite Nat.sub_diag. reflexivity. }
    rewrite Henc. split; [exact Hs|]. split; [exact Hm'|exact Hok].
Qed.

(** *** Fresh controls *)

Lemma catalog_fresh (v : pyval) :
  (v ∈ (VStr <$> _get_encodings) ->
   exists adv cs,
     _get_advanced_settings v = Returned adv /\
     omap_list _controllers_for adv = Returned cs /\
     Forall (fun c => w_observers c = []) cs /\
     forallb shelf_fresh cs = true /\ NoDup (w_title <$> cs)) /\
  (v ∈ (VStr <$> _get_marks) ->
   exists adv cs,
     _get_advanced_settings v = Returned adv /\
     omap_list _controllers_for adv = Returned cs /\
     Forall (fun c => w_observers c = []) cs /\
     forallb mark_fresh cs = true).
Proof.
  split; intros H; cbn in H; rewrite !elem_of_cons in H;
    repeat (destruct H as [->|H]); try (apply elem_of_nil in H; contradiction);
    (do 2 eexists; split; [vm_compute; reflexivity|];
     split; [vm_compute; reflexivity|]; split; [repeat constructor|]).
  all: try (split; [vm_compute; reflexivity|apply (bool_decide_unpack _); vm_compute; exact I]).
  all: vm_compute; reflexivity.
Qed.

Lemma shelf_fresh_control i e c :
  shelf_fresh c = true -> shelf_control i e (observe CbUpdate (set_row i c)).
Proof.
  unfold shelf_fresh, shelf_control, bound. cbn [w_row w_title w_value observe set_row].
  destruct (w_title c) as [t|]; [|discriminate].
  rewrite !andb_true_iff, orb_true_iff, negb_true_iff, !bool_decide_eq_true.
  intros [[Hin Hok] Hagg]. split; [reflexivity|]. split.
  - exists t. split; [reflexivity|]. split; [exact Hin|exact Hok].
  - intros [= ->] Hne. destruct Hagg as [Hagg|Hagg]; [discriminate|contradiction].
Qed.

Lemma mark_fresh_control c :
  mark_fresh c = true -> mark_control (observe CbUpdate (set_row (-1) c)).
Proof.
  unfold mark_fresh, mark_control. cbn [w_row w_title observe set_row].
  destruct (w_title c) as [t|]; [|discriminate].
  rewrite bool_decide_eq_true. intros Hin. split; [reflexivity|]. exists t. auto.
Qed.

Lemma forallb_Forall {A} (f : A -> bool) (P : A -> Prop) (l : list A) :
  (forall a, f a = true -> P a) -> forallb f l = true -> Forall P l.
Proof.
  intros Hf. induction l as [|a l IH]; cbn [forallb]; [constructor|].
  rewrite andb_true_iff. intros [Ha Hl]. constructor; auto.
Qed.

(** *** A click *)

Lemma shelf_wired_toggle i e r selector panel cs :
  shelf_wired i e r ->
  w_children r !! 1%nat = Some selector ->
  w_children r !! 3%nat = Some panel ->
  Forall (fun c => w_observers c = []) cs ->
  forallb shelf_fresh cs = true ->
  NoDup (w_title <$> cs) ->
  shelf_wired i e
    (set_children
       (<[3%nat := set_children ((fun c => observe CbUpdate (set_row i c)) <$> cs)
                     (set_visible (negb (w_visible panel)) panel)]>
          (<[1%nat := set_disabled (negb (w_visible panel)) selector]> (w_children r))) r).
Proof.
  intros [Hinv Hw] Hsel Hpanel Hobs Hfresh Hdup.
  split; [apply shelf_toggle; assumption|].
  destruct (w_children r) as [|cols [|enc [|but [|adv [|? ?]]]]]; try contradiction.
  injection Hsel as <-. injection Hpanel as <-.
  destruct Hw as (H1 & H2 & H3 & H4 & H5 & _ & _).
  cbn [w_children set_children list_insert insert w_row w_title set_disabled].
  repeat (split; [assumption|]). split.
  - apply Forall_fmap. eapply forallb_Forall; [|exact Hfresh].
    intros c Hc. apply shelf_fresh_control, Hc.
  - rewrite <- list_fmap_compose. exact Hdup.
Qed.

Lemma mark_wired_toggle r selector panel cs :
  mark_wired r ->
  w_children r !! 0%nat = Some selector ->
  w_children r !! 2%nat = Some panel ->
  Forall (fun c => w_observers c = []) cs ->
  forallb mark_fresh cs = true ->
  mark_wired
    (set_children
       (<[2%nat := set_children ((fun c => observe CbUpdate (set_row (-1) c)) <$> cs)
                     (set_visible (negb (w_visible panel)) panel)]>
          (<[0%nat := set_disabled (negb (w_visible panel)) selector]> (w_children r))) r).
Proof.
  intros [Hinv Hw] Hsel Hpanel Hobs Hfresh.
  split; [apply mark_toggle; assumption|].
  destruct (w_children r) as [|mc [|but [|mo [|? ?]]]]; try contradiction.
  injection Hsel as <-. injection Hpanel as <-.
  destruct Hw as (H1 & H2 & _).
  cbn [w_children set_children list_insert insert w_row w_title set_disabled].
  repeat (split; [assumption|]).
  apply Forall_fmap. eapply forallb_Forall; [|exact Hfresh].
  intros c Hc. apply mark_fresh_control, Hc.
Qed.

Lemma settings_insert_id self p e :
  encodings (settings self) !! p = Some e ->
  settings self = MkSettings (mark (settings self)) (<[p := e]> (encodings (settings self))).
Proof. intros He. rewrite list_insert_id by exact He. destruct (settings self). reflexivity. Qed.

Lemma wired_named self p e :
  wired self -> encodings (settings self) !! p = Some e -> named e.
Proof. intros (_ & _ & _ & _ & _ & Hall & _) He. exact (Forall_lookup_1 _ _ _ _ Hall He). Qed.

Lemma wired_settings self : wired self -> settings_ok (settings self).
Proof. intros (_ & _ & _ & _ & _ & Hok). exact Hok. Qed.

Lemma click_wired refusal self row k b :
  wired self ->
  widget_at self row k = Returned b ->
  w_kind b = Button ->
  (perform_with refusal (Click row k) self).1 = Returned tt /\
  wired (perform_with refusal (Click row k) self).2.
Proof.
  intros Hwired Hat Hkind.
  destruct (widget_at_parts _ _ _ _ Hat) as (p & r & q & Hp & Hr & Hq & Hb).
  pose proof (py_pos_lt _ _ _ Hp) as Hplt.
  assert (Hsite : exists title row' q' qa selector panel adv cs,
    toggle_site (controller self) b title row' p q' qa r selector panel /\
    w_observers b = [CbShowAdvanced] /\
    _get_advanced_settings (w_value selector) = Returned adv /\
    omap_list _controllers_for adv = Returned cs /\
    (forall e, shelf_wired (Z.of_nat p) e r ->
       shelf_wired (Z.of_nat p) e
         (set_children
            (<[qa := set_children ((fun c => observe CbUpdate (set_row row' c)) <$> cs)
                       (set_visible (negb (w_visible panel)) panel)]>
               (<[q' := set_disabled (negb (w_visible panel)) selector]> (w_children r))) r)) /\
    (mark_wired r ->
       mark_wired
         (set_children
            (<[qa := set_children ((fun c => observe CbUpdate (set_row row' c)) <$> cs)
                       (set_visible (negb (w_visible panel)) panel)]>
               (<[q' := set_disabled (negb (w_visible panel)) selector]> (w_children r))) r))).
  { destruct (wired_locate _ _ _ Hwired Hr) as [(e & He & Hw & Hpp)|[Hm Hpp]].
    - pose proof Hw as [Hinv _]. unfold shelf_inv in Hinv.
      destruct (w_children r) as [|cols [|enc [|but [|adv [|? ?]]]]] eqn:Hcs; try contradiction.
      destruct Hinv as [[Kc _] [[[Ke _] [Hopt Hval]] [[Kb [Hbrow [Hbtitle Hobs]]] [[Ka _] _]]]].
      simpl in Hq. apply py_pos_4 in Hq as [-> | [-> | [-> | ->]]]; simpl in Hb;
        injection Hb as <-; try congruence; [|destruct Ka; congruence].
      rewrite Hopt in Hval.
      destruct (proj1 (catalog_fresh _) Hval) as (adv' & cs & Hadv & Hcs' & Hnew & Hfresh & Hdup).
      exists "button", (Z.of_nat p), 1%nat, 3%nat, enc, adv, adv', cs.
      split; [|split; [exact Hobs|split; [exact Hadv|split; [exact Hcs'|split]]]].
      + unfold toggle_site. rewrite Hcs. repeat split; try assumption; try reflexivity. lia.
      + intros e0 Hw0. rewrite <- Hcs. apply shelf_wired_toggle; try assumption.
        all: rewrite Hcs; reflexivity.
      + intros Hm. destruct (shelf_wired_not_mark _ _ _ Hw Hm).
    - pose proof Hm as [Hinv _]. unfold mark_inv in Hinv.
      destruct (w_children r) as [|mc [|but [|mo [|? ?]]]] eqn:Hcs; try contradiction.
      destruct Hinv as [[[Ke _] [Hopt Hval]] [[Kb [Hbrow [Hbtitle Hobs]]] [[Ka _] _]]].
      simpl in Hq. apply py_pos_3 in Hq as [-> | [-> | ->]]; simpl in Hb;
        injection Hb as <-; try congruence; [|destruct Ka; congruence].
      rewrite Hopt in Hval.
      destruct (proj2 (catalog_fresh _) Hval) as (adv' & cs & Hadv & Hcs' & Hnew & Hfresh).
      exists "mark_button", (-1), 0%nat, 2%nat, mc, mo, adv', cs.
      split; [|split; [exact Hobs|split; [exact Hadv|split; [exact Hcs'|split]]]].
      + unfold toggle_site. rewrite Hcs. repeat split; try assumption; try reflexivity. lia.
      + intros e0 Hw0. destruct (shelf_wired_not_mark _ _ _ Hw0 Hm).
      + intros _. rewrite <- Hcs. apply mark_wired_toggle; try assumption.
        all: rewrite Hcs; reflexivity. }
  destruct Hsite as (title & row' & q' & qa & sel & panel & adv & cs & Hsite & Hobs & Hadv & Hcs
                     & Hshelf & Hmark).
  destruct (toggle_at_site _ _ _ _ _ _ _ _ _ _ _ _ Hsite Hadv Hcs) as [H1 _]. cbv zeta in H1.
  unfold perform_with, sbind, sget, slift. rewrite Hat, Hkind, Hobs. cbn [notify_with call_with].
  unfold sbind. rewrite H1. cbn [fst snd sret]. split; [reflexivity|].
  eapply (wired_step self _ p r); [exact Hwired|exact Hr|reflexivity| |].
  - intros e He Hw. exists e. split; [exact (settings_insert_id _ _ _ He)|].
    split; [eapply wired_named; eassumption|]. apply Hshelf, Hw.
  - intros Hm. split; [apply Hmark, Hm|]. split; [reflexivity|].
    exact (wired_settings _ Hwired).
Qed.

(** *** A new value in a selector *)

Lemma value_ok_column v : value_ok "column" v = true.
Proof. destruct v; vm_compute; reflexivity. Qed.

Lemma shelf_control_entry i e e' c :
  (is_Some (e !! "aggregate") -> is_Some (e' !! "aggregate")) ->
  shelf_control i e c -> shelf_control i e' c.
Proof.
  intros Hkeep (Hrow & Ht & Hb). split; [exact Hrow|]. split; [exact Ht|].
  intros Htitle Hne. apply Hkeep, Hb; assumption.
Qed.

Lemma shelf_wired_choose i e e' r q w v t :
  shelf_wired i e r ->
  w_children r !! q = Some w ->
  accepts w v = true ->
  w_title w = Some t ->
  (forall key, key = "column" \/ key = "aggregate" ->
     (t = key -> v <> VNone) -> is_Some (e !! key) \/ t = key -> is_Some (e' !! key)) ->
  shelf_wired i e' (set_children (<[q := set_value v w]> (w_children r)) r).
Proof.
  intros [Hinv Hw] Hq Hacc Ht Hkeys.
  split; [apply (row_choose r q w v Hq Hacc), Hinv|].
  pose proof (accepts_control _ _ Hacc) as Hk.
  unfold shelf_inv in Hinv.
  destruct (w_children r) as [|cols [|enc [|but [|adv [|? ?]]]]]; try contradiction.
  destruct Hinv as (_ & _ & [Kb _] & [Ka _] & _).
  destruct Hw as (H1 & H2 & H3 & H4 & H5 & H6 & H7).
  assert (Hagg : t <> "aggregate" -> Forall (shelf_control i e') (w_children adv)).
  { intros Hne. eapply Forall_impl; [exact H6|]. intros c. apply shelf_control_entry.
    intros Hin. apply Hkeys; [auto|intros ?; contradiction|auto]. }
  destruct q as [|[|[|[|q]]]]; simpl in Hq; try discriminate; injection Hq as <-.
  - rewrite H2 in Ht. injection Ht as <-.
    cbn [w_children set_children list_insert insert w_row w_title set_value].
    split; [exact H1|]. split; [exact H2|]. split.
    { intros _ Hne. cbn [w_value] in Hne. apply Hkeys; auto. }
    split; [exact H4|]. split; [exact H5|]. split; [apply Hagg; discriminate|exact H7].
  - rewrite H5 in Ht. injection Ht as <-.
    cbn [w_children set_children list_insert insert w_row w_title set_value].
    split; [exact H1|]. split; [exact H2|]. split.
    { intros Htitle Hne. apply Hkeys; [auto|intros ?; discriminate|auto]. }
    split; [exact H4|]. split; [exact H5|]. split; [apply Hagg; discriminate|exact H7].
  - rewrite Kb in Hk. destruct Hk as [?|[?|?]]; discriminate.
  - destruct Ka as [Ka|Ka]; rewrite Ka in Hk; destruct Hk as [?|[?|?]]; discriminate.
Qed.

Lemma mark_wired_choose r q w v :
  mark_wired r ->
  w_children r !! q = Some w ->
  accepts w v = true ->
  mark_wired (set_children (<[q := set_value v w]> (w_children r)) r).
Proof.
  intros [Hinv Hw] Hq Hacc.
  split; [apply (row_choose r q w v Hq Hacc), Hinv|].
  pose proof (accepts_control _ _ Hacc) as Hk.
  unfold mark_inv in Hinv.
  destruct (w_children r) as [|mc [|but [|mo [|? ?]]]]; try contradiction.
  destruct Hinv as (_ & [Kb _] & [Ka _] & _).
  destruct Hw as (H1 & H2 & H3).
  destruct q as [|[|[|q]]]; simpl in Hq; try discriminate; injection Hq as <-.
  - cbn [w_children set_children list_insert insert w_row w_title set_value]. auto.
  - rewrite Kb in Hk. destruct Hk as [?|[?|?]]; discriminate.
  - destruct Ka as [Ka|Ka]; rewrite Ka in Hk; destruct Hk as [?|[?|?]]; discriminate.
Qed.

(** The control a selection addresses: its tags, its observers, and what
    the value it accepts is to the handler. *)
Lemma chosen_control self p r q w v :
  wired self ->
  w_children (controller self) !! p = Some r ->
  w_children r !! q = Some w ->
  accepts w v = true ->
  v <> w_value w ->
  w_observers w = [CbUpdate] /\
  ((exists e t, encodings (settings self) !! p = Some e /\ shelf_wired (Z.of_nat p) e r /\
                w_row w = Some (Z.of_nat p) /\ w_title w = Some t /\
                t ∈ "column" :: "encoding" :: shelf_options /\
                value_ok t v = true /\ (v = VNone -> is_Some (e !! t)) /\
                (t = "encoding" -> v ∈ (VStr <$> _get_encodings))) \/
   (mark_wired r /\ w_row w = Some (-1) /\ w_title w = Some "mark" /\
    exists s, v = VStr s /\ s ∈ _get_marks)).
Proof.
  intros Hwired Hr Hq Hacc Hne.
  pose proof (accepts_control _ _ Hacc) as Hk.
  destruct (wired_locate _ _ _ Hwired Hr) as [(e & He & Hw & _)|[Hm _]].
  - pose proof Hw as [Hinv Htags]. unfold shelf_inv in Hinv.
    destruct (w_children r) as [|cols [|enc [|but [|adv [|? ?]]]]]; try contradiction.
    destruct Hinv as ([_ Oc] & [[Ke Oe] [Hopt Hval]] & [Kb _] & [Ka _] & _).
    destruct Htags as (H1 & H2 & H3 & H4 & H5 & H6 & H7).
    destruct q as [|[|[|[|q]]]]; simpl in Hq; try discriminate; injection Hq as <-.
    + split; [exact Oc|]. left. exists e, "column".
      repeat (split; [assumption|]). split; [rewrite !elem_of_cons; tauto|].
      split; [apply value_ok_column|]. split; [|discriminate].
      intros ->. apply H3; [exact H2|]. congruence.
    + split; [exact Oe|]. left. exists e, "encoding".
      repeat (split; [assumption|]). split; [rewrite !elem_of_cons; tauto|].
      apply (accepts_Dropdown _ _ Ke) in Hacc. rewrite Hopt in Hacc.
      pose proof Hacc as Hcat.
      apply list_elem_of_fmap in Hacc as (s & -> & _).
      split; [reflexivity|]. split; [discriminate|]. intros _. exact Hcat.
    + rewrite Kb in Hk. destruct Hk as [?|[?|?]]; discriminate.
    + destruct Ka as [Ka|Ka]; rewrite Ka in Hk; destruct Hk as [?|[?|?]]; discriminate.
  - pose proof Hm as [Hinv Htags]. unfold mark_inv in Hinv.
    destruct (w_children r) as [|mc [|but [|mo [|? ?]]]]; try contradiction.
    destruct Hinv as ([[Ke Oe] [Hopt Hval]] & [Kb _] & [Ka _] & _).
    destruct Htags as (H1 & H2 & H3).
    destruct q as [|[|[|q]]]; simpl in Hq; try discriminate; injection Hq as <-.
    + split; [exact Oe|]. right. repeat (split; [assumption|]).
      apply (accepts_Dropdown _ _ Ke) in Hacc. rewrite Hopt in Hacc.
      apply list_elem_of_fmap in Hacc as (s & -> & Hs). eauto.
    + rewrite Kb in Hk. destruct Hk as [?|[?|?]]; discriminate.
    + destruct Ka as [Ka|Ka]; rewrite Ka in Hk; destruct Hk as [?|[?|?]]; discriminate.
Qed.

Lemma choose_wired refusal self row k v w :
  wired self ->
  widget_at self row k = Returned w ->
  w_disabled w = false ->
  accepts w v = true ->
  answered refusal (perform_with refusal (Choose row k v) self).1 /\
  wired (perform_with refusal (Choose row k v) self).2.
Proof.
  intros Hwired Hat Hdis Hacc.
  unfold perform_with, sbind, sget, slift. rewrite Hat, Hdis, Hacc. cbn [negb orb fst snd].
  destruct (decide (v = w_value w)) as [_|Hne]; [split; [left; reflexivity|exact Hwired]|].
  destruct (widget_at_parts _ _ _ _ Hat) as (p & r & q & Hp & Hr & Hq & Hw).
  rewrite (on_cell_spec _ _ _ _ _ _ _ _ Hp Hr Hq Hw). cbn [fst snd].
  destruct (chosen_control self p r q w v Hwired Hr Hw Hacc Hne) as [Hobs Hcase].
  rewrite Hobs. cbn [notify_with call_with]. unfold sbind.
  match goal with |- context [update_with refusal ?ev ?s] => set (ev0 := ev); set (s1 := s) end.
  assert (Hend : (update_with refusal ev0 s1).1 = verdict refusal /\
                 wired (update_with refusal ev0 s1).2).
  { destruct Hcase as [(e & t & He & Hshelf & Hrow & Ht & Hin & Hok & Hnone & Hcat)
                      |(Hm & Hrow & Ht & Hstr)].
    - destruct (update_on_row refusal ev0 s1 p e t (wired_settings _ Hwired) Hrow Ht eq_refl He
                  Hin Hok Hnone Hcat)
        as (e' & Hret & Hctl & Hset & Hnamed & Hkeys).
      split; [exact Hret|].
      eapply (wired_step self _ p r); [exact Hwired|exact Hr|rewrite Hctl; reflexivity| |].
      + intros e0 He0 Hw0. assert (e0 = e) as -> by congruence.
        exists e'. split; [exact Hset|]. split; [exact Hnamed|].
        eapply shelf_wired_choose; eassumption.
      + intros Hm. destruct (shelf_wired_not_mark _ _ _ Hshelf Hm).
    - destruct (update_on_mark refusal ev0 s1 "mark" (wired_settings _ Hwired) Hrow Ht
                  (fun _ => Hstr))
        as (Hret & Hctl & Henc & Hok).
      split; [exact Hret|].
      eapply (wired_step self _ p r); [exact Hwired|exact Hr|rewrite Hctl; reflexivity| |].
      + intros e0 He0 Hw0. destruct (shelf_wired_not_mark _ _ _ Hw0 Hm).
      + intros _. split; [apply mark_wired_choose; assumption|]. split; [exact Henc|exact Hok]. }
  destruct Hend as [Hret Hw2].
  destruct (update_with refusal ev0 s1) as [o s2]; cbn [fst snd] in *. subst o.
  destruct refusal as [x|]; cbn [verdict fst snd]; (split; [|exact Hw2]).
  - right. eauto.
  - left. reflexivity.
Qed.

(** *** A new value in a control of an advanced panel *)

Lemma values_ok_accepts t c v :
  values_ok t c = true -> accepts c v = true -> value_ok t v = true.
Proof.
  unfold values_ok, accepts. destruct (w_kind c); try discriminate.
  - intros Hall Hin. apply bool_decide_eq_true in Hin.
    rewrite forallb_forall in Hall. apply Hall, list_elem_of_In, Hin.
  - destruct v; try discriminate. intros H _. exact H.
  - destruct v; try discriminate. reflexivity.
Qed.

Lemma edit_child_spec j v panel pj c :
  py_pos (length (w_children panel)) j = Returned pj ->
  w_children panel !! pj = Some c ->
  edit_child j v panel = set_children (<[pj := set_value v c]> (w_children panel)) panel.
Proof.
  intros Hpj Hc. unfold edit_child, modify_at. rewrite Hpj. cbn [obind]. rewrite Hc. reflexivity.
Qed.

Lemma titles_insert_value pj v c (cs : list widget) :
  cs !! pj = Some c -> w_title <$> <[pj := set_value v c]> cs = w_title <$> cs.
Proof.
  intros Hc. rewrite list_fmap_insert. apply list_insert_id.
  rewrite list_lookup_fmap, Hc. reflexivity.
Qed.

Lemma shelf_wired_edit i e e' r qa panel j pj c v t :
  shelf_wired i e r ->
  py_pos (length (w_children r)) (-1) = Returned qa ->
  w_children r !! qa = Some panel ->
  py_pos (length (w_children panel)) j = Returned pj ->
  w_children panel !! pj = Some c ->
  w_title c = Some t ->
  t ∈ shelf_options ->
  (forall key, key = "column" \/ key = "aggregate" ->
     (t = key -> v <> VNone) -> is_Some (e !! key) \/ t = key -> is_Some (e' !! key)) ->
  shelf_wired i e' (set_children (<[qa := edit_child j v panel]> (w_children r)) r).
Proof.
  intros [Hinv Hw] Hqa Hpanel Hpj Hc Ht Hin Hkeys.
  split; [apply (row_edit r qa panel j v Hqa Hpanel), Hinv|].
  rewrite (edit_child_spec _ _ _ _ _ Hpj Hc).
  unfold shelf_inv in Hinv.
  destruct (w_children r) as [|cols [|enc [|but [|adv [|? ?]]]]]; try contradiction.
  simpl in Hqa. injection Hqa as <-. simpl in Hpanel. injection Hpanel as <-.
  destruct Hw as (H1 & H2 & H3 & H4 & H5 & H6 & H7).
  set (cs' := <[pj := set_value v c]> (w_children adv)).
  cbn [w_children set_children list_insert insert]. subst cs'.
  assert (Hcol : t <> "column").
  { intros ->. unfold shelf_options in Hin. rewrite !elem_of_cons in Hin.
    destruct Hin as [?|[?|[?|[?|[?|[?|Hin]]]]]]; try discriminate.
    apply elem_of_nil in Hin. contradiction. }
  split; [exact H1|]. split; [exact H2|]. split.
  { intros Htitle Hne. apply Hkeys; [auto|intros ?; contradiction|left; apply H3; assumption]. }
  split; [exact H4|]. split; [exact H5|]. split.
  - apply Forall_lookup. intros n c2 Hn. cbn [w_children set_children] in Hn.
    destruct (decide (n = pj)) as [->|Hnp].
    + rewrite list_lookup_insert_eq in Hn by (eapply lookup_lt_Some, Hc). injection Hn as <-.
      destruct (Forall_lookup_1 _ _ _ _ H6 Hc) as (Hrow & Htv & Hb).
      split; [exact Hrow|]. split; [exact Htv|].
      intros Htitle Hne. cbn [w_title w_value set_value] in Htitle, Hne.
      rewrite Ht in Htitle. injection Htitle as ->. apply Hkeys; auto.
    + rewrite list_lookup_insert_ne in Hn by congruence.
      destruct (Forall_lookup_1 _ _ _ _ H6 Hn) as (Hrow & Htv & Hb).
      split; [exact Hrow|]. split; [exact Htv|].
      intros Htitle Hne. apply Hkeys; [auto| |left; apply Hb; assumption].
      intros ->. exfalso. apply Hnp. eapply (NoDup_lookup _ _ _ _ H7).
      * rewrite list_lookup_fmap, Hn. cbn. rewrite Htitle. reflexivity.
      * rewrite list_lookup_fmap, Hc. cbn. rewrite Ht. reflexivity.
  - cbn [w_children set_children]. rewrite titles_insert_value by exact Hc. exact H7.
Qed.

Lemma mark_wired_edit r qa panel j pj c v :
  mark_wired r ->
  py_pos (length (w_children r)) (-1) = Returned qa ->
  w_children r !! qa = Some panel ->
  py_pos (length (w_children panel)) j = Returned pj ->
  w_children panel !! pj = Some c ->
  mark_wired (set_children (<[qa := edit_child j v panel]> (w_children r)) r).
Proof.
  intros [Hinv Hw] Hqa Hpanel Hpj Hc.
  split; [apply (row_edit r qa panel j v Hqa Hpanel), Hinv|].
  rewrite (edit_child_spec _ _ _ _ _ Hpj Hc).
  unfold mark_inv in Hinv.
  destruct (w_children r) as [|mc [|but [|mo [|? ?]]]]; try contradiction.
  simpl in Hqa. injection Hqa as <-. simpl in Hpanel. injection Hpanel as <-.
  destruct Hw as (H1 & H2 & H3).
  set (cs' := <[pj := set_value v c]> (w_children mo)).
  cbn [w_children set_children list_insert insert]. subst cs'.
  split; [exact H1|]. split; [exact H2|]. cbn [w_children set_children].
  apply Forall_insert; [exact H3|]. exact (Forall_lookup_1 _ _ _ _ H3 Hc).
Qed.

(** The control an edit addresses. *)
Lemma edited_control self p r qa panel pj c v :
  wired self ->
  w_children (controller self) !! p = Some r ->
  py_pos (length (w_children r)) (-1) = Returned qa ->
  w_children r !! qa = Some panel ->
  w_children panel !! pj = Some c ->
  accepts c v = true ->
  v <> w_value c ->
  w_observers c = [CbUpdate] /\
  ((exists e t, encodings (settings self) !! p = Some e /\ shelf_wired (Z.of_nat p) e r /\
                w_row c = Some (Z.of_nat p) /\ w_title c = Some t /\
                t ∈ shelf_options /\
                value_ok t v = true /\ (v = VNone -> is_Some (e !! t))) \/
   (mark_wired r /\ w_row c = Some (-1) /\ exists t, w_title c = Some t /\ t <> "mark")).
Proof.
  intros Hwired Hr Hqa Hpanel Hc Hacc Hne.
  destruct (wired_locate _ _ _ Hwired Hr) as [(e & He & Hw & _)|[Hm _]].
  - pose proof Hw as [Hinv Htags]. unfold shelf_inv in Hinv.
    destruct (w_children r) as [|cols [|enc [|but [|adv [|? ?]]]]]; try contradiction.
    simpl in Hqa. injection Hqa as <-. simpl in Hpanel. injection Hpanel as <-.
    destruct Hinv as (_ & _ & _ & [_ Hobs] & _).
    destruct Htags as (_ & _ & _ & _ & _ & H6 & _).
    split; [exact (Forall_lookup_1 _ _ _ _ Hobs Hc)|]. left.
    destruct (Forall_lookup_1 _ _ _ _ H6 Hc) as (Hrow & (t & Ht & Hin & Hok) & Hb).
    exists e, t. split; [exact He|]. split; [exact Hw|]. split; [exact Hrow|].
    split; [exact Ht|]. split; [exact Hin|].
    pose proof (values_ok_accepts _ _ _ Hok Hacc) as Hv. split; [exact Hv|].
    intros ->. destruct (value_ok_None _ Hv) as [->| ->].
    + unfold shelf_options in Hin. rewrite !elem_of_cons in Hin.
      destruct Hin as [?|[?|[?|[?|[?|[?|Hin]]]]]]; try discriminate.
      apply elem_of_nil in Hin. contradiction.
    + apply Hb; [exact Ht|]. congruence.
  - pose proof Hm as [Hinv Htags]. unfold mark_inv in Hinv.
    destruct (w_children r) as [|mc [|but [|mo [|? ?]]]]; try contradiction.
    simpl in Hqa. injection Hqa as <-. simpl in Hpanel. injection Hpanel as <-.
    destruct Hinv as (_ & _ & [_ Hobs] & _).
    destruct Htags as (_ & _ & H3).
    split; [exact (Forall_lookup_1 _ _ _ _ Hobs Hc)|]. right.
    destruct (Forall_lookup_1 _ _ _ _ H3 Hc) as (Hrow & t & Ht & Hin).
    split; [exact Hm|]. split; [exact Hrow|]. exists t. split; [exact Ht|].
    intros ->. unfold _get_mark_params in Hin. rewrite !elem_of_cons in Hin.
    destruct Hin as [?|[?|[?|Hin]]]; try discriminate.
    apply elem_of_nil in Hin. contradiction.
Qed.

Lemma edit_wired refusal self row j v panel c :
  wired self ->
  widget_at self row (-1) = Returned panel ->
  py_getitem (w_children panel) j = Returned c ->
  w_visible panel = true ->
  w_disabled c = false ->
  accepts c v = true ->
  answered refusal (perform_with refusal (Edit row j v) self).1 /\
  wired (perform_with refusal (Edit row j v) self).2.
Proof.
  intros Hwired Hat Hget Hvis Hdis Hacc.
  unfold perform_with, sbind, sget, slift. rewrite Hat. cbn [fst snd].
  rewrite Hget, Hvis, Hdis, Hacc. cbn [negb orb fst snd].
  destruct (decide (v = w_value c)) as [_|Hne]; [split; [left; reflexivity|exact Hwired]|].
  destruct (widget_at_parts _ _ _ _ Hat) as (p & r & qa & Hp & Hr & Hqa & Hpanel).
  rewrite (on_cell_spec _ _ _ _ _ _ _ _ Hp Hr Hqa Hpanel). cbn [fst snd].
  assert (Hpj : exists pj, py_pos (length (w_children panel)) j = Returned pj /\
                           w_children panel !! pj = Some c).
  { unfold py_getitem in Hget.
    destruct (py_pos (length (w_children panel)) j) as [pj|]; [|discriminate].
    cbn [obind] in Hget. destruct (w_children panel !! pj) as [c'|] eqn:Hc'; [|discriminate].
    injection Hget as ->. eauto. }
  destruct Hpj as (pj & Hpj & Hc).
  destruct (edited_control self p r qa panel pj c v Hwired Hr Hqa Hpanel Hc Hacc Hne)
    as [Hobs Hcase].
  rewrite Hobs. cbn [notify_with call_with]. unfold sbind.
  match goal with |- context [update_with refusal ?ev ?s] => set (ev0 := ev); set (s1 := s) end.
  assert (Hend : (update_with refusal ev0 s1).1 = verdict refusal /\
                 wired (update_with refusal ev0 s1).2).
  { destruct Hcase as [(e & t & He & Hshelf & Hrow & Ht & Hin & Hok & Hnone)
                      |(Hm & Hrow & t & Ht & Hnm)].
    - destruct (update_on_row refusal ev0 s1 p e t (wired_settings _ Hwired) Hrow Ht eq_refl He
                  ltac:(do 2 apply list_elem_of_further; exact Hin) Hok Hnone)
        as (e' & Hret & Hctl & Hset & Hnamed & Hkeys).
      { intros ->. unfold shelf_options in Hin. rewrite !elem_of_cons in Hin.
        destruct Hin as [?|[?|[?|[?|[?|[?|Hin]]]]]]; try discriminate.
        apply elem_of_nil in Hin. contradiction. }
      split; [exact Hret|].
      eapply (wired_step self _ p r); [exact Hwired|exact Hr|rewrite Hctl; reflexivity| |].
      + intros e0 He0 Hw0. assert (e0 = e) as -> by congruence.
        exists e'. split; [exact Hset|]. split; [exact Hnamed|].
        eapply shelf_wired_edit; eassumption.
      + intros Hm. destruct (shelf_wired_not_mark _ _ _ Hshelf Hm).
    - destruct (update_on_mark refusal ev0 s1 t (wired_settings _ Hwired) Hrow Ht
                  (fun H => False_ind _ (Hnm H)))
        as (Hret & Hctl & Henc & Hok).
      split; [exact Hret|].
      eapply (wired_step self _ p r); [exact Hwired|exact Hr|rewrite Hctl; reflexivity| |].
      + intros e0 He0 Hw0. destruct (shelf_wired_not_mark _ _ _ Hw0 Hm).
      + intros _. split; [eapply mark_wired_edit; eassumption|].
        split; [exact Henc|exact Hok]. }
  destruct Hend as [Hret Hw2].
  destruct (update_with refusal ev0 s1) as [o s2]; cbn [fst snd] in *. subst o.
  destruct refusal as [x|]; cbn [verdict fst snd]; (split; [|exact Hw2]).
  - right. eauto.
  - left. reflexivity.
Qed.

(** *** The fresh form fits its settings *)

Lemma py_pos_nat n j p : py_pos n (Z.of_nat j) = Returned p -> p = j /\ (j < n)%nat.
Proof. py_pos_cases; intros [= <-]; lia. Qed.

Lemma _create_shelf_wired rest j w e :
  _create_shelf (VNone :: rest) (Z.of_nat j) = Returned w ->
  shelf_wired (Z.of_nat j) e w.
Proof.
  intros Hw. split; [eapply _create_shelf_inv, Hw|].
  unfold _create_shelf in Hw.
  destruct (py_getitem _get_encodings (Z.of_nat j)) as [dflt|]; [|discriminate].
  cbn [obind] in Hw. injection Hw as <-.
  cbn. repeat split; try constructor.
  intros _ Hne. contradiction.
Qed.

Lemma initial_named (l : list string) :
  l ⊆ _get_encodings -> Forall named (initial_entry <$> l).
Proof.
  intros Hl. apply Forall_fmap, Forall_forall. intros s Hs. exists s.
  split; [apply lookup_singleton_eq|apply Hl, Hs].
Qed.

Lemma __init___wired data ndims shw self :
  __init__ data ndims shw = Returned self -> wired self.
Proof.
  unfold __init__. destruct data as [cols|]; [|discriminate].
  destruct (_generate_controller _ ndims) as [ctl|] eqn:Hctl; [|discriminate].
  match goal with |- context [plot ?s ?b ?x] =>
    pose proof (plot_controller s b x) as Hc; pose proof (plot_settings s b x) as Hs;
    destruct (plot s b x) as [[[]|e] self1]
  end; [|discriminate].
  intros [= <-]. cbn [fst snd controller settings] in Hc, Hs.
  unfold _generate_controller, py_range in Hctl.
  destruct (omap_list _ _) as [dims|] eqn:Hdims; [|discriminate].
  cbn [obind] in Hctl. injection Hctl as <-.
  unfold wired. rewrite Hc, Hs. cbn [w_children new_VBox encodings mark].
  exists dims. eexists. split; [reflexivity|]. split; [|split; [|split]].
  - intros j r Hj.
    pose proof (proj1 (omap_list_Forall2 _ _ _) Hdims) as Hall.
    destruct (Forall2_lookup_r _ _ _ _ _ Hall Hj) as (i & Hi & Hw).
    rewrite list_lookup_fmap in Hi.
    destruct (seq 0 (Z.to_nat ndims) !! j) as [j'|] eqn:Hseq; [|discriminate].
    apply lookup_seq in Hseq as [-> Hlt]. cbn in Hi. injection Hi as <-.
    assert (Hj9 : (j < 9)%nat).
    { unfold _create_shelf in Hw.
      destruct (py_getitem _get_encodings (Z.of_nat j)) as [dflt|] eqn:Hd; [|discriminate].
      unfold py_getitem in Hd.
      destruct (py_pos (length _get_encodings) (Z.of_nat j)) as [p|] eqn:Hp; [|discriminate].
      apply py_pos_nat in Hp as [_ Hp]. exact Hp. }
    assert (He : exists enc, py_slice_to _get_encodings ndims !! j = Some enc).
    { unfold py_slice_to. destruct (Z.leb_spec 0 ndims) as [_|Hneg]; [|lia].
      rewrite lookup_take_lt by exact Hlt.
      apply lookup_lt_is_Some_2. exact Hj9. }
    destruct He as [enc He]. exists (initial_entry enc). split.
    + rewrite list_lookup_fmap, He. reflexivity.
    + eapply _create_shelf_wired, Hw.
  - split.
    + unfold mark_inv. simpl. repeat split; auto using Forall_nil. apply list_elem_of_here.
    + cbn. repeat split. constructor.
  - apply (initial_named (py_slice_to _get_encodings ndims)).
    unfold py_slice_to. destruct (0 <=? ndims); apply subseteq_take.
  - exists "mark_point". split; [apply lookup_singleton_eq|apply list_elem_of_here].
Qed.

(** *** Every action *)

Lemma impossible_unchanged refusal a self :
  possible a self = false -> exists x, perform_with refusal a self = (Raised x, self).
Proof.
  destruct a as [row k|row k v|row j v];
    unfold possible, perform_with, sbind, sget, slift, sraise.
  - destruct (widget_at self row k) as [w|x]; [|eauto].
    destruct (w_kind w); try discriminate; eauto.
  - destruct (widget_at self row k) as [w|x]; [|eauto].
    rewrite andb_false_iff, negb_false_iff. cbn [fst snd].
    intros [-> | ->]; [|rewrite orb_true_r]; eauto.
  - destruct (widget_at self row (-1)) as [panel|x]; [|eauto]. cbn [fst snd].
    destruct (py_getitem (w_children panel) j) as [c|x]; [|eauto].
    rewrite !andb_false_iff, negb_false_iff. cbn [fst snd].
    intros [[-> | ->] | ->]; cbn [negb orb]; rewrite ?orb_true_r; eauto.
Qed.

Lemma perform_with_wired refusal a self :
  wired self ->
  wired (perform_with refusal a self).2 /\
  (possible a self = true -> answered refusal (perform_with refusal a self).1).
Proof.
  intros Hwired. destruct (possible a self) eqn:Hposs.
  - assert (H : answered refusal (perform_with refusal a self).1 /\
                wired (perform_with refusal a self).2); [|tauto].
    destruct a as [row k|row k v|row j v]; unfold possible in Hposs.
    + destruct (widget_at self row k) as [w|] eqn:Hat; [|discriminate].
      destruct (w_kind w) eqn:Hk; try discriminate.
      destruct (click_wired refusal self row k w Hwired Hat Hk) as [H1 H2].
      split; [left; exact H1|exact H2].
    + destruct (widget_at self row k) as [w|] eqn:Hat; [|discriminate].
      apply andb_true_iff in Hposs as [Hdis Hacc]. apply negb_true_iff in Hdis.
      eapply choose_wired; eassumption.
    + destruct (widget_at self row (-1)) as [panel|] eqn:Hat; [|discriminate].
      destruct (py_getitem (w_children panel) j) as [c|] eqn:Hc; [|discriminate].
      apply andb_true_iff in Hposs as [Hposs Hacc].
      apply andb_true_iff in Hposs as [Hvis Hdis]. apply negb_true_iff in Hdis.
      eapply edit_wired; eassumption.
  - destruct (impossible_unchanged refusal a self Hposs) as [x ->].
    split; [exact Hwired|discriminate].
Qed.

Lemma in_use_wired self : in_use self -> wired self.
Proof.
  induction 1 as [data ndims shw self Hinit|refusal a self _ IH].
  - eapply __init___wired, Hinit.
  - apply perform_with_wired, IH.
Qed.

(** When the library accepts every call, the handlers are those of the
    module as they stand. *)
Lemma notify_with_None cbs w new old : forall self,
  notify_with None cbs w new old self = notify cbs w new old self.
Proof.
  induction cbs as [|cb cbs IH]; intros self; cbn [notify_with notify]; [reflexivity|].
  unfold sbind. destruct cb; cbn [call_with call].
  - rewrite update_with_None. destruct (update _ self) as [[[]|x] s1]; [apply IH|reflexivity].
  - destruct (_show_advanced w 1 self) as [[[]|x] s1]; [apply IH|reflexivity].
Qed.

Lemma perform_with_None a self : perform_with None a self = perform a self.
Proof.
  destruct a as [row k|row k v|row j v]; unfold perform_with, perform, sbind, sget, slift.
  - destruct (widget_at self row k) as [w|]; [|reflexivity]. cbn [fst snd].
    destruct (w_kind w); try reflexivity. apply notify_with_None.
  - destruct (widget_at self row k) as [w|]; [|reflexivity]. cbn [fst snd].
    destruct (w_disabled w || negb (accepts w v)); [reflexivity|].
    destruct (decide (v = w_value w)); [reflexivity|].
    destruct (on_cell row k (set_value v) self) as [[[]|x] s1]; [|reflexivity].
    apply notify_with_None.
  - destruct (widget_at self row (-1)) as [panel|]; [|reflexivity]. cbn [fst snd].
    destruct (py_getitem (w_children panel) j) as [c|]; [|reflexivity].
    destruct (negb (w_visible panel) || w_disabled c || negb (accepts c v)); [reflexivity|].
    destruct (decide (v = w_value c)); [reflexivity|].
    destruct (on_cell row (-1) (edit_child j v) self) as [[[]|x] s1]; [|reflexivity].
    apply notify_with_None.
Qed.

Lemma reachable_in_use self : reachable self -> in_use self.
Proof.
  induction 1 as [data ndims shw self Hinit|a self _ IH].
  - eapply in_use_init, Hinit.
  - rewrite <- perform_with_None. apply in_use_step, IH.
Qed.


(** X20: on a form in use no handler fails on its own.  Whatever the user
    can do on a form that was constructed and then operated (click an
    options button, choose a value a selector offers, put a value into a
    control of a panel that is showing), and whatever the charting library
    answered to the re-renders so far, the handlers that the toolkit calls
    return, or else they raise the exception with which the library refuses
    the re-render.  None of the failures of the module's own code occurs:
    no [KeyError] on removing a key, no [IndexError] on a row, no
    [AttributeError] on a tag. *)
Theorem possible_action_returns refusal a self :
  in_use self ->
  possible a self = true ->
  (perform_with refusal a self).1 = Returned tt \/
  exists e, refusal = Some e /\ (perform_with refusal a self).1 = Raised e.
Proof.
  intros Huse Hposs.
  exact (proj2 (perform_with_wired refusal a self (in_use_wired _ Huse)) Hposs).
Qed.

(** X20 at the form with the options of row 0 open: 'mean' is chosen in
    the aggregate selector, and the library refuses the re-render. *)
Lemma possible_action_returns_witness :
  (perform_with (Some TraitError) (Edit 0 2 (VStr "mean")) demo_open).1 = Returned tt \/
  exists e, Some TraitError = Some e /\
            (perform_with (Some TraitError) (Edit 0 2 (VStr "mean")) demo_open).1 = Raised e.
Proof.
  apply (possible_action_returns (Some TraitError) (Edit 0 2 (VStr "mean")) demo_open).
  - apply reachable_in_use, reach_step.
    apply (reach_init (DataFrame demo_columns) 4 true). reflexivity.
  - vm_compute. reflexivity.
Defined.



(** *** The stored chart *)

Lemma plot_current s b self :
  (plot s b self).1 = Returned tt -> chart_current (plot s b self).2.
Proof.
  unfold plot. destruct (plot_chart self) as [c|] eqn:Hc; [|discriminate].
  intros _. exists c. destruct (b && _); split; solve [exact Hc | reflexivity].
Qed.

Lemma update_with_current refusal ev self :
  (update_with refusal ev self).1 = Returned tt ->
  chart_current (update_with refusal ev self).2.
Proof.
  unfold update_with, sbind.
  destruct (mutate ev self) as [[[]|x] s1]; cbn [fst snd]; [|discriminate].
  destruct refusal as [x|]; cbn [render]; [discriminate|].
  unfold sbind, sget. apply plot_current.
Qed.

Lemma only_current {A} (c : ST Interact A) self :
  only_controller c -> chart_current self -> chart_current (c self).2.
Proof. intros Honly Hcur. destruct (Honly self) as [ctl ->]. exact Hcur. Qed.

Lemma notify_with_current refusal cbs w new old : forall self,
  (notify_with refusal cbs w new old self).1 = Returned tt ->
  chart_current self -> chart_current (notify_with refusal cbs w new old self).2.
Proof.
  induction cbs as [|cb cbs IH]; intros self; cbn [notify_with]; [intros _ H; exact H|].
  unfold sbind. intros Hret Hcur.
  assert (Hcall : (call_with refusal cb w new old self).1 = Returned tt ->
                  chart_current (call_with refusal cb w new old self).2).
  { destruct cb; cbn [call_with].
    - apply update_with_current.
    - intros _. apply only_current; [apply only__show_advanced|exact Hcur]. }
  destruct (call_with refusal cb w new old self) as [[[]|x] s1]; cbn [fst snd] in *;
    [|discriminate].
  apply IH; [exact Hret|]. apply Hcall. reflexivity.
Qed.

(** X22: an action whose handlers return keeps the stored chart in step
    with the settings.  When [self.chart] is the chart that the settings
    compile to and the user acts on the form, then, if every handler
    returns, [self.chart] is again the chart that the settings compile to,
    whether the action changed the settings or not.  (When the library
    refuses the re-render the handler raises, and the chart stays behind the
    settings.) *)
Theorem returning_action_keeps_chart_current refusal a self :
  (perform_with refusal a self).1 = Returned tt ->
  chart_current self ->
  chart_current (perform_with refusal a self).2.
Proof.
  intros Hret Hcur. revert Hret.
  destruct a as [row k|row k v|row j v]; unfold perform_with, sbind, sget, slift, sraise;
    cbn [fst snd].
  - destruct (widget_at self row k) as [w|]; [|discriminate].
    destruct (w_kind w); try discriminate. intros Hret. apply notify_with_current; assumption.
  - destruct (widget_at self row k) as [w|]; [|discriminate].
    destruct (w_disabled w || negb (accepts w v)); [discriminate|].
    destruct (decide (v = w_value w)); [intros _; exact Hcur|].
    pose proof (only_current (on_cell row k (set_value v)) self (only_on_cell _ _ _) Hcur) as H1.
    destruct (on_cell row k (set_value v) self) as [[[]|x] s1]; cbn [fst snd] in *; [|discriminate].
    intros Hret. apply notify_with_current; assumption.
  - destruct (widget_at self row (-1)) as [panel|]; [|discriminate]. cbn [fst snd].
    destruct (py_getitem (w_children panel) j) as [c|]; [|discriminate].
    destruct (negb (w_visible panel) || w_disabled c || negb (accepts c v)); [discriminate|].
    destruct (decide (v = w_value c)); [intros _; exact Hcur|].
    pose proof (only_current (on_cell row (-1) (edit_child j v)) self (only_on_cell _ _ _) Hcur)
      as H1.
    destruct (on_cell row (-1) (edit_child j v) self) as [[[]|x] s1]; cbn [fst snd] in *;
      [|discriminate].
    intros Hret. apply notify_with_current; assumption.
Qed.

(** X22 at the form with the options of row 0 open, when 'mean' is chosen
    in the aggregate selector and the library accepts the re-render. *)
Lemma returning_action_keeps_chart_current_witness :
  chart_current (perform_with None (Edit 0 2 (VStr "mean")) demo_open).2.
Proof.
  apply (returning_action_keeps_chart_current None (Edit 0 2 (VStr "mean")) demo_open).
  - vm_compute. reflexivity.
  - eexists. split; vm_compute; reflexivity.
Defined.

(** *** The tags of the controls *)



